(* ===== verification/_CoqProject ===== *)
-Q . S2P
Prelude.v
PyDict.v
PyInt.v
PyValue.v
Codec.v
Spec.v
Tracker.v
Json.v
PyFormat.v
JsonParse.v
JsonRoundtrip.v
JsonPrefix.v
Refinement.v
Laws.v
Persistence.v
Safety.v
IntLimit.v
Cli.v
Tests.v
Restart.v
Scenarios.v
