(* ===== verification/Prelude.v ===== *)
(** * Verification of the habit tracker (src/habit_tracker.py)

    The program is one Python class, [HabitTracker], a menu loop,
    [main], run by the script's entry point, and a [unittest] suite
    (src/test_habit_tracker.py) that drives the class.  A tracker holds a file name and [habits], the object that
    [json.load] returned for that file (a dict from habit name to a
    record dict with keys "description", "frequency" and
    "completion_count"), and rewrites the whole file with [json.dump]
    after every mutating method.  [main] reads menu choices with
    [input()] and calls the methods; it catches no exception.

    ** Files, in dependency order (as _CoqProject lists them)

    - [Prelude] (this file): Python [str] as a list of code points
      ([pystr]), the state-and-exception monad [PyM] in which every
      method is written (scope [pym_scope], notations [x <- m ;; k] and
      [m ;;; k]), its rewriting lemmas in the databases [pym] and
      [pym_rw], the tactic [pym_simp], and generic list lemmas.
    - [PyDict]: Python's insertion-ordered [dict] as an association
      list: [dict_get], [dict_set] ([d[k] = v]: replace in place or
      append), [dict_del] ([del d[k]]), the invariant [dict_wf] (no
      repeated key), the refinement of the operations into stdpp's
      [gmap] ([to_map]), and dict equality [dict_equiv] with [Proper]
      instances for setoid rewriting.
    - [PyValue]: the objects [json.load] builds ([pyval]: None, bool,
      int, str, list, dict; [EqDecision] and [Countable] instances),
      Python's exceptions ([pyexc]) and the dynamically typed operations
      the methods apply: [in] ([py_contains]), subscription ([py_locate],
      [py_read_at], [py_getitem]), in-place update of a nested record
      ([py_writeback]), item assignment and deletion ([py_setitem],
      [py_delitem]), [+= 1] ([py_iadd_one]) and iteration
      ([py_iter_len], [py_iter_nth]); [py_fits]: every int of a value
      is within the conversion limit of [PyInt].
    - [PyInt]: CPython's limit of 4300 digits on converting an [int] to
      or from decimal text (3.11 and later, the default of
      [sys.set_int_max_str_digits]): [int_fits], computed as
      [|z| < int_str_bound = 10 ^ 4300] and proved equal to the digit
      count of the Standard Library's [Z.to_int] ([int_fits_digits]),
      and the messages of the two [ValueError]s.
    - [Codec]: the interface [JsonCodec] (a class) the tracker is
      written against: what [json.dump] writes into the open file
      ([json_dump_io]: the whole text [json_dumps], or the text written
      before an exception), [json_loads], and the laws: the dump
      completes on values within the int limit, [json_loads] returns
      only such values, and reading back what was written gives the
      value, on [json_safe] values.
    - [Spec]: the abstract store of the specification: a [gmap] from
      names to typed [habit] records, the operations [Store.add],
      [Store.mark], [Store.view], [Store.remove], [Store.reset] with the
      errors [DuplicateHabit] and [HabitNotFound], requests ([command])
      and sessions ([Store.run], [Store.exec]), and their laws.
    - [Tracker]: [HabitTracker] (lines 4-50).  The state is a [world]:
      [filename], [habits] and the disk (a [gmap] from file names to a
      text or to a file [open] refuses).  [load_data], [save_data],
      [add_habit], [mark_completed], [view_progress], [remove_habit] and
      [reset_progress] are translated statement by statement: the
      membership guard, the [raise], the mutation (in place for nested
      records), then [save_data]; the [for] loop of [reset_progress] is
      [reset_loop], which reads the live dict item by item.  The
      theorems give each method's result on every branch.
    - [Json]: the text of [json.dump(obj, fp, indent=4)]: the pure
      Python iterencode with its separators and indentation, strings
      through the C [ascii_escape_unicode] (surrogate pairs above
      U+FFFF, lowercase hex), integers through [int.__repr__];
      [json_dump_ascii]: every character written is a newline or
      printable ASCII, by bounds on [Z.land] masks of the code points.
      [dump_io] is the same encoder as the chunks it writes into the
      file: an int beyond the limit raises in [int.__repr__] after the
      chunks before it are written ([dump_io_spec]: a proper prefix of
      the text).
    - [PyFormat]: [format(v, '')], which the f-string of choice 3
      applies to the progress: [str()] of a str, None, a bool or an
      int (its decimal text, or the [ValueError] of the int limit), and
      the [repr] of a list or a dict (CPython's [list_repr],
      [dict_repr] and [unicode_repr]: quote choice, backslash escapes,
      [\xhh], [\uhhhh], [\Uhhhhhhhh]).  Which non-ASCII code points are
      printable is a table of the interpreter, the class parameter
      [UnicodeData].  [py_format_fits]: formatting raises exactly on a
      value holding an int beyond the limit.
    - [JsonParse]: [json.load] as the C scanner of Modules/_json.c:
      [scan_value], [scan_elements] and [scan_members] are mutually
      recursive on fuel, with the three-way result value / error / out
      of fuel; a number with a fraction or exponent is a float, reported
      as [FloatFound]; an integer of more than 4300 digits raises the
      [ValueError] of [int(s)] ([json_loads_int_limit]), and every int
      read is within the limit.  [scan_value_terminates]: the fuel
      [2 * length + 1] is always enough and larger fuel changes nothing.
    - [JsonRoundtrip]: [json.loads (json.dumps v) = v] for every value
      whose strings are valid and hold no high surrogate directly
      followed by a low one, whose dicts have no repeated key and whose
      ints have at most 4300 digits ([roundtrip_safe]), by nested induction on the value, with bit
      lemmas for the [\uXXXX] escapes; the instance [python_json].
      [text_safe] is [roundtrip_safe] without its condition on ints.
      This is the special case of [json_loads_dump_any]: on the text the
      writer gives for any value whose strings hold code points, with no
      int limit, [json.load] returns [join_value v] (every high surrogate
      directly followed by a low one joined into one code point, dicts
      rebuilt by item assignment, so keys that become equal merge) or
      raises the [ValueError] of [int(s)] on the first int of more than
      4300 digits ([first_long]), by one nested induction ([scan_join]).
    - [JsonPrefix]: the composition of the writer and the reader on a
      save cut short.  The text [dump_io] has written when it raises is
      the items completed so far, then the item that raised, cut where
      it raised ([dump_io_cut], by nested induction on the value over
      the chunks of [_iterencode]); the reader reads the completed items
      back and gives up at the end of the text ([cut_text]), so
      [json.load] refuses it with [JSONDecodeError]
      ([json_loads_cut]).
    - [Refinement]: the abstraction [abs_store] of [habits] into the
      abstract store, the refinement of every method ([mutates_as]: the
      abstract error with nothing changed, or [save_data] on [habits]
      standing for the new store), of every request ([run_command]) and
      of sessions whose exceptions are caught ([run_session_refines]).
      The counts of the store are bounded ([store_fits]) where a
      request must save: a count of [10 ^ 4300] cannot be written.
    - [Laws]: the testable properties of section 8 of the
      specification, for the code: the counting law ([mark_times]),
      [add] then [view], [remove] then [view], [reset] then [view], a
      second [add] refused.
    - [Persistence]: with [python_json], the trackers a session reaches
      from [HabitTracker(filename)] on a missing file ([reachable], an
      inductive relation); by rule induction each stands for an
      abstract store, keeps [habits] safe for the codec, and, while its
      ints are within the limit, is exactly what reopening its file
      gives ([reopen_reachable]); saving then
      loading gives the tracker back ([save_then_load]).
    - [Safety]: for every tracker, well formed or not, a mutating
      method either raises with the disk untouched, or raises what
      [json.dump] raised with its own file holding what was written,
      or returns with exactly its [habits] written into its own file
      ([methods_disk_safety], from the shape [method_outcome] of every
      method); [add_habit], [mark_completed] and [remove_habit] change
      [habits] only together with [save_data]: an exception raised
      before leaves the tracker as it was ([methods_atomic]); every
      request keeps [habits] a dict of typed records
      ([after_command_typed]).
    - [IntLimit]: [save_data] completes exactly when the ints of
      [habits] are within the limit, and otherwise raises with its file
      truncated to a proper prefix of the text ([save_data_int_limit]);
      [mark_completed] past [10 ^ 4300 - 1] raises after the count
      changed and the file was cut short ([mark_completed_overflow]),
      and the next [HabitTracker()] reads that file as an empty store
      ([mark_completed_overflow_empties]); in every tracker a session
      reaches, any request that raises after writing the file leaves
      one the next start reads as empty ([request_cut_empties]).
    - [Cli]: [main] (lines 53-102) on a [cli] state (tracker, remaining
      input lines, output).  [input()] writes its prompt and raises
      [EOFError] at the end of the input; [print] appends its text and a
      newline; the f-string field [{progress}] is [py_format], which may
      raise.  [main_loop] runs [loop_body]
      on fuel [S (length input)]: every pass that goes on reads a line,
      so this fuel is enough and more changes nothing
      ([main_loop_terminates]).  [main_commands]: fed the menu lines of
      requests, while the counts stay within the int limit, [main]
      implements [Store.exec], and ends with the [ValueError] of the
      first refused request.  The states of the loop ([loop_reach], an
      inductive relation) all hold trackers within the int limit, by
      rule induction over the passes ([loop_reach_fits]: a method
      returns only through a completed [json.dump]); so the progress
      line is always printed and never raises ([loop_view_prints]).
      [script] is the entry point (lines 101-102); [script_terminates]:
      it ends on every disk and every input.
    - [Tests]: the [unittest] suite.  [setUp], [tearDown] and the nine
      test methods are programs of the same monad over the methods of
      [Tracker]; a failed assertion raises [AssertionError] and
      [assertRaises(ValueError)] is a handler.  [run_suite] runs them in
      [unittest]'s sorted order, passing the disk from test to test:
      all pass whatever an earlier run left in the test file
      ([suite_passes_any_content]), unless
      [json.load] raises on it: then every test errs in [setUp]
      ([suite_errors_on_load_error]).
    - [Restart]: what [HabitTracker()] makes of the file a run left:
      reopening after a save gives [join_value habits], so a name with
      a surrogate pair comes back renamed and two names that then
      coincide merge ([reopen_joins]); a file in the writer's format
      with a count of more than 4300 digits stops [main] before its
      menu with the [ValueError] of [int(s)] ([main_long_int_file]); a
      file holding a JSON array is kept as [habits], on which every
      add, mark, view and remove request raises
      ([list_file_refuses]).
    - [Scenarios]: the witnesses of the theorems with hypotheses, on
      concrete trackers and disks.  The big-integer witnesses start
      from a tracker holding the count rather than from its file, and
      the overflow is shown by rewriting ([dump_count_overflow],
      [nines_overflow]), so that no 4300-digit number is
      converted or computed by the kernel; the runs of [main] use one
      Unicode database, which they never consult.

    ** Findings the theorems show

    [main] catches no [ValueError], so a refused request ends the
    program ([main_commands]); a method whose
    [save_data] fails has already changed [habits]
    ([add_habit_unwritable]), and [reset_progress] on a record that is
    not a dict stops half way with [TypeError] and saves nothing
    ([reset_progress_partial]), where the specification excludes partial
    mutation (the other methods raise before any change, or in
    [save_data]: [methods_atomic]); [load_data] keeps any JSON value,
    and a JSON array in the file makes every request raise where the
    specification recovers an empty store ([list_file_refuses]); the
    save/load round trip renames every string with a surrogate pair
    and merges the habits whose names then coincide ([reopen_joins]);
    the end of the input ends [main] with [EOFError]
    ([loop_body_eof]).  With CPython 3.11 or later, a file holding an
    int of more than 4300 digits makes [HabitTracker()] raise
    [ValueError], which [load_data] does not catch
    ([json_loads_int_limit], [main_long_int_file]), and makes every unit test err
    ([suite_errors_on_load_error]); [save_data] opens the file for
    writing before [json.dump] runs, so a count that reaches [10 ^ 4300]
    raises with the file truncated ([save_data_int_limit],
    [mark_completed_overflow]), and the next start reads it as an empty
    store: every habit is lost ([mark_completed_overflow_empties]).  This loss is general: whatever
    [habits] holds, a save [json.dump] cuts short leaves a text
    [json.load] refuses ([json_loads_cut]), never a shorter store.

    ** Fuel

    [main_loop] gets one pass more than there are input lines and
    [scan_value] twice the length of the text plus one; both bounds are
    proved enough, and larger fuel is proved to give the same result.

    ** The int limit

    The limit is CPython's default, 4300 digits.  Theorems on successful
    saves take [py_fits] of [habits], which [HabitTracker] establishes
    ([HabitTracker_fits]: [json.load] returns no int beyond the limit),
    and a bound on the counts a session can reach; both hold in every
    run that does not complete a habit about [10 ^ 4300] times.

    ** Not modelled

    Floating-point JSON numbers (a file holding one is [MainFloat] /
    [FloatFound]); a limit changed by [sys.set_int_max_str_digits] or
    the [PYTHONINTMAXSTRDIGITS] variable, and running under a Python
    before 3.11, which has no limit (a file such a Python wrote is
    modelled: [json_loads_dump_any], [main_long_int_file]); [RecursionError] on deeply nested JSON (in [json.load], and in [repr] of the progress); the text encoding of
    the file (a file is its decoded text); [OSError]s of [open] other
    than [PermissionError], and a process killed during a write (the
    text written before an exception is modelled);
    the Unicode database's printable classification (a parameter of
    [repr], [UnicodeData]); the encoding of standard input and output
    (a line is its decoded text, and what [print] writes is kept as
    text); the [unittest] runner beyond running
    [setUp], the method and [tearDown] in sorted order (its output and
    exit status); [os.path.exists] and [os.remove] are the membership
    and deletion of the disk map. *)

From stdpp Require Export base list gmap strings.
From Stdlib Require Export ZArith Lia.

Open Scope Z_scope.

(** ** Python strings *)

(** A Python [str] is a sequence of Unicode code points. *)
Abbreviation pystr := (list Z).

(** The [str] literal of an ASCII Rocq string. *)
Definition str (s : string) : list Z :=
  map (fun a => Z.of_nat (Ascii.nat_of_ascii a)) (String.list_ascii_of_string s).

(** ** The state-and-exception monad

    A Python method runs on a state [S] and either returns a value or
    raises an exception of type [E].  The state is returned in both
    cases: a method that raises keeps every mutation it made before the
    [raise]. *)

Definition PyM (S E A : Type) : Type := S -> S * (E + A).

Section Monad.
Context {S E : Type}.

Definition ret {A} (a : A) : PyM S E A := fun s => (s, inr a).
Definition raise {A} (e : E) : PyM S E A := fun s => (s, inl e).
Definition bind {A B} (m : PyM S E A) (k : A -> PyM S E B) : PyM S E B :=
  fun s => let '(s', r) := m s in
           match r with inl e => (s', inl e) | inr a => k a s' end.
Definition get : PyM S E S := fun s => (s, inr s).
Definition put (s : S) : PyM S E unit := fun _ => (s, inr tt).
Definition modify (f : S -> S) : PyM S E unit := fun s => (f s, inr tt).
(** Run a pure computation that may raise. *)
Definition lift {A} (r : E + A) : PyM S E A := fun s => (s, r).

Lemma bind_ret {A B} (a : A) (k : A -> PyM S E B) s : bind (ret a) k s = k a s.
Proof. reflexivity. Qed.

Lemma bind_raise {A B} (e : E) (k : A -> PyM S E B) s : bind (raise e) k s = (s, inl e).
Proof. reflexivity. Qed.

Lemma bind_lift_inr {A B} (a : A) (k : A -> PyM S E B) s : bind (lift (inr a)) k s = k a s.
Proof. reflexivity. Qed.

Lemma bind_lift_inl {A B} (e : E) (k : A -> PyM S E B) s :
  bind (lift (inl e)) k s = (s, inl e).
Proof. reflexivity. Qed.

Lemma bind_get {B} (k : S -> PyM S E B) s : bind get k s = k s s.
Proof. reflexivity. Qed.

Lemma bind_put {B} s' (k : unit -> PyM S E B) s : bind (put s') k s = k tt s'.
Proof. reflexivity. Qed.

Lemma bind_modify {B} f (k : unit -> PyM S E B) s : bind (modify f) k s = k tt (f s).
Proof. reflexivity. Qed.

Lemma bind_assoc {A B C} (m : PyM S E A) (k : A -> PyM S E B) (h : B -> PyM S E C) s :
  bind (bind m k) h s = bind m (fun a => bind (k a) h) s.
Proof. unfold bind. destruct (m s) as [s' [e|a]]; reflexivity. Qed.

Lemma bind_ok {A B} (m : PyM S E A) (k : A -> PyM S E B) s s' a :
  m s = (s', inr a) -> bind m k s = k a s'.
Proof. unfold bind. intros ->. reflexivity. Qed.

Lemma bind_err {A B} (m : PyM S E A) (k : A -> PyM S E B) s s' e :
  m s = (s', inl e) -> bind m k s = (s', inl e).
Proof. unfold bind. intros ->. reflexivity. Qed.

Lemma bind_inr_inv {A B} (m : PyM S E A) (k : A -> PyM S E B) s s' b :
  bind m k s = (s', inr b) -> exists s1 a, m s = (s1, inr a) /\ k a s1 = (s', inr b).
Proof. unfold bind. destruct (m s) as [s1 [e|a]]; [discriminate | eauto]. Qed.

(** Returning a value after [m] leaves the state [m] leaves. *)
Lemma bind_ret_state {A B} (m : PyM S E A) (f : A -> B) s :
  (bind m (fun a => ret (f a)) s).1 = (m s).1.
Proof. unfold bind. destruct (m s) as [s' [e|a]]; reflexivity. Qed.
End Monad.

Arguments ret : simpl never.
Arguments raise : simpl never.
Arguments bind : simpl never.
Arguments get : simpl never.
Arguments put : simpl never.
Arguments modify : simpl never.
Arguments lift : simpl never.

Declare Scope pym_scope.
Delimit Scope pym_scope with pym.
Notation "x <- m ;; k" := (bind m (fun x => k))
  (at level 100, m at next level, right associativity) : pym_scope.
Notation "m ;;; k" := (bind m (fun _ => k))
  (at level 100, right associativity) : pym_scope.

Create HintDb pym.
Create Rewrite HintDb pym_rw.
#[export] Hint Rewrite @bind_ret @bind_raise @bind_lift_inr @bind_lift_inl
  @bind_get @bind_put @bind_modify @bind_assoc : pym_rw.

(** [pym_simp] pushes a monadic program through its binds. *)
Ltac pym_simp := repeat (autorewrite with pym_rw; cbn beta iota).

(** ** Generic list lemmas *)

Lemma NoDup_map_fst_app_single {K V} (l : list (K * V)) k v :
  NoDup (fst <$> l) -> k ∉ fst <$> l -> NoDup (fst <$> l ++ [(k, v)]).
Proof.
  intros Hl Hk. rewrite fmap_app. simpl.
  apply NoDup_app. split; [done|]. split; [|apply NoDup_singleton].
  intros x Hx ->%list_elem_of_singleton. done.
Qed.

Lemma forallb_andb {A} (f g : A -> bool) l : forallb (fun x => f x && g x) l = forallb f l && forallb g l.
Proof. induction l as [|x l IH]; simpl; [done|]. rewrite IH. by destruct (f x), (g x), (forallb f l). Qed.
