(* ===== verification/PyDict.v ===== *)
(** * Python's [dict] as an insertion-ordered association list

    [HabitTracker.habits] is a Python dict: its keys are unique, its
    iteration order is insertion order (which [json.dump] follows), an
    assignment to a present key keeps the key's position, an assignment
    to a new key appends it, and [del] removes the key.  This file
    models those operations on [list (K * V)], proves that they keep
    keys unique ([dict_wf]), that they refine stdpp's [gmap] operations
    through [to_map], and that they respect Python's dict equality
    [dict_equiv] (same keys, same values, any order). *)

From S2P Require Import Prelude.

Section Dict.
Context {K V : Type} `{EqDecision K}.
Implicit Types (d : list (K * V)) (k : K) (v : V).

(** [d[k]] / [d.get(k)]: the value bound to [k]. *)
Fixpoint dict_get k d : option V :=
  match d with
  | [] => None
  | (k', v') :: d' => if decide (k = k') then Some v' else dict_get k d'
  end.

(** [k in d] *)
Definition dict_contains k d : bool :=
  match dict_get k d with Some _ => true | None => false end.

(** [d[k] = v]: replace the value in place, or append a new entry. *)
Fixpoint dict_set k v d : list (K * V) :=
  match d with
  | [] => [(k, v)]
  | (k', v') :: d' => if decide (k = k') then (k', v) :: d' else (k', v') :: dict_set k v d'
  end.

(** [del d[k]] once [k in d] has been checked: the entry of [k] goes
    (all of them, which on a dict is the one entry). *)
Definition dict_del k d : list (K * V) := filter (fun kv => kv.1 ≠ k) d.

(** [list(d)] / [for k in d]: the keys in iteration order. *)
Definition dict_keys d : list K := fst <$> d.

(** Python's dict invariant: no key occurs twice. *)
Definition dict_wf d : Prop := NoDup (dict_keys d).

(** Python's [d1 == d2] on dicts: same bindings, order ignored. *)
Definition dict_equiv d1 d2 : Prop := forall k, dict_get k d1 = dict_get k d2.

(** Apply [f] to every value, keeping keys and order. *)
Definition dict_map_values (f : V -> V) d : list (K * V) := (fun kv => (kv.1, f kv.2)) <$> d.

(** ** Lookups *)

Lemma dict_get_Some_elem k d v : dict_get k d = Some v -> (k, v) ∈ d.
Proof.
  induction d as [|[k' v'] d IH]; simpl; [done|].
  case_decide; [intros [= <-]; subst; left|intros ?%IH; by right].
Qed.

Lemma dict_get_is_Some k d : is_Some (dict_get k d) <-> k ∈ dict_keys d.
Proof.
  induction d as [|[k' v'] d IH]; simpl.
  - split; [by intros []|intros ?%elem_of_nil; done].
  - rewrite elem_of_cons, <- IH. case_decide; naive_solver.
Qed.

Lemma dict_get_None k d : dict_get k d = None <-> k ∉ dict_keys d.
Proof. rewrite <- dict_get_is_Some, <- eq_None_not_Some. done. Qed.

Lemma dict_contains_true k d : dict_contains k d = true <-> is_Some (dict_get k d).
Proof. unfold dict_contains. destruct (dict_get k d); naive_solver. Qed.

Lemma dict_contains_false k d : dict_contains k d = false <-> dict_get k d = None.
Proof. unfold dict_contains. destruct (dict_get k d); naive_solver. Qed.

Lemma dict_wf_get_elem k v d : dict_wf d -> (k, v) ∈ d -> dict_get k d = Some v.
Proof.
  unfold dict_wf, dict_keys. induction d as [|[k' v'] d IH]; simpl.
  - by intros _ ?%elem_of_nil.
  - intros [Hk Hd]%NoDup_cons Hin. apply elem_of_cons in Hin as [[= <- <-]|Hin].
    + by rewrite decide_True.
    + case_decide; subst; [|auto].
      destruct Hk. apply list_elem_of_fmap. by exists (k', v).
Qed.

(** ** Assignment *)

Lemma dict_get_set_eq k v d : dict_get k (dict_set k v d) = Some v.
Proof.
  induction d as [|[k' v'] d IH]; simpl; [by rewrite decide_True|].
  case_decide; simpl; [by rewrite decide_True|by rewrite decide_False].
Qed.

Lemma dict_get_set_ne k k' v d : k ≠ k' -> dict_get k' (dict_set k v d) = dict_get k' d.
Proof.
  intros Hne. induction d as [|[k'' v''] d IH]; simpl; [by rewrite decide_False|].
  case_decide; subst; simpl; repeat case_decide; congruence.
Qed.

Lemma dict_get_set k k' v d :
  dict_get k' (dict_set k v d) = if decide (k' = k) then Some v else dict_get k' d.
Proof.
  case_decide; subst; [apply dict_get_set_eq|apply dict_get_set_ne; congruence].
Qed.

(** Assigning to a present key keeps the key order ... *)
Lemma dict_keys_set_present k v d :
  k ∈ dict_keys d -> dict_keys (dict_set k v d) = dict_keys d.
Proof.
  induction d as [|[k' v'] d IH]; simpl; [by intros ?%elem_of_nil|].
  intros Hin. case_decide; simpl; [done|].
  rewrite IH; [done|]. apply elem_of_cons in Hin. naive_solver.
Qed.

(** ... and assigning to a new key appends it. *)
Lemma dict_set_absent k v d : k ∉ dict_keys d -> dict_set k v d = d ++ [(k, v)].
Proof.
  induction d as [|[k' v'] d IH]; simpl; [done|].
  rewrite elem_of_cons. intros Hk. rewrite decide_False by naive_solver.
  rewrite IH; naive_solver.
Qed.

Lemma dict_set_wf k v d : dict_wf d -> dict_wf (dict_set k v d).
Proof.
  unfold dict_wf. intros Hwf. destruct (decide (k ∈ dict_keys d)) as [Hin|Hout].
  - by rewrite dict_keys_set_present.
  - rewrite dict_set_absent by done. by apply NoDup_map_fst_app_single.
Qed.

Lemma dict_set_Forall (P : K * V -> Prop) k v d : Forall P d -> P (k, v) -> Forall P (dict_set k v d).
Proof.
  intros Hd Hkv. induction Hd as [|[k' v'] d Hx Hd IH]; simpl; [by constructor|].
  case_decide; subst; by constructor.
Qed.

(** ** Deletion *)

Lemma dict_get_del k k' d :
  dict_get k' (dict_del k d) = if decide (k' = k) then None else dict_get k' d.
Proof.
  unfold dict_del. induction d as [|[k'' v''] d IH]; simpl; [by case_decide|].
  rewrite filter_cons. simpl. repeat case_decide; simpl; subst;
    try rewrite IH; repeat case_decide; congruence.
Qed.

Lemma dict_keys_del k d : dict_keys (dict_del k d) = filter (fun k' => k' ≠ k) (dict_keys d).
Proof.
  unfold dict_del, dict_keys. induction d as [|[k' v'] d IH]; [done|].
  rewrite fmap_cons, !filter_cons. simpl. case_decide; [rewrite fmap_cons|]; by rewrite IH.
Qed.

Lemma dict_del_wf k d : dict_wf d -> dict_wf (dict_del k d).
Proof. unfold dict_wf. rewrite dict_keys_del. apply NoDup_filter. Qed.

(** ** Mapping over the values *)

Lemma dict_get_map_values f k d : dict_get k (dict_map_values f d) = f <$> dict_get k d.
Proof.
  induction d as [|[k' v'] d IH]; simpl; [done|]. by case_decide.
Qed.

Lemma dict_keys_map_values f d : dict_keys (dict_map_values f d) = dict_keys d.
Proof. unfold dict_keys, dict_map_values. rewrite <- list_fmap_compose. done. Qed.

Lemma dict_map_values_wf f d : dict_wf d -> dict_wf (dict_map_values f d).
Proof. unfold dict_wf. by rewrite dict_keys_map_values. Qed.

(** ** A dict split around one of its keys *)

Lemma dict_get_app_l k d1 d2 : k ∈ dict_keys d1 -> dict_get k (d1 ++ d2) = dict_get k d1.
Proof.
  induction d1 as [|[k' v'] d1 IH]; simpl; [by intros ?%elem_of_nil|].
  rewrite elem_of_cons. intros Hk. case_decide; [done|]. apply IH. naive_solver.
Qed.

Lemma dict_get_app_r k d1 d2 : k ∉ dict_keys d1 -> dict_get k (d1 ++ d2) = dict_get k d2.
Proof.
  induction d1 as [|[k' v'] d1 IH]; simpl; [done|].
  rewrite elem_of_cons. intros Hk. rewrite decide_False by naive_solver. apply IH. naive_solver.
Qed.

Lemma dict_set_app_r k v d1 d2 :
  k ∉ dict_keys d1 -> dict_set k v (d1 ++ d2) = d1 ++ dict_set k v d2.
Proof.
  induction d1 as [|[k' v'] d1 IH]; simpl; [done|].
  rewrite elem_of_cons. intros Hk. rewrite decide_False by naive_solver. f_equal. apply IH. naive_solver.
Qed.

Lemma dict_keys_app d1 d2 : dict_keys (d1 ++ d2) = dict_keys d1 ++ dict_keys d2.
Proof. apply fmap_app. Qed.

(** In a dict [d1 ++ (k, v) :: d2], [k] is not a key of [d1]. *)
Lemma dict_wf_split k v d1 d2 : dict_wf (d1 ++ (k, v) :: d2) -> k ∉ dict_keys d1.
Proof.
  unfold dict_wf. rewrite dict_keys_app. intros [_ [Hdisj _]]%NoDup_app Hk.
  apply (Hdisj k Hk). left.
Qed.

Lemma dict_get_split k v d1 d2 : k ∉ dict_keys d1 -> dict_get k (d1 ++ (k, v) :: d2) = Some v.
Proof. intros Hk. rewrite dict_get_app_r by done. simpl. by rewrite decide_True. Qed.

Lemma dict_set_split k v v' d1 d2 :
  k ∉ dict_keys d1 -> dict_set k v' (d1 ++ (k, v) :: d2) = d1 ++ (k, v') :: d2.
Proof. intros Hk. rewrite dict_set_app_r by done. simpl. by rewrite decide_True. Qed.

Lemma dict_get_Some_iff k v d : dict_wf d -> dict_get k d = Some v <-> (k, v) ∈ d.
Proof. split; [apply dict_get_Some_elem|by apply dict_wf_get_elem]. Qed.

(** ** Python's dict equality *)

#[export] Instance dict_equiv_equivalence : Equivalence dict_equiv.
Proof. split; repeat intro; congruence. Qed.

#[export] Instance dict_get_proper k : Proper (dict_equiv ==> eq) (dict_get k).
Proof. intros d1 d2 Hd. apply Hd. Qed.

#[export] Instance dict_contains_proper k : Proper (dict_equiv ==> eq) (dict_contains k).
Proof. intros d1 d2 Hd. unfold dict_contains. by rewrite (Hd k). Qed.

#[export] Instance dict_set_proper k v : Proper (dict_equiv ==> dict_equiv) (dict_set k v).
Proof. intros d1 d2 Hd k'. rewrite !dict_get_set. by case_decide. Qed.

#[export] Instance dict_del_proper k : Proper (dict_equiv ==> dict_equiv) (dict_del k).
Proof. intros d1 d2 Hd k'. rewrite !dict_get_del. by case_decide. Qed.

#[export] Instance dict_map_values_proper f :
  Proper (dict_equiv ==> dict_equiv) (dict_map_values f).
Proof. intros d1 d2 Hd k'. by rewrite !dict_get_map_values, (Hd k'). Qed.

Lemma dict_wf_NoDup d : dict_wf d -> NoDup d.
Proof. apply NoDup_fmap_1. Qed.

(** Two dicts are equal in Python's sense exactly when one is a
    reordering of the other. *)
Lemma dict_equiv_Permutation d1 d2 :
  dict_wf d1 -> dict_wf d2 -> dict_equiv d1 d2 <-> d1 ≡ₚ d2.
Proof.
  intros H1 H2. split.
  - intros Hd. apply NoDup_Permutation; [by apply dict_wf_NoDup..|].
    intros [k v]. rewrite <- !dict_get_Some_iff by done. by rewrite (Hd k).
  - intros Hp k. apply option_eq. intros v.
    rewrite !dict_get_Some_iff by done. by rewrite Hp.
Qed.
End Dict.

#[export] Instance dict_wf_dec {K V : Type} `{EqDecision K} (d : list (K * V)) : Decision (dict_wf d).
Proof. unfold dict_wf. apply _. Defined.

(** ** Refinement of the dict operations into finite maps *)

Section DictMap.
Context {K V : Type} `{Countable K}.
Implicit Types (d : list (K * V)) (k : K) (v : V).

(** The abstraction of a dict: the finite map of its bindings. *)
Definition to_map d : gmap K V := list_to_map d.

Lemma lookup_to_map d k : to_map d !! k = dict_get k d.
Proof.
  unfold to_map. induction d as [|[k' v'] d IH]; simpl; [apply lookup_empty|].
  rewrite lookup_insert. do 2 case_decide; congruence.
Qed.

Lemma to_map_set k v d : to_map (dict_set k v d) = <[k:=v]> (to_map d).
Proof.
  apply map_eq. intros k'. rewrite lookup_insert, !lookup_to_map, dict_get_set.
  do 2 case_decide; congruence.
Qed.

Lemma to_map_del k d : to_map (dict_del k d) = delete k (to_map d).
Proof.
  apply map_eq. intros k'. rewrite lookup_delete, !lookup_to_map, dict_get_del.
  do 2 case_decide; congruence.
Qed.

Lemma to_map_map_values f d : to_map (dict_map_values f d) = f <$> to_map d.
Proof.
  apply map_eq. intros k'. by rewrite lookup_fmap, !lookup_to_map, dict_get_map_values.
Qed.

Lemma dict_equiv_to_map d1 d2 : dict_equiv d1 d2 <-> to_map d1 = to_map d2.
Proof.
  split.
  - intros Hd. apply map_eq. intros k. by rewrite !lookup_to_map.
  - intros Hm k. by rewrite <- !lookup_to_map, Hm.
Qed.

Lemma dom_to_map d : dom (to_map d) = list_to_set (dict_keys d).
Proof.
  apply set_eq. intros k. rewrite elem_of_dom, elem_of_list_to_set, lookup_to_map.
  apply dict_get_is_Some.
Qed.
End DictMap.

#[export] Hint Rewrite @lookup_to_map @to_map_set @to_map_del @to_map_map_values : pym_rw.

#[export] Hint Resolve dict_set_wf dict_del_wf dict_map_values_wf : pym.
#[export] Hint Rewrite @dict_get_set_eq @dict_get_map_values : pym_rw.
