(* ===== verification/PyInt.v ===== *)
(** * Python's [int] and the limit on its decimal conversion

    CPython 3.11 and later refuse to convert an [int] to or from
    decimal text of more than [sys.get_int_max_str_digits()] digits,
    4300 unless changed: [int(s)] raises [ValueError] when [s] has more
    digits, and so do [str(n)] and [repr(n)] when [n] has more.  Both
    conversions run on the tracker's data: [json.load] reads every
    integer of the file with [PyLong_FromString], and [json.dump]
    writes every integer with [int.__repr__].  This file counts the
    digits of an integer as the decimal text has them ([int_digits],
    through the Standard Library's [Z.to_int]), states the limit
    ([int_fits]), and proves that an integer has at most [n] digits
    exactly when its absolute value is below [10 ^ n]
    ([int_digits_bound]), so that the limit can be stated as a bound. *)

From Stdlib Require Import DecimalFacts DecimalPos DecimalN DecimalString.
From S2P Require Import Prelude.

(** [sys.int_info.default_max_str_digits] *)
Definition int_max_str_digits : nat := 4300.

(** The number of decimal digits of [z], its sign apart: the length of
    the text [int.__repr__] writes, and the count [int(s)] checks. *)
Definition int_digits (z : Z) : nat :=
  match Z.to_int z with Decimal.Pos u | Decimal.Neg u => Decimal.nb_digits u end.

(** The conversion of [z] to or from decimal text is allowed: [z] has
    at most [int_max_str_digits] digits ([int_fits_digits]), computed
    by magnitude rather than by writing the digits out. *)
Definition int_str_bound : Z := 10 ^ Z.of_nat int_max_str_digits.

Definition int_fits (z : Z) : bool := Z.abs z <? int_str_bound.

(** The message of [int.__repr__] beyond the limit
    ([_MAX_STR_DIGITS_ERROR_TO_STR], Objects/longobject.c). *)
Definition msg_int_to_str : string :=
  "Exceeds the limit (4300 digits) for integer string conversion; use sys.set_int_max_str_digits() to increase the limit".

(** The message of [int(s)] on [n] digits beyond the limit
    ([_MAX_STR_DIGITS_ERROR_TO_INT]). *)
Definition msg_str_to_int (n : nat) : string :=
  "Exceeds the limit (4300 digits) for integer string conversion: value has " ++
  NilZero.string_of_uint (Nat.to_uint n) ++
  " digits; use sys.set_int_max_str_digits() to increase the limit".

(** ** Digits and magnitude *)

(** Reading digits onto an accumulator. *)
Lemma of_uint_acc_value l acc :
  Z.pos (Pos.of_uint_acc l acc) = Z.pos acc * 10 ^ Z.of_nat (Decimal.nb_digits l) + Z.of_N (N.of_uint l).
Proof.
  unfold N.of_uint. revert acc.
  induction l; intros acc; cbn [Pos.of_uint_acc Decimal.nb_digits Pos.of_uint Z.of_N];
    rewrite ?IHl, ?Nat2Z.inj_succ, ?Z.pow_succ_r, ?Pos2Z.inj_add, ?Pos2Z.inj_mul by lia;
    [simpl Z.of_nat; rewrite Z.pow_0_r; ring | ring ..].
Qed.

(** The value of [n] digits is below [10 ^ n]. *)
Lemma of_uint_lt d : Z.of_N (N.of_uint d) < 10 ^ Z.of_nat (Decimal.nb_digits d).
Proof.
  induction d; cbn [Decimal.nb_digits]; rewrite ?Nat2Z.inj_succ, ?Z.pow_succ_r by lia;
    [reflexivity|..]; unfold N.of_uint in *; cbn [Pos.of_uint Z.of_N];
    rewrite ?of_uint_acc_value; unfold N.of_uint; lia.
Qed.

(** [n] digits with a nonzero first digit are worth [10 ^ (n - 1)] or
    more. *)
Lemma of_uint_ge d :
  match d with Decimal.D0 _ | Decimal.Nil => False | _ => True end ->
  10 ^ (Z.of_nat (Decimal.nb_digits d) - 1) <= Z.of_N (N.of_uint d).
Proof.
  destruct d; intros []; cbn [Decimal.nb_digits]; rewrite Nat2Z.inj_succ, Z.sub_1_r, Z.pred_succ;
    unfold N.of_uint; cbn [Pos.of_uint Z.of_N]; rewrite of_uint_acc_value;
    pose proof (N2Z.is_nonneg (N.of_uint d)); lia.
Qed.

(** The decimal text of a positive number has no leading zero. *)
Lemma to_uint_head p :
  match Pos.to_uint p with Decimal.D0 _ | Decimal.Nil => False | _ => True end.
Proof.
  pose proof (DecimalPos.Unsigned.to_of (Pos.to_uint p)) as Hn.
  rewrite DecimalPos.Unsigned.of_to in Hn. change (N.to_uint (Npos p)) with (Pos.to_uint p) in Hn.
  pose proof (DecimalPos.Unsigned.to_uint_nonzero p) as Hz.
  pose proof (DecimalPos.Unsigned.to_uint_nonnil p) as Hnil.
  destruct (Pos.to_uint p) as [|l|l|l|l|l|l|l|l|l|l]; try exact I; [congruence|].
  unfold Decimal.unorm in Hn. cbn [Decimal.nzhead] in Hn.
  pose proof (nb_digits_nzhead l) as Hl.
  destruct (Decimal.nzhead l) eqn:Hh; first [congruence | injection Hn as ->; simpl in Hl; lia].
Qed.

Lemma pos_digits_bound p n :
  (1 <= n)%nat -> ((Decimal.nb_digits (Pos.to_uint p) <= n)%nat <-> Z.pos p < 10 ^ Z.of_nat n).
Proof.
  intros Hn. pose proof (of_uint_lt (Pos.to_uint p)) as Hlt.
  pose proof (of_uint_ge _ (to_uint_head p)) as Hge.
  rewrite DecimalPos.Unsigned.of_to in Hlt, Hge. simpl Z.of_N in Hlt, Hge. split; intros H.
  - eapply Z.lt_le_trans; [exact Hlt|]. apply Z.pow_le_mono_r; lia.
  - apply Nat.nlt_ge. intros Hgt.
    assert (10 ^ Z.of_nat n <= 10 ^ (Z.of_nat (Decimal.nb_digits (Pos.to_uint p)) - 1))
      by (apply Z.pow_le_mono_r; lia).
    lia.
Qed.

(** An integer has at most [n] digits exactly when its absolute value
    is below [10 ^ n] (for [n >= 1]: [0] has one digit). *)
Lemma int_digits_bound z n :
  (1 <= n)%nat -> ((int_digits z <= n)%nat <-> Z.abs z < 10 ^ Z.of_nat n).
Proof.
  intros Hn. destruct z as [|p|p]; unfold int_digits; simpl Z.to_int; simpl Z.abs;
    [|by apply pos_digits_bound..].
  simpl. split; [intros _; apply Z.pow_pos_nonneg; lia | lia].
Qed.

Lemma int_max_str_digits_pos : (1 <= int_max_str_digits)%nat.
Proof. unfold int_max_str_digits. lia. Qed.

(** An int within the limit has at most 4300 digits. *)
Lemma int_fits_digits_le z : int_fits z = true -> (int_digits z <= int_max_str_digits)%nat.
Proof. intros Hz. apply int_digits_bound; [exact int_max_str_digits_pos | exact (proj1 (Z.ltb_lt _ _) Hz)]. Qed.

(** The magnitude test is the digit count.  [int_fits z], which
    compares [|z|] with [10 ^ 4300], holds exactly when the decimal
    text of [z] (the Standard Library's [Z.to_int]) has at most 4300
    digits, the count CPython's [int.__repr__] and [int(s)] check. *)
Lemma int_fits_digits z : int_fits z = true <-> (int_digits z <= int_max_str_digits)%nat.
Proof.
  unfold int_fits. rewrite Z.ltb_lt. symmetry. exact (int_digits_bound z _ int_max_str_digits_pos).
Qed.

(** The limit as a bound: [int_fits z] when [|z| < 10 ^ 4300].  The
    bound is kept folded as [int_str_bound], so that [lia] treats it as
    an atom rather than expanding a 14286-bit number. *)
Lemma int_fits_bound z : int_fits z = true <-> Z.abs z < int_str_bound.
Proof. unfold int_fits. by rewrite Z.ltb_lt. Qed.

Lemma int_str_bound_pos : 0 < int_str_bound.
Proof. unfold int_str_bound. apply Z.pow_pos_nonneg; lia. Qed.

Lemma int_fits_small z : Z.abs z < int_str_bound -> int_fits z = true.
Proof. apply int_fits_bound. Qed.

Lemma int_fits_0 : int_fits 0 = true.
Proof. reflexivity. Qed.
