(* ===== verification/PyValue.v ===== *)
(** * The Python objects a habit file holds, and Python's operations on them

    [HabitTracker.habits] is whatever [json.load] returned: None, a
    bool, an int, a str, a list or a dict with str keys, nested.  The
    tracker applies Python's dynamically typed operations to it
    ([name in habits], [habits[name]], [habits[name] = ...],
    [del habits[name]], [... += 1], [for h in habits]); on a value of
    the wrong type these raise [TypeError], [KeyError] or
    [IndexError].  This file defines [pyval], the exceptions [pyexc],
    and one definition per operation, with the result [pyexc + A]
    (left: the exception raised). *)

From S2P Require Import Prelude PyDict PyInt.

(** ** Values *)

Inductive pyval : Type :=
| PNone
| PBool (b : bool)
| PInt (z : Z)
| PStr (s : pystr)
| PList (l : list pyval)
| PDict (d : list (pystr * pyval)).

(** Nested induction: a property of every element of a list and of
    every value of a dict. *)
Section pyval_ind.
Variable P : pyval -> Prop.
Hypothesis HNone : P PNone.
Hypothesis HBool : forall b, P (PBool b).
Hypothesis HInt : forall z, P (PInt z).
Hypothesis HStr : forall s, P (PStr s).
Hypothesis HList : forall l, Forall P l -> P (PList l).
Hypothesis HDict : forall d, Forall (fun kv => P kv.2) d -> P (PDict d).

Fixpoint pyval_ind' (v : pyval) : P v :=
  match v with
  | PNone => HNone
  | PBool b => HBool b
  | PInt z => HInt z
  | PStr s => HStr s
  | PList l => HList l ((fix go (l : list pyval) : Forall P l :=
                           match l with
                           | [] => Forall_nil_2 _
                           | x :: l' => Forall_cons_2 _ _ _ (pyval_ind' x) (go l')
                           end) l)
  | PDict d => HDict d ((fix go (d : list (pystr * pyval)) : Forall (fun kv => P kv.2) d :=
                           match d with
                           | [] => Forall_nil_2 _
                           | kv :: d' => Forall_cons_2 _ _ _ (pyval_ind' kv.2) (go d')
                           end) d)
  end.
End pyval_ind.

(** Decidable equality and countability, through stdpp's generic trees. *)
Fixpoint pyval_to_tree (v : pyval) : gen_tree (bool + Z + pystr) :=
  match v with
  | PNone => GenNode 0 []
  | PBool b => GenLeaf (inl (inl b))
  | PInt z => GenLeaf (inl (inr z))
  | PStr s => GenLeaf (inr s)
  | PList l => GenNode 1 (pyval_to_tree <$> l)
  | PDict d => GenNode 2 ((fun kv => GenNode 0 [GenLeaf (inr kv.1); pyval_to_tree kv.2]) <$> d)
  end.

Fixpoint pyval_of_tree (t : gen_tree (bool + Z + pystr)) : pyval :=
  match t with
  | GenLeaf (inl (inl b)) => PBool b
  | GenLeaf (inl (inr z)) => PInt z
  | GenLeaf (inr s) => PStr s
  | GenNode 1 ts => PList (pyval_of_tree <$> ts)
  | GenNode 2 ts =>
      PDict (omap (fun t => match t with
                            | GenNode 0 [GenLeaf (inr k); t'] => Some (k, pyval_of_tree t')
                            | _ => None
                            end) ts)
  | _ => PNone
  end.

Lemma pyval_of_to_tree v : pyval_of_tree (pyval_to_tree v) = v.
Proof.
  induction v as [| | | |l IH|d IH] using pyval_ind'; simpl; [done..| |].
  - f_equal. rewrite <- list_fmap_compose. induction IH; simpl; [done|]. by f_equal.
  - f_equal. induction IH as [|[k v] d Hv _ IHd]; [done|].
    rewrite fmap_cons. simpl in *. rewrite Hv. f_equal. exact IHd.
Qed.

#[export] Instance pyval_eq_dec : EqDecision pyval.
Proof.
  intros x y. destruct (decide (pyval_to_tree x = pyval_to_tree y)) as [E|N].
  - left. by rewrite <- (pyval_of_to_tree x), E, pyval_of_to_tree.
  - right. congruence.
Defined.

#[export] Instance pyval_countable : Countable pyval :=
  inj_countable' pyval_to_tree pyval_of_tree pyval_of_to_tree.

(** ** Exceptions *)

Inductive pyexc : Type :=
| ValueError (msg : string)     (** raised by the tracker itself *)
| TypeError                     (** an operation applied to the wrong type *)
| KeyError (k : pyval)          (** a dict subscript with an absent key *)
| IndexError                    (** a list subscript out of range *)
| FileNotFoundError             (** [open(f, 'r')] on a missing file *)
| PermissionError               (** [open(f, ...)] on a file we may not open *)
| JSONDecodeError               (** [json.load] on text that is not JSON *)
| EOFError                      (** [input()] with no line left *)
| AssertionError.               (** a failed [unittest] assertion *)

#[export] Instance pyexc_eq_dec : EqDecision pyexc.
Proof. solve_decision. Defined.

(** ** Operations *)

(** [s.startswith(p)] *)
Fixpoint str_prefix (p s : pystr) : bool :=
  match p, s with
  | [], _ => true
  | c :: p', c' :: s' => bool_decide (c = c') && str_prefix p' s'
  | _ :: _, [] => false
  end.

(** [p in s] for two strs: [p] is a substring of [s]. *)
Fixpoint str_contains (p s : pystr) : bool :=
  str_prefix p s || match s with [] => false | _ :: s' => str_contains p s' end.

(** [PStr k == v]: a str equals only the same str. *)
Definition py_eq_str (k : pystr) (v : pyval) : bool :=
  match v with PStr s => bool_decide (s = k) | _ => false end.

(** [k in c] for a str [k]. *)
Definition py_contains (k : pystr) (c : pyval) : pyexc + bool :=
  match c with
  | PDict d => inr (dict_contains k d)
  | PList l => inr (existsb (py_eq_str k) l)
  | PStr s => inr (str_contains k s)
  | PNone | PBool _ | PInt _ => inl TypeError
  end.

(** The int an index denotes ([bool] is a subclass of [int]). *)
Definition py_index (i : pyval) : option Z :=
  match i with PInt z => Some z | PBool b => Some (Z.b2z b) | _ => None end.

(** A sequence index [z] of a sequence of length [n], negative indices
    counting from the end. *)
Definition seq_index (z : Z) (n : nat) : option nat :=
  if decide (0 <= z < Z.of_nat n) then Some (Z.to_nat z)
  else if decide (- Z.of_nat n <= z < 0) then Some (Z.to_nat (Z.of_nat n + z))
  else None.

(** Where a subscript [c[i]] points: a dict key, a list slot or a
    character of a str. *)
Inductive loc : Type := LKey (k : pystr) | LSlot (n : nat) | LChar (n : nat).

(** The subscript of [c[i]], or the exception it raises. *)
Definition py_locate (c i : pyval) : pyexc + loc :=
  match c with
  | PDict d =>
      match i with
      | PStr k => if dict_contains k d then inr (LKey k) else inl (KeyError i)
      | PList _ | PDict _ => inl TypeError       (* unhashable key *)
      | _ => inl (KeyError i)                    (* a JSON dict has only str keys *)
      end
  | PList l =>
      match py_index i with
      | Some z => match seq_index z (length l) with Some n => inr (LSlot n) | None => inl IndexError end
      | None => inl TypeError
      end
  | PStr s =>
      match py_index i with
      | Some z => match seq_index z (length s) with Some n => inr (LChar n) | None => inl IndexError end
      | None => inl TypeError
      end
  | PNone | PBool _ | PInt _ => inl TypeError  (* not subscriptable *)
  end.

(** The object at a located subscript (a str yields a new 1-char str). *)
Definition py_read (c : pyval) (p : loc) : option pyval :=
  match c, p with
  | PDict d, LKey k => dict_get k d
  | PList l, LSlot n => l !! n
  | PStr s, LChar n => (fun ch => PStr [ch]) <$> s !! n
  | _, _ => None
  end.

(** The object at a located subscript, as a result. *)
Definition py_read_at (c : pyval) (p : loc) : pyexc + pyval :=
  match py_read c p with Some v => inr v | None => inl IndexError end.

(** [c[i]] *)
Definition py_getitem (c i : pyval) : pyexc + pyval :=
  match py_locate c i with inl e => inl e | inr p => py_read_at c p end.

(** The container after the object at [p] was mutated in place into
    [v].  The objects [json.load] and [add_habit] build never share a
    sub-object, so the mutation is seen at [p] only. *)
Definition py_writeback (c : pyval) (p : loc) (v : pyval) : pyval :=
  match c, p with
  | PDict d, LKey k => PDict (dict_set k v d)
  | PList l, LSlot n => PList (<[n := v]> l)
  | _, _ => c
  end.

(** [c[k] = v] for a str key [k]: only a dict supports it. *)
Definition py_setitem (c : pyval) (k : pystr) (v : pyval) : pyexc + pyval :=
  match c with
  | PDict d => inr (PDict (dict_set k v d))
  | _ => inl TypeError
  end.

(** [del c[k]] for a str key [k]. *)
Definition py_delitem (c : pyval) (k : pystr) : pyexc + pyval :=
  match c with
  | PDict d => if dict_contains k d then inr (PDict (dict_del k d)) else inl (KeyError (PStr k))
  | _ => inl TypeError
  end.

(** [x += 1] ([True + 1 == 2]). *)
Definition py_iadd_one (v : pyval) : pyexc + pyval :=
  match v with
  | PInt z => inr (PInt (z + 1))
  | PBool b => inr (PInt (Z.b2z b + 1))
  | _ => inl TypeError
  end.

(** [len(c)] for the iterables, [TypeError] for the others
    (["'int' object is not iterable"]). *)
Definition py_iter_len (c : pyval) : pyexc + nat :=
  match c with
  | PDict d => inr (length d)
  | PList l => inr (length l)
  | PStr s => inr (length s)
  | PNone | PBool _ | PInt _ => inl TypeError
  end.

(** The [n]-th object [for x in c] yields: the keys of a dict, the
    elements of a list, the characters of a str. *)
Definition py_iter_nth (c : pyval) (n : nat) : option pyval :=
  match c with
  | PDict d => PStr <$> dict_keys d !! n
  | PList l => l !! n
  | PStr s => (fun ch => PStr [ch]) <$> s !! n
  | PNone | PBool _ | PInt _ => None
  end.

(** The number a [bool] or an [int] stands for ([True == 1]). *)
Definition py_num (v : pyval) : option Z :=
  match v with PBool b => Some (Z.b2z b) | PInt z => Some z | _ => None end.

(** [a == b]: numbers by value ([bool] is a subclass of [int]), strings
    by their code points, lists element by element, dicts as sets of
    items (same length, every key of [a] bound in [b] to an equal
    value); values of different types are unequal. *)
Fixpoint py_eq (a b : pyval) {struct a} : bool :=
  match a, b with
  | PNone, PNone => true
  | PStr s, PStr t => bool_decide (s = t)
  | PList l1, PList l2 =>
      (fix go (l1 l2 : list pyval) : bool :=
         match l1, l2 with
         | [], [] => true
         | x :: xs, y :: ys => py_eq x y && go xs ys
         | _, _ => false
         end) l1 l2
  | PDict d1, PDict d2 =>
      bool_decide (length d1 = length d2) &&
      forallb (fun kv => match dict_get kv.1 d2 with Some v => py_eq kv.2 v | None => false end) d1
  | _, _ =>
      match py_num a, py_num b with
      | Some x, Some y => bool_decide (x = y)
      | _, _ => false
      end
  end.


(** ** Values within the int conversion limit *)

(** Every [int] in [v] has at most [int_max_str_digits] digits, so that
    [int.__repr__] and [int(s)] accept it. *)
Fixpoint py_fits (v : pyval) : bool :=
  match v with
  | PInt z => int_fits z
  | PList l => forallb py_fits l
  | PDict d => forallb (fun kv => py_fits kv.2) d
  | PNone | PBool _ | PStr _ => true
  end.

Lemma py_fits_dict d : py_fits (PDict d) = true <-> Forall (fun kv => py_fits kv.2 = true) d.
Proof. simpl. rewrite forallb_forall, Forall_forall. by setoid_rewrite list_elem_of_In. Qed.

Lemma py_fits_dict_get d k v : py_fits (PDict d) = true -> dict_get k d = Some v -> py_fits v = true.
Proof.
  intros Hd Hk%dict_get_Some_elem. apply py_fits_dict in Hd.
  exact (proj1 (Forall_forall _ _) Hd _ Hk).
Qed.

(** [c[i]] on a value within the limit gives a value within it. *)
Lemma py_getitem_fits c i v : py_fits c = true -> py_getitem c i = inr v -> py_fits v = true.
Proof.
  unfold py_getitem, py_read_at. destruct (py_locate c i) as [e|p]; [done|].
  destruct (py_read c p) as [v'|] eqn:Hr; [intros Hc [= <-]|done].
  destruct c, p; try done; simpl in Hr.
  - destruct (s !! n); simpl in Hr; by simplify_eq.
  - simpl in Hc. rewrite forallb_forall in Hc. apply Hc, list_elem_of_In. by eapply list_elem_of_lookup_2.
  - exact (py_fits_dict_get _ _ _ Hc Hr).
Qed.

Lemma py_fits_dict_set d k v :
  py_fits (PDict d) = true -> py_fits v = true -> py_fits (PDict (dict_set k v d)) = true.
Proof. rewrite !py_fits_dict. intros Hd Hv. by apply dict_set_Forall. Qed.

Lemma py_fits_dict_del d k : py_fits (PDict d) = true -> py_fits (PDict (dict_del k d)) = true.
Proof.
  rewrite !py_fits_dict, !Forall_forall. intros Hd kv Hkv.
  apply Hd. by apply list_elem_of_filter in Hkv as [_ ?].
Qed.

Lemma py_fits_map_values f d :
  (forall v, py_fits v = true -> py_fits (f v) = true) ->
  py_fits (PDict d) = true -> py_fits (PDict (dict_map_values f d)) = true.
Proof.
  intros Hf. rewrite !py_fits_dict. unfold dict_map_values. rewrite Forall_fmap.
  intros Hd. eapply Forall_impl; [exact Hd|]. intros kv. apply Hf.
Qed.
