(* ===== verification/Codec.v ===== *)
(** * The JSON codec the tracker persists through

    [HabitTracker.save_data] calls [json.dump(self.habits, file,
    indent=4)] and [HabitTracker.load_data] calls [json.load(file)].
    The tracker's theorems only need what this interface promises: what
    [json.dump] writes into the file ([json_dump_io]: the whole text
    [json_dumps], or the text written before an exception), a reader,
    and the laws that the dump completes exactly on values within
    Python's int conversion limit ([py_fits]), that what the reader returns is
    within it, and that reading back what was printed gives the value
    back, for the values on which that law holds ([json_safe]).
    [JsonRoundtrip] provides the instance for Python's [json] module. *)

From S2P Require Import Prelude PyDict PyInt PyValue.

(** What [json.load] makes of a text: a value, a [JSONDecodeError], a
    value outside [pyval] (a JSON number with a fraction or an exponent,
    which Python reads as a float), or another exception raised while
    reading (the [ValueError] of [int(s)] on too many digits). *)
Inductive load_result : Type :=
| Loaded (v : pyval)
| DecodeFailed
| FloatFound
| LoadRaised (e : pyexc).

(** What [json.dump(obj, fp)] does to [fp]: it writes the text of [obj]
    chunk by chunk; when computing a chunk raises, the chunks before it
    have been written and the exception propagates. *)
Inductive dump_result : Type :=
| Dumped (t : pystr)
| DumpRaised (written : pystr) (e : pyexc).

Class JsonCodec : Type := {
  json_dump_io : pyval -> dump_result;
  json_dumps : pyval -> pystr;
  json_loads : pystr -> load_result;
  json_safe : pyval -> bool;
  json_dump_fits : forall v, py_fits v = true -> json_dump_io v = Dumped (json_dumps v);
  json_dump_complete : forall v t, json_dump_io v = Dumped t -> t = json_dumps v;
  json_dumped_fits : forall v t, json_dump_io v = Dumped t -> py_fits v = true;
  json_loads_fits : forall t v, json_loads t = Loaded v -> py_fits v = true;
  json_loads_dumps : forall v, json_safe v = true -> json_loads (json_dumps v) = Loaded v
}.
