(* ===== verification/Spec.v ===== *)
(** * The abstract HabitStore

    What the store promises, independently of Python: a finite map from
    habit names to typed records ([habit]), five operations that either
    fail with [DuplicateHabit] or [HabitNotFound] and leave the store
    unchanged, or succeed with the store the specification describes.
    [Refinement] proves that [HabitTracker]'s methods implement these
    operations; the laws proved here (count after [n] completions,
    [view] after [add], [remove], [reset]) carry over to the code. *)

From S2P Require Import Prelude.

(** A habit record with its count as a natural number. *)
Record habit : Type := mk_habit {
  h_description : pystr;
  h_frequency : pystr;
  h_count : nat
}.

#[export] Instance habit_eq_dec : EqDecision habit.
Proof. solve_decision. Defined.

Abbreviation store := (gmap pystr habit).

Inductive store_error : Type := DuplicateHabit | HabitNotFound.

#[export] Instance store_error_eq_dec : EqDecision store_error.
Proof. solve_decision. Defined.

(** The requests the menu makes of the store. *)
Inductive command : Type :=
| CAdd (name description frequency : pystr)
| CMark (name : pystr)
| CView (name : pystr)
| CRemove (name : pystr)
| CReset.

Module Store.
Definition bump (h : habit) : habit :=
  mk_habit (h_description h) (h_frequency h) (S (h_count h)).

Definition zero (h : habit) : habit := mk_habit (h_description h) (h_frequency h) 0.

Definition add (name description frequency : pystr) (m : store) : store_error + store :=
  match m !! name with
  | Some _ => inl DuplicateHabit
  | None => inr (<[name := mk_habit description frequency 0]> m)
  end.

Definition mark (name : pystr) (m : store) : store_error + store :=
  match m !! name with
  | None => inl HabitNotFound
  | Some h => inr (<[name := bump h]> m)
  end.

Definition view (name : pystr) (m : store) : store_error + nat :=
  match m !! name with
  | None => inl HabitNotFound
  | Some h => inr (h_count h)
  end.

Definition remove (name : pystr) (m : store) : store_error + store :=
  match m !! name with
  | None => inl HabitNotFound
  | Some _ => inr (delete name m)
  end.

Definition reset (m : store) : store := zero <$> m.

(** One request: the error, or the new store and the count [view]
    returns. *)
Definition step (c : command) (m : store) : store_error + (store * option nat) :=
  match c with
  | CAdd n d f => match add n d f m with inl e => inl e | inr m' => inr (m', None) end
  | CMark n => match mark n m with inl e => inl e | inr m' => inr (m', None) end
  | CView n => match view n m with inl e => inl e | inr c => inr (m, Some c) end
  | CRemove n => match remove n m with inl e => inl e | inr m' => inr (m', None) end
  | CReset => inr (reset m, None)
  end.

(** The store after a request whose error the menu reports. *)
Definition after (c : command) (m : store) : store :=
  match step c m with inl _ => m | inr (m', _) => m' end.

Definition run (cs : list command) (m : store) : store := foldl (fun m c => after c m) m cs.

(** Requests one after the other, up to the first error. *)
Fixpoint exec (cs : list command) (m : store) : store_error + store :=
  match cs with
  | [] => inr m
  | c :: cs' => match step c m with inl e => inl e | inr (m', _) => exec cs' m' end
  end.

(** Every count of [m] is below [b]. *)
Definition counts_below (b : nat) (m : store) : Prop := map_Forall (fun _ h => (h_count h < b)%nat) m.

(** [n] calls of [mark name]. *)
Fixpoint marks (n : nat) (name : pystr) (m : store) : store_error + store :=
  match n with
  | O => inr m
  | S n' => match mark name m with inl e => inl e | inr m' => marks n' name m' end
  end.

(** ** Laws of the store *)

Lemma add_lookup name d f m m' :
  add name d f m = inr m' -> m' !! name = Some (mk_habit d f 0).
Proof. unfold add. destruct (m !! name); intros [=<-]. by rewrite lookup_insert_eq. Qed.

Lemma add_present name d f m : is_Some (m !! name) -> add name d f m = inl DuplicateHabit.
Proof. unfold add. by intros [? ->]. Qed.

Lemma marks_count n name m h :
  m !! name = Some h ->
  exists m', marks n name m = inr m' /\ m' !! name = Some (mk_habit (h_description h) (h_frequency h) (n + h_count h)).
Proof.
  revert m h. induction n as [|n IH]; intros m h Hh; simpl.
  - exists m. by destruct h.
  - unfold mark. rewrite Hh. destruct (IH (<[name := bump h]> m) (bump h)) as (m' & -> & Hm').
    { by rewrite lookup_insert_eq. }
    exists m'. split; [done|]. rewrite Hm'. cbn. by rewrite Nat.add_succ_r.
Qed.

Lemma view_lookup name m h : m !! name = Some h -> view name m = inr (h_count h).
Proof. unfold view. by intros ->. Qed.

Lemma view_absent name m : m !! name = None -> view name m = inl HabitNotFound.
Proof. unfold view. by intros ->. Qed.

Lemma remove_lookup name m m' : remove name m = inr m' -> m' !! name = None.
Proof. unfold remove. destruct (m !! name); intros [=<-]. by rewrite lookup_delete_eq. Qed.

Lemma reset_lookup name m : reset m !! name = zero <$> m !! name.
Proof. unfold reset. by rewrite lookup_fmap. Qed.

Lemma after_error c m e : step c m = inl e -> after c m = m.
Proof. unfold after. by intros ->. Qed.

Lemma counts_below_mono b b' m : (b <= b')%nat -> counts_below b m -> counts_below b' m.
Proof. intros Hb Hm. eapply map_Forall_impl; [exact Hm|]. simpl. lia. Qed.

(** A request raises every count by at most one. *)
Lemma step_counts_below c m m' r b : counts_below b m -> step c m = inr (m', r) -> counts_below (S b) m'.
Proof.
  intros Hm. pose proof (counts_below_mono b (S b) m ltac:(lia) Hm) as HS.
  unfold counts_below in *. destruct c as [n d f|n|n|n|]; cbn [step].
  - unfold add. destruct (m !! n); simpl; intros [= <- _]. apply map_Forall_insert_2; [simpl; lia|].
    exact HS.
  - unfold mark. destruct (m !! n) as [h|] eqn:Hn; simpl; intros [= <- _].
    apply map_Forall_insert_2; [simpl; specialize (Hm n h Hn); simpl in Hm; lia|].
    exact HS.
  - destruct (view n m); simpl; intros [= <- _]. exact HS.
  - unfold remove. destruct (m !! n); simpl; intros [= <- _].
    apply map_Forall_delete. exact HS.
  - intros [= <- _]. apply map_Forall_fmap. intros k h _. simpl. lia.
Qed.
End Store.
