(* ===== verification/Tracker.v ===== *)
(** * The [HabitTracker] class (src/habit_tracker.py, lines 4-50)

    A tracker is a world: the tracker's [filename] and [habits] and the
    disk it persists to.  Every method is a program of the monad
    [PyM world pyexc] and follows the method's statements in order:
    the membership guard, the [raise], the mutation of [habits], then
    [save_data()].  A method that raises after mutating keeps the
    mutation, as Python does.  The JSON codec is the parameter
    [JsonCodec] of the section. *)

From S2P Require Import Prelude PyDict PyInt PyValue Codec.

(** ** The world *)

(** A file on disk: its text, or a file [open] refuses
    ([PermissionError]).  An absent key is a missing file. *)
Inductive fentry : Type := FText (t : pystr) | FLocked.

Record world : Type := mk_world {
  w_file : pystr;                  (** [self.filename] *)
  w_habits : pyval;                (** [self.habits] *)
  w_disk : gmap pystr fentry       (** the file system *)
}.

Definition with_habits (w : world) (h : pyval) : world := mk_world (w_file w) h (w_disk w).
Definition with_disk (w : world) (dk : gmap pystr fentry) : world :=
  mk_world (w_file w) (w_habits w) dk.

(** The keys of a habit record. *)
Definition k_description : pystr := str "description".
Definition k_frequency : pystr := str "frequency".
Definition k_count : pystr := str "completion_count".

(** The record [add_habit] stores (lines 23-27). *)
Definition new_record (description frequency : pystr) : pyval :=
  PDict [(k_description, PStr description); (k_frequency, PStr frequency); (k_count, PInt 0)].

Definition msg_exists : string := "Habit already exists".
Definition msg_not_found : string := "Habit not found".

(** What [__init__] ends with: a tracker, an exception, or a file whose
    JSON holds a float (outside [pyval]). *)
Inductive init_outcome : Type := Ready (w : world) | InitRaised (e : pyexc) | InitFloat.

Local Open Scope pym_scope.

Section Tracker.
Context `{!JsonCodec}.

(** [load_data] (lines 9-14): a missing file and a [JSONDecodeError]
    give [{}]; any other exception propagates. *)
Definition load_data (fname : pystr) (dk : gmap pystr fentry) : init_outcome :=
  match dk !! fname with
  | None => Ready (mk_world fname (PDict []) dk)
  | Some FLocked => InitRaised PermissionError
  | Some (FText t) =>
      match json_loads t with
      | Loaded v => Ready (mk_world fname v dk)
      | DecodeFailed => Ready (mk_world fname (PDict []) dk)
      | FloatFound => InitFloat
      | LoadRaised e => InitRaised e
      end
  end.

(** [__init__(filename)] (lines 5-7). *)
Definition HabitTracker (fname : pystr) (dk : gmap pystr fentry) : init_outcome :=
  load_data fname dk.

(** [save_data] (lines 16-18): [open(filename, 'w')], which empties
    the file, then [json.dump] writing [habits] into it chunk by chunk;
    when a chunk raises, the file keeps what was written before it and
    the exception propagates. *)
Definition save_data : PyM world pyexc unit :=
  w <- get ;;
  match w_disk w !! w_file w with
  | Some FLocked => raise PermissionError
  | _ =>
      match json_dump_io (w_habits w) with
      | Dumped t => put (with_disk w (<[w_file w := FText t]> (w_disk w)))
      | DumpRaised t e => put (with_disk w (<[w_file w := FText t]> (w_disk w))) ;;; raise e
      end
  end.

(** [add_habit(habit_name, description, frequency)] (lines 20-28);
    the defaults of the last two are [add_habit_default]'s. *)
Definition add_habit (name description frequency : pystr) : PyM world pyexc unit :=
  w <- get ;;
  present <- lift (py_contains name (w_habits w)) ;;
  if present then raise (ValueError msg_exists) else
  h <- lift (py_setitem (w_habits w) name (new_record description frequency)) ;;
  put (with_habits w h) ;;;
  save_data.

(** The call [add_habit(name)] with the default arguments. *)
Definition add_habit_default (name : pystr) : PyM world pyexc unit :=
  add_habit name [] (str "daily").

(** [mark_completed(habit_name)] (lines 30-34): the record
    [habits[habit_name]] is mutated in place by
    [record["completion_count"] += 1]. *)
Definition mark_completed (name : pystr) : PyM world pyexc unit :=
  w <- get ;;
  present <- lift (py_contains name (w_habits w)) ;;
  if negb present then raise (ValueError msg_not_found) else
  p <- lift (py_locate (w_habits w) (PStr name)) ;;
  r <- lift (py_read_at (w_habits w) p) ;;
  c <- lift (py_getitem r (PStr k_count)) ;;
  c' <- lift (py_iadd_one c) ;;
  r' <- lift (py_setitem r k_count c') ;;
  put (with_habits w (py_writeback (w_habits w) p r')) ;;;
  save_data.

(** [view_progress(habit_name)] (lines 36-39). *)
Definition view_progress (name : pystr) : PyM world pyexc pyval :=
  w <- get ;;
  present <- lift (py_contains name (w_habits w)) ;;
  if negb present then raise (ValueError msg_not_found) else
  r <- lift (py_getitem (w_habits w) (PStr name)) ;;
  lift (py_getitem r (PStr k_count)).

(** [remove_habit(habit_name)] (lines 41-45). *)
Definition remove_habit (name : pystr) : PyM world pyexc unit :=
  w <- get ;;
  present <- lift (py_contains name (w_habits w)) ;;
  if negb present then raise (ValueError msg_not_found) else
  h <- lift (py_delitem (w_habits w) name) ;;
  put (with_habits w h) ;;;
  save_data.

(** One pass of the loop of [reset_progress] (line 49):
    [self.habits[habit]["completion_count"] = 0], the record mutated
    in place. *)
Definition reset_one (habit : pyval) : PyM world pyexc unit :=
  w <- get ;;
  p <- lift (py_locate (w_habits w) habit) ;;
  r <- lift (py_read_at (w_habits w) p) ;;
  r' <- lift (py_setitem r k_count (PInt 0)) ;;
  put (with_habits w (py_writeback (w_habits w) p r')).

(** [for habit in self.habits: ...] from position [n], for at most
    [count] passes.  Each pass reads the [n]-th item of the live
    container; no pass changes the container's length, so [count] =
    [len(self.habits)] passes run the whole loop. *)
Fixpoint reset_loop (n count : nat) : PyM world pyexc unit :=
  match count with
  | O => ret tt
  | S count' =>
      w <- get ;;
      match py_iter_nth (w_habits w) n with
      | None => ret tt
      | Some habit => reset_one habit ;;; reset_loop (S n) count'
      end
  end.

(** [reset_progress()] (lines 47-50). *)
Definition reset_progress : PyM world pyexc unit :=
  w <- get ;;
  len <- lift (py_iter_len (w_habits w)) ;;
  reset_loop 0 len ;;;
  save_data.
End Tracker.

(** ** Behaviour of the methods *)

(** [open(filename, 'w')] succeeds. *)
Definition file_writable (w : world) : bool :=
  match w_disk w !! w_file w with Some FLocked => false | _ => true end.

Lemma file_writable_with_habits w h : file_writable (with_habits w h) = file_writable w.
Proof. reflexivity. Qed.

Lemma with_habits_habits w h : w_habits (with_habits w h) = h.
Proof. reflexivity. Qed.

Lemma with_habits_id w : with_habits w (w_habits w) = w.
Proof. by destruct w. Qed.

Lemma with_habits_twice w h h' : with_habits (with_habits w h) h' = with_habits w h'.
Proof. reflexivity. Qed.

#[export] Hint Rewrite file_writable_with_habits with_habits_habits with_habits_twice : pym_rw.

Section TrackerFacts.
Context `{!JsonCodec}.

(** The world once [save_data] has written [habits] to the file. *)
Definition saved (w : world) : world :=
  with_disk w (<[w_file w := FText (json_dumps (w_habits w))]> (w_disk w)).

(** The world once [json.dump] has written [t] into the file. *)
Definition written (w : world) (t : pystr) : world :=
  with_disk w (<[w_file w := FText t]> (w_disk w)).

(** What [save_data] ends with: the [PermissionError] of [open] and
    nothing written; or the file holding what [json.dump] wrote, and
    the exception it raised, if any. *)
Definition commit (w : world) : world * (pyexc + unit) :=
  if file_writable w then
    match json_dump_io (w_habits w) with
    | Dumped t => (written w t, inr tt)
    | DumpRaised t e => (written w t, inl e)
    end
  else (w, inl PermissionError).

Lemma save_data_commit w : save_data w = commit w.
Proof.
  unfold save_data, commit, file_writable, written. pym_simp.
  destruct (w_disk w !! w_file w) as [[]|]; [|done|];
    destruct (json_dump_io (w_habits w)); done.
Qed.

Lemma commit_fits w : py_fits (w_habits w) = true -> commit w = if file_writable w then (saved w, inr tt) else (w, inl PermissionError).
Proof. unfold commit. intros Hf. rewrite json_dump_fits by done. done. Qed.

(** What [__init__] reads passed [int(s)]: its ints are within the
    conversion limit. *)
Lemma HabitTracker_fits fname dk w : HabitTracker fname dk = Ready w -> py_fits (w_habits w) = true.
Proof.
  unfold HabitTracker, load_data. destruct (dk !! fname) as [[t|]|]; [|done|by intros [= <-]].
  destruct (json_loads t) eqn:Ht; try done; intros [= <-]; [|done]. exact (json_loads_fits _ _ Ht).
Qed.

Lemma save_data_ok w :
  file_writable w = true -> py_fits (w_habits w) = true -> save_data w = (saved w, inr tt).
Proof. intros Hw Hf. by rewrite save_data_commit, commit_fits, Hw. Qed.

Lemma save_data_locked w : file_writable w = false -> save_data w = (w, inl PermissionError).
Proof.
  unfold save_data, file_writable. pym_simp.
  destruct (w_disk w !! w_file w) as [[]|]; done.
Qed.

Lemma py_contains_dict name d : py_contains name (PDict d) = inr (dict_contains name d).
Proof. reflexivity. Qed.

Lemma py_locate_dict_present name d :
  is_Some (dict_get name d) -> py_locate (PDict d) (PStr name) = inr (LKey name).
Proof. intros Hs. simpl. by rewrite (proj2 (dict_contains_true _ _) Hs). Qed.

Lemma py_read_at_dict name d v :
  dict_get name d = Some v -> py_read_at (PDict d) (LKey name) = inr v.
Proof. unfold py_read_at. simpl. by intros ->. Qed.

Lemma py_getitem_dict name d v :
  dict_get name d = Some v -> py_getitem (PDict d) (PStr name) = inr v.
Proof.
  intros Hv. unfold py_getitem. rewrite py_locate_dict_present by eauto.
  by apply py_read_at_dict.
Qed.
End TrackerFacts.

#[export] Hint Rewrite @py_contains_dict : pym_rw.

(** [pym_run] evaluates a method on a dict-valued [habits] as far as
    the hypotheses allow. *)
Ltac pym_run :=
  repeat (autorewrite with pym_rw;
          cbn beta iota delta [py_setitem py_delitem py_iadd_one py_writeback negb]).

Section Methods.
Context `{!JsonCodec}.
Implicit Types (w : world) (d : list (pystr * pyval)) (name description frequency : pystr).

Lemma add_habit_absent w d name description frequency :
  w_habits w = PDict d -> dict_get name d = None ->
  add_habit name description frequency w =
    save_data (with_habits w (PDict (d ++ [(name, new_record description frequency)]))).
Proof.
  intros Hh Hn. unfold add_habit. pym_run. rewrite Hh. pym_run.
  rewrite (proj2 (dict_contains_false _ _) Hn). pym_run.
  rewrite dict_set_absent by (by apply dict_get_None). by pym_run.
Qed.

Lemma new_record_fits description frequency : py_fits (new_record description frequency) = true.
Proof. reflexivity. Qed.

(** C13: [add_habit(name, description, frequency)] on a dict without
    [name], its ints within the conversion limit, and a writable file
    appends the record [{"description": description, "frequency":
    frequency, "completion_count": 0}] at the end of [habits] and
    writes the whole dict to the file. *)
Lemma add_habit_new w d name description frequency :
  w_habits w = PDict d -> dict_get name d = None -> py_fits (PDict d) = true ->
  file_writable w = true ->
  add_habit name description frequency w =
    (saved (with_habits w (PDict (d ++ [(name, new_record description frequency)]))), inr tt).
Proof.
  intros Hh Hn Hf Hw. rewrite (add_habit_absent w d) by done. apply save_data_ok; [done|].
  rewrite <- dict_set_absent by (by apply dict_get_None).
  by apply py_fits_dict_set, new_record_fits.
Qed.

Lemma add_habit_present w d name description frequency :
  w_habits w = PDict d -> is_Some (dict_get name d) ->
  add_habit name description frequency w = (w, inl (ValueError msg_exists)).
Proof.
  intros Hh Hn. unfold add_habit. pym_run. rewrite Hh. pym_run.
  by rewrite (proj2 (dict_contains_true _ _) Hn).
Qed.

(** C23: when [open(filename, 'w')] raises [PermissionError],
    [add_habit] of a new name has already put the record into [habits]:
    the exception propagates with memory changed and the file not, which
    the specification's "no partial mutation" excludes. *)
Lemma add_habit_unwritable w d name description frequency :
  w_habits w = PDict d -> dict_get name d = None -> file_writable w = false ->
  add_habit name description frequency w =
    (with_habits w (PDict (d ++ [(name, new_record description frequency)])), inl PermissionError).
Proof. intros Hh Hn Hw. rewrite (add_habit_absent w d) by done. by apply save_data_locked. Qed.

(** The three guards on an absent name. *)
Lemma absent_name_guards w d name :
  w_habits w = PDict d -> dict_get name d = None ->
  mark_completed name w = (w, inl (ValueError msg_not_found)) /\
  view_progress name w = (w, inl (ValueError msg_not_found)) /\
  remove_habit name w = (w, inl (ValueError msg_not_found)).
Proof.
  intros Hh Hn. unfold mark_completed, view_progress, remove_habit.
  pym_run. rewrite Hh. pym_run. by rewrite (proj2 (dict_contains_false _ _) Hn).
Qed.

(** The record update of [mark_completed], up to the save. *)
Lemma mark_completed_mutation w d name r n :
  w_habits w = PDict d -> dict_get name d = Some (PDict r) -> dict_get k_count r = Some (PInt n) ->
  mark_completed name w =
    save_data (with_habits w (PDict (dict_set name (PDict (dict_set k_count (PInt (n + 1)) r)) d))).
Proof.
  intros Hh Hr Hc. unfold mark_completed. pym_run. rewrite Hh. pym_run.
  rewrite (proj2 (dict_contains_true _ _)) by eauto. pym_run.
  rewrite py_locate_dict_present by eauto. pym_run.
  rewrite (py_read_at_dict _ _ _ Hr). pym_run.
  rewrite (py_getitem_dict _ _ _ Hc). pym_run. done.
Qed.

(** C12: [mark_completed(name)] on a present record with
    ["completion_count"] [n], a writable file, and ints within the
    conversion limit, [n + 1] included, sets the count to [n + 1] in
    place, keeps every other key and the order of [habits], and writes
    the whole dict to the file. *)
Lemma mark_completed_ok w d name r n :
  w_habits w = PDict d -> dict_get name d = Some (PDict r) -> dict_get k_count r = Some (PInt n) ->
  py_fits (PDict d) = true -> int_fits (n + 1) = true -> file_writable w = true ->
  mark_completed name w =
    (saved (with_habits w (PDict (dict_set name (PDict (dict_set k_count (PInt (n + 1)) r)) d))),
     inr tt).
Proof.
  intros Hh Hr Hc Hf Hn Hw. rewrite (mark_completed_mutation w d name r n) by done.
  apply save_data_ok; [done|]. apply py_fits_dict_set; [done|].
  apply py_fits_dict_set; [|done]. exact (py_fits_dict_get _ _ _ Hf Hr).
Qed.

Lemma view_progress_ok w d name r c :
  w_habits w = PDict d -> dict_get name d = Some (PDict r) -> dict_get k_count r = Some c ->
  view_progress name w = (w, inr c).
Proof.
  intros Hh Hr Hc. unfold view_progress. pym_run. rewrite Hh. pym_run.
  rewrite (proj2 (dict_contains_true _ _)) by eauto. pym_run.
  rewrite (py_getitem_dict _ _ _ Hr). pym_run.
  by rewrite (py_getitem_dict _ _ _ Hc).
Qed.

(** What [view_progress] returns of a tracker within the int
    conversion limit is within it. *)
Lemma view_progress_fits name w v :
  py_fits (w_habits w) = true -> (view_progress name w).2 = inr v -> py_fits v = true.
Proof.
  intros Hf. unfold view_progress. pym_run.
  destruct (py_contains name (w_habits w)) as [e|[]]; pym_run; try done.
  destruct (py_getitem (w_habits w) (PStr name)) as [e|r] eqn:Hr; pym_run; [done|].
  intros Hv. exact (py_getitem_fits _ _ _ (py_getitem_fits _ _ _ Hf Hr) Hv).
Qed.

Lemma remove_habit_present w d name :
  w_habits w = PDict d -> is_Some (dict_get name d) ->
  remove_habit name w = save_data (with_habits w (PDict (dict_del name d))).
Proof.
  intros Hh Hn. unfold remove_habit. pym_run. rewrite Hh. pym_run.
  by rewrite (proj2 (dict_contains_true _ _) Hn).
Qed.

(** C14: [remove_habit(name)] on a present name, ints within the
    conversion limit and a writable file deletes the entry of [name],
    keeps the order of the others, and writes the whole dict to the
    file. *)
Lemma remove_habit_ok w d name :
  w_habits w = PDict d -> is_Some (dict_get name d) -> py_fits (PDict d) = true ->
  file_writable w = true ->
  remove_habit name w = (saved (with_habits w (PDict (dict_del name d))), inr tt).
Proof.
  intros. rewrite (remove_habit_present w d) by done.
  by apply save_data_ok, py_fits_dict_del.
Qed.
End Methods.

(** ** [reset_progress] on a dict of records *)

(** What one pass does to a record: [record["completion_count"] = 0]. *)
Definition reset_record (r : pyval) : pyval :=
  match r with PDict rr => PDict (dict_set k_count (PInt 0) rr) | _ => r end.

Definition is_pydict (v : pyval) : bool := match v with PDict _ => true | _ => false end.

Lemma py_setitem_not_dict v k x : is_pydict v = false -> py_setitem v k x = inl TypeError.
Proof. by destruct v. Qed.

Lemma py_setitem_reset v : is_pydict v = true -> py_setitem v k_count (PInt 0) = inr (reset_record v).
Proof. by destruct v. Qed.

Lemma reset_record_fits r : py_fits r = true -> py_fits (reset_record r) = true.
Proof. destruct r as [| | | | |rr]; [done..|]. intros Hr. by apply py_fits_dict_set. Qed.

Section Reset.
Context `{!JsonCodec}.

(** The loop position [length d1] of [dict_map_values reset_record d1
    ++ (k, v) :: d2] yields [k]. *)
Lemma iter_nth_split d1 k v d2 :
  py_iter_nth (PDict (dict_map_values reset_record d1 ++ (k, v) :: d2)) (length d1) = Some (PStr k).
Proof.
  simpl. rewrite dict_keys_app. simpl. rewrite list_lookup_middle; [done|].
  unfold dict_keys, dict_map_values. by rewrite !length_fmap.
Qed.

(** One pass on the key [k] of a dict split as [d1 ++ (k, v) :: d2]. *)
Lemma reset_one_split w d1 k v d2 :
  k ∉ dict_keys d1 -> w_habits w = PDict (d1 ++ (k, v) :: d2) ->
  reset_one (PStr k) w =
    match py_setitem v k_count (PInt 0) with
    | inl e => (w, inl e)
    | inr v' => (with_habits w (PDict (d1 ++ (k, v') :: d2)), inr tt)
    end.
Proof.
  intros Hk Hh. unfold reset_one. pym_run. rewrite Hh.
  rewrite py_locate_dict_present by (rewrite dict_get_split; eauto). pym_run.
  rewrite (py_read_at_dict _ _ v) by (by apply dict_get_split). pym_run.
  destruct (py_setitem v k_count (PInt 0)) as [e|v']; pym_run; [done|].
  by rewrite dict_set_split.
Qed.

(** Running the loop over a block [d2] of records. *)
Lemma reset_loop_block w d1 d2 d3 m :
  dict_wf (d1 ++ d2 ++ d3) -> Forall (fun kv => is_pydict kv.2 = true) d2 ->
  w_habits w = PDict (dict_map_values reset_record d1 ++ d2 ++ d3) ->
  reset_loop (length d1) (length d2 + m) w =
    reset_loop (length d1 + length d2) m
      (with_habits w (PDict (dict_map_values reset_record (d1 ++ d2) ++ d3))).
Proof.
  revert d1 w. induction d2 as [|[k v] d2 IH]; intros d1 w Hwf Hd Hh.
  - simpl in *. by rewrite Nat.add_0_r, app_nil_r, <- Hh, with_habits_id.
  - apply Forall_cons in Hd as [Hv Hd]. simpl in Hv. rewrite <- app_comm_cons in Hh.
    simpl. unfold bind at 1, get. rewrite Hh, iter_nth_split.
    assert (Hk : k ∉ dict_keys (dict_map_values reset_record d1)).
    { rewrite dict_keys_map_values. by eapply dict_wf_split. }
    unfold bind at 1. rewrite (reset_one_split _ _ _ _ _ Hk Hh), py_setitem_reset by done.
    replace (S (length d1)) with (length (d1 ++ [(k, v)])) by (rewrite length_app; simpl; lia).
    rewrite IH; [| rewrite <- app_assoc; exact Hwf | exact Hd |].
    + rewrite with_habits_twice, <- app_assoc. f_equal. rewrite length_app. simpl. lia.
    + simpl. unfold dict_map_values. by rewrite fmap_app, <- app_assoc.
Qed.

Lemma reset_progress_run w d :
  w_habits w = PDict d ->
  reset_progress w = bind (reset_loop 0 (length d)) (fun _ => save_data) w.
Proof. intros Hh. unfold reset_progress. pym_run. by rewrite Hh. Qed.

(** On a dict of records, the loop of [reset_progress] is the map of
    [reset_record] over the values, then one save. *)
Lemma reset_progress_records w d :
  w_habits w = PDict d -> dict_wf d -> Forall (fun kv => is_pydict kv.2 = true) d ->
  reset_progress w = save_data (with_habits w (PDict (dict_map_values reset_record d))).
Proof.
  intros Hh Hwf Hd. rewrite (reset_progress_run w d Hh).
  apply (bind_ok (reset_loop 0 (length d)) (fun _ => save_data) _
           (with_habits w (PDict (dict_map_values reset_record d))) tt).
  pose proof (reset_loop_block w [] d [] 0) as Hl. simpl in Hl.
  rewrite !app_nil_r, Nat.add_0_r in Hl. by rewrite Hl.
Qed.

(** C15: [reset_progress()] on a dict whose values are all dicts, ints
    within the conversion limit and a writable file sets
    ["completion_count"] to 0 in every record (adding the key where it
    is missing) and returns with the file holding the text of the
    reset [habits]. *)
Lemma reset_progress_dict w d :
  w_habits w = PDict d -> dict_wf d -> Forall (fun kv => is_pydict kv.2 = true) d ->
  py_fits (PDict d) = true -> file_writable w = true ->
  reset_progress w = (saved (with_habits w (PDict (dict_map_values reset_record d))), inr tt).
Proof.
  intros. rewrite (reset_progress_records w d) by done.
  by apply save_data_ok, py_fits_map_values; [|apply reset_record_fits|].
Qed.

(** C24: a record that is not a dict (a file holding ["habit": 3])
    stops the loop of [reset_progress] with [TypeError]: the records
    before it stay reset in memory, the rest are untouched, and nothing
    is saved, a partial mutation the specification excludes. *)
Lemma reset_progress_partial w d1 k v d2 :
  w_habits w = PDict (d1 ++ (k, v) :: d2) -> dict_wf (d1 ++ (k, v) :: d2) ->
  Forall (fun kv => is_pydict kv.2 = true) d1 -> is_pydict v = false ->
  reset_progress w =
    (with_habits w (PDict (dict_map_values reset_record d1 ++ (k, v) :: d2)), inl TypeError).
Proof.
  intros Hh Hwf Hd Hv. rewrite (reset_progress_run w _ Hh).
  apply (bind_err _ _ _ (with_habits w (PDict (dict_map_values reset_record d1 ++ (k, v) :: d2)))
           TypeError).
  rewrite length_app. simpl length.
  pose proof (reset_loop_block w [] d1 ((k, v) :: d2) (S (length d2))) as Hl.
  cbn [length app Nat.add] in Hl. rewrite Hl by done.
  simpl. unfold bind at 1, get. rewrite with_habits_habits, (iter_nth_split d1 k v d2). simpl.
  unfold bind at 1. rewrite (reset_one_split _ (dict_map_values reset_record d1) k v d2).
  - by rewrite py_setitem_not_dict.
  - rewrite dict_keys_map_values. by eapply dict_wf_split.
  - done.
Qed.
End Reset.
