(* ===== verification/Json.v ===== *)
(** * [json.dump(obj, fp, indent=4)]: the text [save_data] writes

    With an [indent], Python's [json] module encodes with the pure
    Python [_make_iterencode] (json/encoder.py): item separator [","],
    key separator [": "], a newline and [4 * level] spaces before every
    item and before the closing bracket, ["[]"] and ["{}"] for empty
    containers, dict items in insertion order.  Strings go through the
    C function [ascii_escape_unicode] (Modules/_json.c,
    [ensure_ascii=True]): printable ASCII is copied, the seven short
    escapes are used, and every other code point is written [\uXXXX]
    with lowercase hex digits, as a surrogate pair above U+FFFF.
    Integers are printed by [int.__repr__]. *)

From Stdlib Require Import Ascii DecimalPos.
From S2P Require Import Prelude PyDict PyInt PyValue Codec.

(** The code of an ASCII character. *)
Definition chr (a : Ascii.ascii) : Z := Z.of_nat (Ascii.nat_of_ascii a).

(** ** Integers *)

Fixpoint uint_text (u : Decimal.uint) : pystr :=
  match u with
  | Decimal.Nil => []
  | Decimal.D0 u => 48 :: uint_text u
  | Decimal.D1 u => 49 :: uint_text u
  | Decimal.D2 u => 50 :: uint_text u
  | Decimal.D3 u => 51 :: uint_text u
  | Decimal.D4 u => 52 :: uint_text u
  | Decimal.D5 u => 53 :: uint_text u
  | Decimal.D6 u => 54 :: uint_text u
  | Decimal.D7 u => 55 :: uint_text u
  | Decimal.D8 u => 56 :: uint_text u
  | Decimal.D9 u => 57 :: uint_text u
  end.

(** [int.__repr__]: the decimal digits, with a minus sign. *)
Definition int_repr (z : Z) : pystr :=
  match Z.to_int z with
  | Decimal.Pos u => uint_text u
  | Decimal.Neg u => chr "-"%char :: uint_text u
  end.

Lemma length_uint_text u : length (uint_text u) = Decimal.nb_digits u.
Proof. induction u; simpl; by rewrite ?IHu. Qed.

(** ** Strings *)

(** [Py_hexdigits[n]] for [0 <= n < 16]: "0123456789abcdef". *)
Definition hexdigit (n : Z) : Z := if n <? 10 then 48 + n else 87 + n.

(** [\u] and the four hex digits of [c] (lines of [ascii_escape_unichar]). *)
Definition u_escape (c : Z) : pystr :=
  [chr "\"%char; chr "u"%char;
   hexdigit (Z.land (Z.shiftr c 12) 15); hexdigit (Z.land (Z.shiftr c 8) 15);
   hexdigit (Z.land (Z.shiftr c 4) 15); hexdigit (Z.land c 15)].

(** [S_CHAR(c)]: copied as it is. *)
Definition s_char (c : Z) : bool :=
  (32 <=? c) && (c <=? 126) && negb (c =? chr "\"%char) && negb (c =? 34).

(** [ascii_escape_unichar(c)] *)
Definition escape_unichar (c : Z) : pystr :=
  if c =? chr "\"%char then [chr "\"%char; chr "\"%char]
  else if c =? 34 then [chr "\"%char; 34]
  else if c =? 8 then [chr "\"%char; chr "b"%char]
  else if c =? 12 then [chr "\"%char; chr "f"%char]
  else if c =? 10 then [chr "\"%char; chr "n"%char]
  else if c =? 13 then [chr "\"%char; chr "r"%char]
  else if c =? 9 then [chr "\"%char; chr "t"%char]
  else if 65536 <=? c
  then u_escape (55232 + Z.shiftr c 10) ++ u_escape (56320 + Z.land c 1023)
  else u_escape c.

Definition escape_char (c : Z) : pystr := if s_char c then [c] else escape_unichar c.

(** [encode_basestring_ascii(s)]: the quoted, escaped string. *)
Definition encode_basestring_ascii (s : pystr) : pystr :=
  34 :: flat_map escape_char s ++ [34].

(** ** Values *)

(** ['\n' + ' ' * 4 * level] *)
Definition newline_indent (level : nat) : pystr := 10 :: repeat 32 (4 * level).

(** [_iterencode(o, level)], its chunks concatenated as [json.dump]
    writes them one after the other. *)
Fixpoint dump (level : nat) (v : pyval) : pystr :=
  match v with
  | PNone => str "null"
  | PBool true => str "true"
  | PBool false => str "false"
  | PInt z => int_repr z
  | PStr s => encode_basestring_ascii s
  | PList [] => str "[]"
  | PList (x :: xs) =>
      str "[" ++ newline_indent (S level) ++ dump (S level) x
        ++ flat_map (fun y => str "," ++ newline_indent (S level) ++ dump (S level) y) xs
        ++ newline_indent level ++ str "]"
  | PDict [] => str "{}"
  | PDict (kv :: kvs) =>
      str "{" ++ newline_indent (S level)
        ++ encode_basestring_ascii kv.1 ++ str ": " ++ dump (S level) kv.2
        ++ flat_map (fun kv => str "," ++ newline_indent (S level)
                               ++ encode_basestring_ascii kv.1 ++ str ": " ++ dump (S level) kv.2) kvs
        ++ newline_indent level ++ str "}"
  end.

(** The whole text of [json.dump(obj, fp, indent=4)]. *)
Definition json_dump (v : pyval) : pystr := dump 0 v.

(** ** Writing chunk by chunk

    [json.dump] runs [for chunk in iterable: fp.write(chunk)]: each
    chunk is written before the next is computed, and computing a chunk
    may raise, [int.__repr__] on an int beyond the conversion limit. *)

(** The chunk [t] written, then what [r] writes. *)
Definition then_write (t : pystr) (r : dump_result) : dump_result :=
  match r with Dumped u => Dumped (t ++ u) | DumpRaised u e => DumpRaised (t ++ u) e end.

(** What [r1] writes, then, when it completed, what [r2] writes. *)
Definition seq_write (r1 r2 : dump_result) : dump_result :=
  match r1 with Dumped t => then_write t r2 | DumpRaised t e => DumpRaised t e end.

Definition seq_writes (rs : list dump_result) : dump_result := foldr seq_write (Dumped []) rs.

(** [_intstr(o)], that is [int.__repr__(o)]. *)
Definition int_chunk (z : Z) : pyexc + pystr :=
  if int_fits z then inr (int_repr z) else inl (ValueError msg_int_to_str).

(** The text of a str, None, bool or int, computed in one expression;
    [None] for a list or a dict, which are encoded chunk by chunk. *)
Definition scalar_chunk (v : pyval) : option (pyexc + pystr) :=
  match v with
  | PNone => Some (inr (str "null"))
  | PBool true => Some (inr (str "true"))
  | PBool false => Some (inr (str "false"))
  | PInt z => Some (int_chunk z)
  | PStr s => Some (inr (encode_basestring_ascii s))
  | PList _ | PDict _ => None
  end.

(** [yield buf + c]: nothing of the chunk is written when [c] raises. *)
Definition write_chunk (buf : pystr) (c : pyexc + pystr) : dump_result :=
  match c with inr t => Dumped (buf ++ t) | inl e => DumpRaised [] e end.

(** [_iterencode(o, level)] written into the file: a list item is
    [yield buf + text] for a scalar, [yield buf] then the item's chunks
    otherwise ([_iterencode_list]); a dict item writes the separator,
    the key and [": "] as chunks of their own before its value
    ([_iterencode_dict]). *)
Fixpoint dump_io (level : nat) (v : pyval) : dump_result :=
  match v with
  | PList [] => Dumped (str "[]")
  | PList (x :: xs) =>
      seq_writes
        ((match scalar_chunk x with
          | Some c => write_chunk (str "[" ++ newline_indent (S level)) c
          | None => then_write (str "[" ++ newline_indent (S level)) (dump_io (S level) x)
          end) ::
         map (fun y => match scalar_chunk y with
                       | Some c => write_chunk (str "," ++ newline_indent (S level)) c
                       | None => then_write (str "," ++ newline_indent (S level)) (dump_io (S level) y)
                       end) xs ++
         [Dumped (newline_indent level ++ str "]")])
  | PDict [] => Dumped (str "{}")
  | PDict (kv :: kvs) =>
      then_write (str "{" ++ newline_indent (S level))
        (seq_writes
          (then_write (encode_basestring_ascii kv.1 ++ str ": ")
             (match scalar_chunk kv.2 with Some c => write_chunk [] c | None => dump_io (S level) kv.2 end) ::
           map (fun kv => then_write (str "," ++ newline_indent (S level) ++ encode_basestring_ascii kv.1 ++ str ": ")
                            (match scalar_chunk kv.2 with
                             | Some c => write_chunk [] c
                             | None => dump_io (S level) kv.2
                             end)) kvs ++
           [Dumped (newline_indent level ++ str "}")]))
  | PInt z => write_chunk [] (int_chunk z)
  | PNone => Dumped (str "null")
  | PBool true => Dumped (str "true")
  | PBool false => Dumped (str "false")
  | PStr s => Dumped (encode_basestring_ascii s)
  end.

(** [json.dump(obj, fp, indent=4)] as it writes into [fp]. *)
Definition json_dump_stream (v : pyval) : dump_result := dump_io 0 v.

(** ** Everything [json.dump] writes is ASCII *)

(** A newline or a printable ASCII character. *)
Definition ascii_text (c : Z) : bool := (c =? 10) || ((32 <=? c) && (c <=? 126)).

Lemma land_15_bounds x : 0 <= Z.land x 15 <= 15.
Proof.
  change 15 with (Z.ones 4). rewrite Z.land_ones by lia.
  pose proof (Z.mod_pos_bound x (2 ^ 4) ltac:(lia)). change (Z.ones 4) with 15. lia.
Qed.

Lemma hexdigit_ascii n : 0 <= n <= 15 -> ascii_text (hexdigit n) = true.
Proof.
  intros Hn. unfold ascii_text, hexdigit.
  destruct (n <? 10) eqn:E; apply orb_true_intro; right;
    apply andb_true_intro; split; apply Z.leb_le; lia.
Qed.

Lemma u_escape_ascii c : forallb ascii_text (u_escape c) = true.
Proof.
  unfold u_escape. cbn [forallb]. rewrite !hexdigit_ascii by apply land_15_bounds. reflexivity.
Qed.

Lemma escape_char_ascii c : forallb ascii_text (escape_char c) = true.
Proof.
  unfold escape_char, escape_unichar.
  destruct (s_char c) eqn:Hs.
  - unfold s_char in Hs. rewrite !andb_true_iff in Hs. destruct Hs as [[[H1 H2] _] _].
    apply Z.leb_le in H1, H2. cbn. unfold ascii_text.
    rewrite (proj2 (Z.leb_le 32 c) H1), (proj2 (Z.leb_le c 126) H2), orb_true_r. reflexivity.
  - repeat case_match; rewrite ?forallb_app, ?u_escape_ascii; reflexivity.
Qed.

Lemma uint_text_ascii u : forallb ascii_text (uint_text u) = true.
Proof. induction u; cbn; rewrite ?IHu; reflexivity. Qed.

Lemma int_repr_ascii z : forallb ascii_text (int_repr z) = true.
Proof. unfold int_repr. destruct (Z.to_int z); cbn; apply uint_text_ascii. Qed.

Lemma encode_ascii s : forallb ascii_text (encode_basestring_ascii s) = true.
Proof.
  unfold encode_basestring_ascii. cbn [forallb]. rewrite forallb_app.
  induction s as [|c s IH]; [reflexivity|]. cbn [flat_map]. rewrite forallb_app, escape_char_ascii.
  exact IH.
Qed.

Lemma newline_indent_ascii level : forallb ascii_text (newline_indent level) = true.
Proof.
  unfold newline_indent. cbn [forallb]. generalize (4 * level)%nat as n.
  induction n as [|n IH]; [reflexivity|]. exact IH.
Qed.

Lemma forallb_flat_map_true {A} (p : Z -> bool) (f : A -> list Z) (l : list A) :
  Forall (fun x => forallb p (f x) = true) l -> forallb p (flat_map f l) = true.
Proof. induction 1; cbn; [done|]. by rewrite forallb_app, H, IHForall. Qed.

Lemma dump_ascii_text v : forall level, forallb ascii_text (dump level v) = true.
Proof.
  induction v as [| b | z | s | l IH | d IH] using pyval_ind'; intros level.
  - reflexivity.
  - by destruct b.
  - apply int_repr_ascii.
  - apply encode_ascii.
  - destruct l as [|x xs]; [reflexivity|]. apply Forall_cons in IH as [IHx IH].
    cbn [dump]. rewrite !forallb_app, !newline_indent_ascii, IHx.
    rewrite forallb_flat_map_true; [reflexivity|].
    eapply Forall_impl; [exact IH|]. intros y Hy. by rewrite !forallb_app, newline_indent_ascii, Hy.
  - destruct d as [|[k x] kvs]; [reflexivity|]. apply Forall_cons in IH as [IHx IH].
    cbn [dump fst snd]. rewrite !forallb_app, !newline_indent_ascii, encode_ascii, IHx.
    rewrite forallb_flat_map_true; [reflexivity|].
    eapply Forall_impl; [exact IH|]. intros [k' y] Hy. cbn [forallb fst snd].
    by rewrite !forallb_app, newline_indent_ascii, encode_ascii, Hy.
Qed.

(** C35: the bounds of the file's characters.  Whatever [habits]
    holds, every character [json.dump(habits, file, indent=4)] writes
    is a newline or printable ASCII (code 32 to 126): strings are
    escaped with [ensure_ascii], numbers are decimal digits, so the
    file's encoding never matters for what [save_data] writes. *)
Theorem json_dump_ascii v : Forall (fun c => c = 10 \/ 32 <= c <= 126) (json_dump v).
Proof.
  apply Forall_forall. intros c Hc.
  pose proof (proj1 (forallb_forall _ _) (dump_ascii_text v 0) c (proj1 (list_elem_of_In _ _) Hc)) as H.
  unfold ascii_text in H. apply orb_true_iff in H as [H|H]; [left; lia|].
  apply andb_true_iff in H as [H1 H2]. right. lia.
Qed.

(** ** What [json.dump] writes *)

(** [r] writes the text [full] when [fits], and otherwise raises the
    [ValueError] of [int.__repr__] after writing a proper prefix of
    [full]. *)
Definition dump_spec (r : dump_result) (fits : bool) (full : pystr) : Prop :=
  match r with
  | Dumped t => fits = true /\ t = full
  | DumpRaised p e => fits = false /\ e = ValueError msg_int_to_str /\ exists q, q <> [] /\ full = p ++ q
  end.

Lemma int_repr_nonempty z : int_repr z <> [].
Proof.
  unfold int_repr. destruct z as [|p|p]; simpl; [done| |done].
  pose proof (DecimalPos.Unsigned.to_uint_nonnil p). by destruct (Pos.to_uint p).
Qed.

Lemma then_write_spec t r b full : dump_spec r b full -> dump_spec (then_write t r) b (t ++ full).
Proof.
  destruct r as [u|u e]; simpl; [intros [-> ->]; done|].
  intros (-> & -> & q & Hq & ->). split_and!; [done..|]. exists q. by rewrite app_assoc.
Qed.

Lemma seq_write_spec r1 r2 b1 b2 f1 f2 :
  dump_spec r1 b1 f1 -> dump_spec r2 b2 f2 -> dump_spec (seq_write r1 r2) (b1 && b2) (f1 ++ f2).
Proof.
  destruct r1 as [t|t e]; simpl.
  - intros [-> ->] H2. exact (then_write_spec f1 r2 b2 f2 H2).
  - intros (-> & -> & q & Hq & ->) _. split_and!; [done..|]. exists (q ++ f2).
    split; [by destruct q | by rewrite app_assoc].
Qed.

Lemma seq_writes_spec {A} (rs : A -> dump_result) (bs : A -> bool) (fs : A -> pystr) xs :
  Forall (fun x => dump_spec (rs x) (bs x) (fs x)) xs ->
  dump_spec (seq_writes (map rs xs)) (forallb bs xs) (flat_map fs xs).
Proof.
  induction 1 as [|x xs Hx _ IH]; [done|]. cbn [map seq_writes foldr forallb flat_map].
  exact (seq_write_spec _ _ _ _ _ _ Hx IH).
Qed.

Lemma dump_spec_eq r b b' f f' : dump_spec r b f -> b = b' -> f = f' -> dump_spec r b' f'.
Proof. by intros ? -> ->. Qed.

Lemma then_write_app t u r : then_write t (then_write u r) = then_write (t ++ u) r.
Proof. destruct r; simpl; by rewrite app_assoc. Qed.

Lemma seq_write_assoc r1 r2 r3 : seq_write (seq_write r1 r2) r3 = seq_write r1 (seq_write r2 r3).
Proof. destruct r1 as [t|]; [|done]. destruct r2 as [u|]; simpl; [|done]. by rewrite then_write_app. Qed.

Lemma seq_write_nil r : seq_write r (Dumped []) = r.
Proof. destruct r; simpl; by rewrite ?app_nil_r. Qed.

Lemma seq_writes_app l1 l2 : seq_writes (l1 ++ l2) = seq_write (seq_writes l1) (seq_writes l2).
Proof.
  unfold seq_writes. induction l1 as [|r l1 IH]; cbn [app foldr].
  - by destruct (foldr seq_write (Dumped []) l2).
  - by rewrite IH, seq_write_assoc.
Qed.

Lemma write_chunk_spec buf level v c :
  scalar_chunk v = Some c -> dump_spec (write_chunk buf c) (py_fits v) (buf ++ dump level v).
Proof.
  destruct v as [|[]|z|s| |]; intros [=<-]; simpl; try done.
  unfold int_chunk. destruct (int_fits z); simpl; [done|]. split_and!; [done..|].
  exists (buf ++ int_repr z). split; [|done]. pose proof (int_repr_nonempty z). by destruct buf.
Qed.

(** A list item written after [buf]. *)
Lemma list_item_spec buf level y :
  dump_spec (dump_io (S level) y) (py_fits y) (dump (S level) y) ->
  dump_spec (match scalar_chunk y with
             | Some c => write_chunk buf c
             | None => then_write buf (dump_io (S level) y)
             end) (py_fits y) (buf ++ dump (S level) y).
Proof.
  intros IH. destruct (scalar_chunk y) eqn:Hc; [by apply write_chunk_spec | by apply then_write_spec].
Qed.

(** A dict value, after its key. *)
Lemma dict_value_spec level y :
  dump_spec (dump_io (S level) y) (py_fits y) (dump (S level) y) ->
  dump_spec (match scalar_chunk y with Some c => write_chunk [] c | None => dump_io (S level) y end)
            (py_fits y) (dump (S level) y).
Proof.
  intros IH. destruct (scalar_chunk y) eqn:Hc; [|done].
  exact (write_chunk_spec [] (S level) y _ Hc).
Qed.

(** [json.dump] writes the text [dump] when every int of the value is
    within the conversion limit; otherwise it raises the [ValueError]
    of [int.__repr__] after writing a prefix of that text. *)
Lemma dump_io_spec v : forall level, dump_spec (dump_io level v) (py_fits v) (dump level v).
Proof.
  induction v as [| b | z | s | l IH | d IH] using pyval_ind'; intros level.
  - done.
  - by destruct b.
  - exact (write_chunk_spec [] level (PInt z) _ eq_refl).
  - done.
  - destruct l as [|x xs]; [done|]. apply Forall_cons in IH as [IHx IH].
    cbn [dump_io seq_writes foldr]. rewrite seq_writes_app.
    eapply dump_spec_eq.
    + apply seq_write_spec; [by apply list_item_spec|].
      apply seq_write_spec; [|exact (conj eq_refl (app_nil_r _))].
      apply (seq_writes_spec _ py_fits (fun y => str "," ++ newline_indent (S level) ++ dump (S level) y)).
      eapply Forall_impl; [exact IH|]. intros y Hy. by apply list_item_spec.
    + simpl. by rewrite andb_true_r.
    + cbn [dump]. by rewrite !app_assoc.
  - destruct d as [|[k x] kvs]; [done|]. apply Forall_cons in IH as [IHx IH]. cbn [fst snd] in IHx.
    cbn [dump_io]. eapply dump_spec_eq.
    + apply then_write_spec. cbn [seq_writes foldr]. rewrite seq_writes_app.
      apply seq_write_spec; [apply then_write_spec; by apply dict_value_spec|].
      apply seq_write_spec; [|exact (conj eq_refl (app_nil_r _))].
      apply (seq_writes_spec _ (fun kv => py_fits kv.2)
               (fun kv => str "," ++ newline_indent (S level) ++ encode_basestring_ascii kv.1 ++ str ": "
                          ++ dump (S level) kv.2)).
      eapply Forall_impl; [exact IH|]. intros [k' y] Hy. cbn [fst snd] in *.
      eapply dump_spec_eq; [apply then_write_spec, dict_value_spec, Hy | done | by rewrite !app_assoc].
    + simpl. by rewrite andb_true_r.
    + cbn [dump fst snd]. by rewrite !app_assoc.
Qed.
