(* ===== verification/PyFormat.v ===== *)
(** * [str()] of the values [json.load] gives: the f-string of [main]

    [print(f"Progress for '{name}': {progress}")] (src/habit_tracker.py,
    line 82) formats [progress] with [format(progress, '')], that is
    [str(progress)]: a [str] is itself; [None], [True] and [False] are
    their names; an [int] is its decimal text, or the [ValueError] of
    the int conversion limit; a list and a dict are their [repr]: the
    [repr] of every item, between brackets or braces, separated by
    [", "], each key followed by [": "] (Objects/listobject.c
    [list_repr], Objects/dictobject.c [dict_repr]), the first exception
    of an item propagating.  The [repr] of a [str] is CPython's
    [unicode_repr] (Objects/unicodeobject.c): the quote is ['] unless
    the text holds ['] and no double quote, backslashes and that quote are
    escaped, tab, newline and carriage return are written [\t], [\n],
    [\r], the other ASCII controls and DEL [\xhh], and a non-ASCII code
    point that the Unicode database does not call printable [\xhh],
    [\uhhhh] or [\Uhhhhhhhh].  The database is the parameter
    [UnicodeData]: the classification is a table of the interpreter,
    not code of the repository. *)

From S2P Require Import Prelude PyDict PyInt PyValue Codec Json.

(** [Py_UNICODE_ISPRINTABLE]: the Unicode database's test, used by
    [repr] on non-ASCII code points only. *)
Class UnicodeData : Type := { unicode_printable : Z -> bool }.

(** The results of a sequence of computations that may raise, in
    order; the first exception wins. *)
Fixpoint all_ok {E A} (rs : list (E + A)) : E + list A :=
  match rs with
  | [] => inr []
  | inl e :: _ => inl e
  | inr a :: rs => sum_map id (cons a) (all_ok rs)
  end.

(** [", ".join(items)]. *)
Fixpoint join_items (xs : list pystr) : pystr :=
  match xs with
  | [] => []
  | x :: xs' => match xs' with [] => x | _ => x ++ str ", " ++ join_items xs' end
  end.

(** The [k] lowercase hex digits of [c], most significant first. *)
Definition hex_digits (k : nat) (c : Z) : pystr :=
  map (fun i => hexdigit (Z.land (Z.shiftr c (4 * Z.of_nat i)) 15)) (rev (seq 0 k)).

Section Repr.
Context `{!UnicodeData}.

(** One code point of [unicode_repr], with the chosen [quote]. *)
Definition repr_char (quote c : Z) : pystr :=
  if (c =? quote) || (c =? 92) then [92; c]
  else if c =? 9 then [92; 116]
  else if c =? 10 then [92; 110]
  else if c =? 13 then [92; 114]
  else if (c <? 32) || (c =? 127) then 92 :: 120 :: hex_digits 2 c
  else if c <? 127 then [c]
  else if unicode_printable c then [c]
  else if c <=? 255 then 92 :: 120 :: hex_digits 2 c
  else if c <=? 65535 then 92 :: 117 :: hex_digits 4 c
  else 92 :: 85 :: hex_digits 8 c.

(** The quote [unicode_repr] chooses: the double quote (34) when the
    text holds ['] (39) and no double quote, ['] otherwise. *)
Definition repr_quote (s : pystr) : Z :=
  if existsb (Z.eqb 39) s && negb (existsb (Z.eqb 34) s) then 34 else 39.

(** [str.__repr__]. *)
Definition str_repr (s : pystr) : pystr :=
  let q := repr_quote s in q :: flat_map (repr_char q) s ++ [q].

(** [repr(v)]. *)
Fixpoint py_repr (v : pyval) : pyexc + pystr :=
  match v with
  | PNone => inr (str "None")
  | PBool true => inr (str "True")
  | PBool false => inr (str "False")
  | PInt z => int_chunk z
  | PStr s => inr (str_repr s)
  | PList l => sum_map id (fun xs => [91] ++ join_items xs ++ [93]) (all_ok (map py_repr l))
  | PDict d =>
      sum_map id (fun xs => [123] ++ join_items xs ++ [125])
        (all_ok (map (fun kv => sum_map id (fun x => str_repr kv.1 ++ str ": " ++ x) (py_repr kv.2)) d))
  end.

(** [format(v, '')], which an f-string field without a format spec
    calls: [str(v)], the text itself for a [str], [repr(v)] for the
    other values [json.load] gives. *)
Definition py_format (v : pyval) : pyexc + pystr :=
  match v with
  | PStr s => inr s
  | _ => py_repr v
  end.
End Repr.

(** ** When formatting raises *)

Lemma all_ok_map_spec {E A B} (f : A -> E + B) (P : A -> bool) (e0 : E) l :
  Forall (fun x => match f x with inl e => P x = false /\ e = e0 | inr _ => P x = true end) l ->
  match all_ok (map f l) with inl e => forallb P l = false /\ e = e0 | inr _ => forallb P l = true end.
Proof.
  induction 1 as [|x l Hx _ IH]; [done|]. cbn [map all_ok forallb].
  destruct (f x) as [e|b]; [destruct Hx as [-> ->]; done|].
  rewrite Hx. destruct (all_ok (map f l)); done.
Qed.

Lemma sum_map_spec {E B C} (g : B -> C) (r : E + B) (P : E -> Prop) (Q : Prop) :
  match r with inl e => P e | inr _ => Q end ->
  match sum_map id g r with inl e => P e | inr _ => Q end.
Proof. by destruct r. Qed.

Section ReprLemmas.
Context `{!UnicodeData}.

(** [repr] raises exactly on a value holding an int beyond the
    conversion limit, and then with the [ValueError] of [int.__repr__]. *)
Lemma py_repr_fits v :
  match py_repr v with
  | inl e => py_fits v = false /\ e = ValueError msg_int_to_str
  | inr _ => py_fits v = true
  end.
Proof.
  induction v as [| [] | z | s | l IH | d IH] using pyval_ind'; try done.
  - cbn [py_repr py_fits]. unfold int_chunk. by destruct (int_fits z).
  - cbn [py_repr py_fits]. apply sum_map_spec. by apply all_ok_map_spec.
  - cbn [py_repr py_fits]. apply sum_map_spec. apply all_ok_map_spec.
    eapply Forall_impl; [exact IH|]. intros kv. apply sum_map_spec.
Qed.

Lemma py_format_ok v : py_fits v = true -> exists t, py_format v = inr t.
Proof.
  intros Hf. destruct v as [| | | s | |]; [| | | by eexists | |];
    match goal with |- exists _, py_format ?v = _ => pose proof (py_repr_fits v) as Hr end;
    cbn [py_format]; (destruct (py_repr _); [destruct Hr; congruence | eauto]).
Qed.

(** C22: formatting the progress raises only at the int conversion
    limit.  [format(v, '')] raises exactly when [v] holds an int of
    more than 4300 digits, and then with the [ValueError] of
    [int.__repr__]; on every other value it returns a text. *)
Theorem py_format_fits v :
  match py_format v with
  | inl e => py_fits v = false /\ e = ValueError msg_int_to_str
  | inr _ => py_fits v = true
  end.
Proof. destruct v; try apply py_repr_fits. done. Qed.
End ReprLemmas.
