(* ===== verification/JsonParse.v ===== *)
(** * [json.load(fp)]: the reader [load_data] calls

    [json.load(fp)] is [json.loads(fp.read())]: a text starting with
    U+FEFF is refused, then [JSONDecoder.decode] skips whitespace, runs
    the C scanner [scan_once_unicode] (Modules/_json.c) and refuses
    anything but whitespace after the value ("Extra data").  The
    scanner is modelled function by function: [scan_chars] is
    [scanstring_unicode] with [strict=True], [scan_number] is
    [_match_number_unicode], [scan_value], [scan_elements] and
    [scan_members] are [scan_once_unicode], [_parse_array_unicode] and
    [_parse_object_unicode].  A JSON object becomes a dict by one
    [PyDict_SetItem] per pair ([dict_set]: a repeated key keeps its
    first position and its last value).  Every failure is a
    [JSONDecodeError].  A number with a fraction or an exponent, or
    [NaN]/[Infinity], is a Python float: the scanner records that it met
    one ([fl]) and [load_result] reports [FloatFound].  The recursion is
    bounded by [fuel]; [SNoFuel] is the only result that depends on it,
    and [JsonRoundtrip] proves that [2 * length s + 1] is always
    enough. *)

From Stdlib Require Import Ascii DecimalN.
From S2P Require Import Prelude PyDict PyInt PyValue Json Codec.

(** ** Characters *)

(** [IS_WHITESPACE]: space, tab, newline, carriage return. *)
Definition is_ws (c : Z) : bool := (c =? 32) || (c =? 9) || (c =? 10) || (c =? 13).

Fixpoint skip_ws (s : pystr) : pystr :=
  match s with
  | c :: s' => if is_ws c then skip_ws s' else s
  | [] => []
  end.

Definition is_digit (c : Z) : bool := (48 <=? c) && (c <=? 57).

(** The value of a hex digit of a [\uXXXX] escape, either case. *)
Definition hexval (c : Z) : option Z :=
  if (48 <=? c) && (c <=? 57) then Some (c - 48)
  else if (97 <=? c) && (c <=? 102) then Some (c - 87)
  else if (65 <=? c) && (c <=? 70) then Some (c - 55)
  else None.

(** Four hex digits, accumulated as [c <<= 4; c |= digit]. *)
Definition hex4 (a b c d : Z) : option Z :=
  match hexval a, hexval b, hexval c, hexval d with
  | Some a, Some b, Some c, Some d =>
      Some (Z.lor (Z.shiftl (Z.lor (Z.shiftl (Z.lor (Z.shiftl a 4) b) 4) c) 4) d)
  | _, _, _, _ => None
  end.

Definition is_high_surrogate (c : Z) : bool := (55296 <=? c) && (c <=? 56319).
Definition is_low_surrogate (c : Z) : bool := (56320 <=? c) && (c <=? 57343).

(** [Py_UNICODE_JOIN_SURROGATES(high, low)] *)
Definition join_surrogates (hi lo : Z) : Z :=
  Z.lor (Z.shiftl (Z.land hi 1023) 10) (Z.land lo 1023) + 65536.

(** The character of a one-letter escape: a backslash followed by a
    double quote, a backslash, a slash, [b], [f], [n], [r] or [t]. *)
Definition short_escape (e : Z) : option Z :=
  if e =? 34 then Some 34
  else if e =? chr "\"%char then Some (chr "\"%char)
  else if e =? chr "/"%char then Some (chr "/"%char)
  else if e =? chr "b"%char then Some 8
  else if e =? chr "f"%char then Some 12
  else if e =? chr "n"%char then Some 10
  else if e =? chr "r"%char then Some 13
  else if e =? chr "t"%char then Some 9
  else None.

Definition cons_res (c : Z) (r : option (pystr * pystr)) : option (pystr * pystr) :=
  match r with Some (cs, rest) => Some (c :: cs, rest) | None => None end.
Arguments cons_res : simpl never.

(** ** Strings: [scanstring_unicode(s, end, strict=True)]

    [s] is the text after the opening quote; the result is the string
    and the text after the closing quote.  [\uXXXX] needs one more
    character after its digits ([end >= len] is an error); a high
    surrogate is joined with a following [\uXXXX] low surrogate when
    seven characters follow it ([end + 6 < len]). *)
Fixpoint scan_chars (s : pystr) : option (pystr * pystr) :=
  match s with
  | [] => None                                        (* Unterminated string *)
  | c :: s1 =>
      if c =? 34 then Some ([], s1)
      else if c =? chr "\"%char then
        match s1 with
        | [] => None
        | e :: s2 =>
            if e =? chr "u"%char then
              match s2 with
              | h1 :: h2 :: h3 :: h4 :: s3 =>
                  match s3 with
                  | [] => None                            (* Invalid \uXXXX escape *)
                  | _ :: _ =>
                      match hex4 h1 h2 h3 h4 with
                      | None => None                      (* Invalid \uXXXX escape *)
                      | Some u =>
                          if is_high_surrogate u then
                            match s3 with
                            | b :: v :: g1 :: g2 :: g3 :: g4 :: (_ :: _) as s4 =>
                                if (b =? chr "\"%char) && (v =? chr "u"%char) then
                                  match hex4 g1 g2 g3 g4 with
                                  | None => None
                                  | Some u2 =>
                                      if is_low_surrogate u2
                                      then cons_res (join_surrogates u u2) (scan_chars s4)
                                      else cons_res u (scan_chars s3)
                                  end
                                else cons_res u (scan_chars s3)
                            | _ => cons_res u (scan_chars s3)
                            end
                          else cons_res u (scan_chars s3)
                      end
                  end
              | _ => None                                 (* Invalid \uXXXX escape *)
              end
            else
              match short_escape e with
              | Some c' => cons_res c' (scan_chars s2)
              | None => None                              (* Invalid \escape *)
              end
        end
      else if c <=? 31 then None                          (* Invalid control character *)
      else cons_res c (scan_chars s1)
  end.

(** ** Numbers: [_match_number_unicode] *)

(** The longest prefix of digits, and the rest. *)
Fixpoint span_digits (s : pystr) : pystr * pystr :=
  match s with
  | c :: s' => if is_digit c then let '(ds, r) := span_digits s' in (c :: ds, r) else ([], s)
  | [] => ([], [])
  end.

Fixpoint digits_uint (ds : pystr) : Decimal.uint :=
  match ds with
  | [] => Decimal.Nil
  | c :: ds' =>
      let u := digits_uint ds' in
      if c =? 48 then Decimal.D0 u else if c =? 49 then Decimal.D1 u
      else if c =? 50 then Decimal.D2 u else if c =? 51 then Decimal.D3 u
      else if c =? 52 then Decimal.D4 u else if c =? 53 then Decimal.D5 u
      else if c =? 54 then Decimal.D6 u else if c =? 55 then Decimal.D7 u
      else if c =? 56 then Decimal.D8 u else Decimal.D9 u
  end.

(** [int(numstr)] of an optional minus sign and digits. *)
Definition int_of_digits (neg : bool) (ds : pystr) : Z :=
  let n := Z.of_uint (digits_uint ds) in if neg then - n else n.

(** A fraction: ['.'] and at least one digit. *)
Definition scan_frac (s : pystr) : option pystr :=
  match s with
  | c :: (d :: _) as s' => if (c =? chr "."%char) && is_digit d then Some (span_digits s').2 else None
  | _ => None
  end.

(** An optional exponent sign. *)
Definition skip_sign (s : pystr) : pystr :=
  match s with
  | c :: s' => if (c =? chr "-"%char) || (c =? chr "+"%char) then s' else s
  | [] => s
  end.

(** An exponent: [e] or [E], an optional sign, at least one digit;
    otherwise the scanner backtracks to the [e]. *)
Definition scan_exp (s : pystr) : option pystr :=
  match s with
  | e :: s1 =>
      if (e =? chr "e"%char) || (e =? chr "E"%char) then
        match span_digits (skip_sign s1) with
        | ([], _) => None
        | (_ :: _, r) => Some r
        end
      else None
  | [] => None
  end.

(** The scanner's result: a value, whether a float was read on the way,
    and the text after the value; a [JSONDecodeError]; another
    exception raised while reading; or no fuel left. *)
Inductive scan_res : Type :=
| SOk (v : pyval) (fl : bool) (rest : pystr)
| SErr
| SRaise (e : pyexc)
| SNoFuel.

(** An optional minus sign. *)
Definition split_minus (s : pystr) : bool * pystr :=
  match s with
  | c :: s' => if c =? chr "-"%char then (true, s') else (false, s)
  | [] => (false, s)
  end.

(** The integer part: a nonzero digit and digits, or a single [0]. *)
Definition scan_int_part (c : Z) (s : pystr) : option (pystr * pystr) :=
  if (49 <=? c) && (c <=? 57) then let '(ds, r) := span_digits s in Some (c :: ds, r)
  else if c =? 48 then Some ([c], s)
  else None.

(** A number ([_match_number_unicode]): an int, or a float when a
    fraction or an exponent follows the integer part.  The text of the
    number is scanned first, then converted: [PyLong_FromString] raises
    [ValueError] on more than [int_max_str_digits] digits. *)
Definition scan_number (s : pystr) : scan_res :=
  let '(neg, s1) := split_minus s in
  match s1 with
  | [] => SErr
  | c :: s2 =>
      match scan_int_part c s2 with
      | None => SErr                                      (* Expecting value *)
      | Some (ds, r) =>
          let '(is_float, r1) := match scan_frac r with Some r' => (true, r') | None => (false, r) end in
          let '(is_float, r2) := match scan_exp r1 with Some r' => (true, r') | None => (is_float, r1) end in
          if is_float then SOk PNone true r2
          else if (int_max_str_digits <? length ds)%nat then SRaise (ValueError (msg_str_to_int (length ds)))
          else SOk (PInt (int_of_digits neg ds)) false r2
      end
  end.

(** ** Values, arrays and objects *)

(** The text after [c] when [s] starts with [c]. *)
Definition next_is (c : Z) (s : pystr) : option pystr :=
  match s with c' :: s' => if c' =? c then Some s' else None | [] => None end.

(** The float a named constant denotes ([parse_constant]). *)
Definition float_constant (s : pystr) : option pystr :=
  if str_prefix (str "NaN") s then Some (drop 3 s)
  else if str_prefix (str "Infinity") s then Some (drop 8 s)
  else if str_prefix (str "-Infinity") s then Some (drop 9 s)
  else None.

(** [scan_once_unicode(s, idx)] *)
Fixpoint scan_value (fuel : nat) (s : pystr) : scan_res :=
  match fuel with
  | O => SNoFuel
  | S fuel =>
      match s with
      | [] => SErr                                            (* Expecting value *)
      | c :: s1 =>
          if c =? 34 then
            match scan_chars s1 with Some (cs, r) => SOk (PStr cs) false r | None => SErr end
          else if c =? chr "{"%char then
            let s2 := skip_ws s1 in
            match next_is (chr "}"%char) s2 with
            | Some r => SOk (PDict []) false r
            | None => scan_members fuel [] false s2
            end
          else if c =? chr "["%char then
            let s2 := skip_ws s1 in
            match next_is (chr "]"%char) s2 with
            | Some r => SOk (PList []) false r
            | None => scan_elements fuel [] false s2
            end
          else if str_prefix (str "null") s then SOk PNone false (drop 4 s)
          else if str_prefix (str "true") s then SOk (PBool true) false (drop 4 s)
          else if str_prefix (str "false") s then SOk (PBool false) false (drop 5 s)
          else match float_constant s with
               | Some r => SOk PNone true r
               | None => scan_number s
               end
      end
  end

(** The loop of [_parse_array_unicode]: a value, then [,] or [],
    with whitespace around. *)
with scan_elements (fuel : nat) (acc : list pyval) (fl : bool) (s : pystr) : scan_res :=
  match fuel with
  | O => SNoFuel
  | S fuel =>
      match scan_value fuel s with
      | SOk v f s1 =>
          let s2 := skip_ws s1 in
          match next_is (chr "]"%char) s2 with
          | Some r => SOk (PList (acc ++ [v])) (fl || f) r
          | None =>
              match next_is (chr ","%char) s2 with
              | Some s3 => scan_elements fuel (acc ++ [v]) (fl || f) (skip_ws s3)
              | None => SErr                                  (* Expecting ',' delimiter *)
              end
          end
      | r => r
      end
  end

(** The loop of [_parse_object_unicode]: a key, [:], a value, then [,]
    or [}], with whitespace around. *)
with scan_members (fuel : nat) (acc : list (pystr * pyval)) (fl : bool) (s : pystr) : scan_res :=
  match fuel with
  | O => SNoFuel
  | S fuel =>
      match next_is 34 s with
      | None => SErr                      (* Expecting property name enclosed in double quotes *)
      | Some s1 =>
          match scan_chars s1 with
          | None => SErr
          | Some (k, s2) =>
              match next_is (chr ":"%char) (skip_ws s2) with
              | None => SErr                                  (* Expecting ':' delimiter *)
              | Some s3 =>
                  match scan_value fuel (skip_ws s3) with
                  | SOk v f s4 =>
                      let acc' := dict_set k v acc in
                      let s5 := skip_ws s4 in
                      match next_is (chr "}"%char) s5 with
                      | Some r => SOk (PDict acc') (fl || f) r
                      | None =>
                          match next_is (chr ","%char) s5 with
                          | Some s6 => scan_members fuel acc' (fl || f) (skip_ws s6)
                          | None => SErr                      (* Expecting ',' delimiter *)
                          end
                      end
                  | r => r
                  end
              end
          end
      end
  end.

(** [JSONDecoder.decode(text)]: whitespace, one value, whitespace,
    and nothing else ("Extra data"). *)
Definition json_decode (s : pystr) : load_result :=
  match scan_value (S (2 * length s)) (skip_ws s) with
  | SOk v fl r =>
      match skip_ws r with
      | [] => if fl then FloatFound else Loaded v
      | _ :: _ => DecodeFailed                            (* Extra data *)
      end
  | SErr | SNoFuel => DecodeFailed
  | SRaise e => LoadRaised e
  end.

(** [json.loads(text)]: a text starting with U+FEFF is refused
    ("Unexpected UTF-8 BOM"), the rest is [decode]d. *)
Definition json_loads_text (s : pystr) : load_result :=
  if str_prefix [65279] s then DecodeFailed else json_decode s.

(** ** The scanner consumes text and terminates *)

Lemma skip_ws_length s : (length (skip_ws s) <= length s)%nat.
Proof. induction s as [|c s IH]; simpl; [lia|]. destruct (is_ws c); simpl; lia. Qed.

Lemma next_is_length c s r : next_is c s = Some r -> length s = S (length r).
Proof. destruct s as [|c' s]; simpl; [done|]. destruct (c' =? c); congruence. Qed.

Lemma cons_res_Some c r cs rest :
  cons_res c r = Some (cs, rest) -> exists cs', r = Some (cs', rest).
Proof. unfold cons_res. destruct r as [[??]|]; [intros [= <- <-]; eauto|done]. Qed.

Lemma scan_chars_length s cs r : scan_chars s = Some (cs, r) -> (length r < length s)%nat.
Proof.
  revert cs r. induction s as [s IH] using (induction_ltof1 _ (@length _)); unfold ltof in IH.
  intros cs r Hs. destruct s as [|c s1]; simpl in Hs; [done|].
  repeat match type of Hs with
         | context [match ?x with _ => _ end] => destruct x eqn:?
         end;
    try discriminate;
    try (injection Hs as _ <-; simpl; lia);
    apply cons_res_Some in Hs as [? Hs]; apply IH in Hs; simpl in *; lia.
Qed.

Lemma span_digits_length s : (length (span_digits s).2 <= length s)%nat.
Proof.
  induction s as [|c s IH]; simpl; [lia|].
  destruct (is_digit c); [destruct (span_digits s); simpl in *|simpl]; lia.
Qed.

Lemma scan_frac_length s r : scan_frac s = Some r -> (length r < length s)%nat.
Proof.
  unfold scan_frac. destruct s as [|c [|d s]]; try done.
  case_match; [|done]. intros [= <-]. pose proof (span_digits_length (d :: s)). simpl in *; lia.
Qed.

Lemma skip_sign_length s : (length (skip_sign s) <= length s)%nat.
Proof. destruct s; simpl; [lia|]. case_match; simpl; lia. Qed.

Lemma scan_exp_length s r : scan_exp s = Some r -> (length r < length s)%nat.
Proof.
  unfold scan_exp. destruct s as [|e s1]; [done|]. case_match; [|done].
  pose proof (skip_sign_length s1). pose proof (span_digits_length (skip_sign s1)).
  destruct (span_digits (skip_sign s1)) as [[|??] r']; [done|].
  intros [= <-]. simpl in *. lia.
Qed.

Lemma split_minus_length s : (length (split_minus s).2 <= length s)%nat.
Proof. destruct s; simpl; [lia|]. case_match; simpl; lia. Qed.

Lemma scan_int_part_length c s ds r : scan_int_part c s = Some (ds, r) -> (length r <= length s)%nat.
Proof.
  unfold scan_int_part. pose proof (span_digits_length s).
  case_match; [destruct (span_digits s); intros [= _ <-]; simpl in *; lia|].
  case_match; [intros [= _ <-]; lia|done].
Qed.

Lemma scan_number_length s v f r : scan_number s = SOk v f r -> (length r < length s)%nat.
Proof.
  unfold scan_number. pose proof (split_minus_length s).
  destruct (split_minus s) as [neg [|c s2]]; [done|]. simpl in *.
  destruct (scan_int_part c s2) as [[ds r0]|] eqn:Ei; [|done].
  apply scan_int_part_length in Ei.
  destruct (scan_frac r0) as [r1|] eqn:Ef; [apply scan_frac_length in Ef|];
  [destruct (scan_exp r1) as [r2|] eqn:Ee | destruct (scan_exp r0) as [r2|] eqn:Ee];
  try apply scan_exp_length in Ee; simpl; try destruct (_ <? _)%nat;
  first [discriminate | intros [= _ _ <-]; lia].
Qed.

Lemma str_prefix_length p s : str_prefix p s = true -> (length p <= length s)%nat.
Proof.
  revert s. induction p as [|c p IH]; intros [|c' s]; simpl; try (done || lia).
  intros [_ H]%andb_prop. specialize (IH s H). lia.
Qed.

Lemma drop_prefix_length p s : str_prefix p s = true -> p <> [] ->
  (length (drop (length p) s) < length s)%nat.
Proof.
  intros Hp Hne. apply str_prefix_length in Hp. destruct p as [|c p]; [done|].
  rewrite length_drop. simpl in *. lia.
Qed.

Lemma float_constant_length s r : float_constant s = Some r -> (length r < length s)%nat.
Proof.
  unfold float_constant.
  destruct (str_prefix (str "NaN") s) eqn:E1; [intros [= <-]; by apply (drop_prefix_length (str "NaN"))|].
  destruct (str_prefix (str "Infinity") s) eqn:E2;
    [intros [= <-]; by apply (drop_prefix_length (str "Infinity"))|].
  destruct (str_prefix (str "-Infinity") s) eqn:E3;
    [intros [= <-]; by apply (drop_prefix_length (str "-Infinity"))|].
  done.
Qed.

Lemma scan_length n :
  (forall s v f r, scan_value n s = SOk v f r -> (length r < length s)%nat) /\
  (forall acc fl s v f r, scan_elements n acc fl s = SOk v f r -> (length r < length s)%nat) /\
  (forall acc fl s v f r, scan_members n acc fl s = SOk v f r -> (length r < length s)%nat).
Proof.
  induction n as [|n (IHv & IHe & IHm)]; [repeat split; intros; discriminate|].
  split; [|split].
  - intros [|c s1] v f r; cbn [scan_value]; [done|].
    change (length (c :: s1)) with (S (length s1)).
    pose proof (skip_ws_length s1).
    destruct (c =? 34).
    { destruct (scan_chars s1) as [[cs r']|] eqn:E; [|intros ?; discriminate].
      apply scan_chars_length in E. intros [= _ _ <-]. lia. }
    destruct (c =? chr "{"%char).
    { destruct (next_is (chr "}"%char) (skip_ws s1)) as [r'|] eqn:E;
        [apply next_is_length in E; intros [= _ _ <-]; lia|].
      intros ?%IHm. lia. }
    destruct (c =? chr "["%char).
    { destruct (next_is (chr "]"%char) (skip_ws s1)) as [r'|] eqn:E;
        [apply next_is_length in E; intros [= _ _ <-]; lia|].
      intros ?%IHe. lia. }
    destruct (str_prefix (str "null") (c :: s1)) eqn:E1;
      [intros [= _ _ <-]; rewrite length_drop; lia|].
    destruct (str_prefix (str "true") (c :: s1)) eqn:E2;
      [intros [= _ _ <-]; rewrite length_drop; lia|].
    destruct (str_prefix (str "false") (c :: s1)) eqn:E3;
      [intros [= _ _ <-]; rewrite length_drop; lia|].
    destruct (float_constant (c :: s1)) as [r'|] eqn:E; [apply float_constant_length in E; simpl in E; intros [= _ _ <-]; lia|].
    apply scan_number_length.
  - intros acc fl s v f r; simpl.
    destruct (scan_value n s) as [v1 f1 s1| | |] eqn:E1; try (intros ?; discriminate).
    apply IHv in E1. pose proof (skip_ws_length s1).
    destruct (next_is (chr "]"%char) (skip_ws s1)) as [r'|] eqn:E2; [apply next_is_length in E2; intros [= _ _ <-]; lia|].
    destruct (next_is (chr ","%char) (skip_ws s1)) as [s3|] eqn:E3; [|intros ?; discriminate].
    apply next_is_length in E3. pose proof (skip_ws_length s3). intros ?%IHe. lia.
  - intros acc fl s v f r; simpl.
    destruct (next_is 34 s) as [s1|] eqn:E1; [|intros ?; discriminate]. apply next_is_length in E1.
    destruct (scan_chars s1) as [[k s2]|] eqn:E2; [|intros ?; discriminate]. apply scan_chars_length in E2.
    pose proof (skip_ws_length s2).
    destruct (next_is (chr ":"%char) (skip_ws s2)) as [s3|] eqn:E3; [|intros ?; discriminate]. apply next_is_length in E3.
    pose proof (skip_ws_length s3).
    destruct (scan_value n (skip_ws s3)) as [v1 f1 s4| | |] eqn:E4; try (intros ?; discriminate).
    apply IHv in E4. pose proof (skip_ws_length s4).
    destruct (next_is (chr "}"%char) (skip_ws s4)) as [r'|] eqn:E5; [apply next_is_length in E5; intros [= _ _ <-]; lia|].
    destruct (next_is (chr ","%char) (skip_ws s4)) as [s6|] eqn:E6; [|intros ?; discriminate].
    apply next_is_length in E6. pose proof (skip_ws_length s6). intros ?%IHm. lia.
Qed.

Lemma scan_number_fuel s : scan_number s <> SNoFuel.
Proof.
  unfold scan_number. destruct (split_minus s) as [neg [|c s2]]; [done|].
  destruct (scan_int_part c s2) as [[ds r0]|]; [|done].
  destruct (scan_frac r0); [destruct (scan_exp _)|destruct (scan_exp _)]; simpl;
    try destruct (_ <? _)%nat; done.
Qed.

(** Fuel [2 * length s + 1] is enough. *)
Lemma scan_fuel_enough n :
  (forall s, (2 * length s < n)%nat -> scan_value n s <> SNoFuel) /\
  (forall acc fl s, (2 * length s + 1 < n)%nat -> scan_elements n acc fl s <> SNoFuel) /\
  (forall acc fl s, (2 * length s + 1 < n)%nat -> scan_members n acc fl s <> SNoFuel).
Proof.
  induction n as [|n (IHv & IHe & IHm)]; [repeat split; intros; lia|].
  split; [|split].
  - intros [|c s1] Hn; cbn [scan_value]; [done|]. simpl length in Hn.
    pose proof (skip_ws_length s1).
    destruct (c =? 34); [by destruct (scan_chars s1) as [[??]|]|].
    destruct (c =? chr "{"%char).
    { destruct (next_is (chr "}"%char) (skip_ws s1)); [done|]. apply IHm. lia. }
    destruct (c =? chr "["%char).
    { destruct (next_is (chr "]"%char) (skip_ws s1)); [done|]. apply IHe. lia. }
    destruct (str_prefix (str "null") (c :: s1)); [done|].
    destruct (str_prefix (str "true") (c :: s1)); [done|].
    destruct (str_prefix (str "false") (c :: s1)); [done|].
    destruct (float_constant (c :: s1)); [done|]. apply scan_number_fuel.
  - intros acc fl s Hn. cbn [scan_elements].
    pose proof (IHv s ltac:(lia)) as Hv.
    destruct (scan_value n s) as [v1 f1 s1| | |] eqn:E1; [|done..].
    apply (proj1 (scan_length n)) in E1. pose proof (skip_ws_length s1).
    destruct (next_is (chr "]"%char) (skip_ws s1)); [done|].
    destruct (next_is (chr ","%char) (skip_ws s1)) as [s3|] eqn:E3; [|done].
    apply next_is_length in E3. pose proof (skip_ws_length s3). apply IHe. lia.
  - intros acc fl s Hn. cbn [scan_members].
    destruct (next_is 34 s) as [s1|] eqn:E1; [|done]. apply next_is_length in E1.
    destruct (scan_chars s1) as [[k s2]|] eqn:E2; [|done]. apply scan_chars_length in E2.
    pose proof (skip_ws_length s2).
    destruct (next_is (chr ":"%char) (skip_ws s2)) as [s3|] eqn:E3; [|done].
    apply next_is_length in E3. pose proof (skip_ws_length s3).
    pose proof (IHv (skip_ws s3) ltac:(lia)) as Hv.
    destruct (scan_value n (skip_ws s3)) as [v1 f1 s4| | |] eqn:E4; [|done..].
    apply (proj1 (scan_length n)) in E4. pose proof (skip_ws_length s4).
    destruct (next_is (chr "}"%char) (skip_ws s4)); [done|].
    destruct (next_is (chr ","%char) (skip_ws s4)) as [s6|] eqn:E6; [|done].
    apply next_is_length in E6. pose proof (skip_ws_length s6). apply IHm. lia.
Qed.

(** More fuel does not change a result that did not run out of fuel. *)
Lemma scan_fuel_mono n :
  (forall s m, (n <= m)%nat -> scan_value n s <> SNoFuel -> scan_value m s = scan_value n s) /\
  (forall acc fl s m, (n <= m)%nat -> scan_elements n acc fl s <> SNoFuel ->
     scan_elements m acc fl s = scan_elements n acc fl s) /\
  (forall acc fl s m, (n <= m)%nat -> scan_members n acc fl s <> SNoFuel ->
     scan_members m acc fl s = scan_members n acc fl s).
Proof.
  induction n as [|n (IHv & IHe & IHm)]; [repeat split; intros; done|].
  split; [|split].
  - intros [|c s1] [|m] Hm Hn; try lia; cbn [scan_value] in *; [done|].
    destruct (c =? 34); [done|].
    destruct (c =? chr "{"%char).
    { destruct (next_is (chr "}"%char) (skip_ws s1)); [done|]. apply IHm; [lia|done]. }
    destruct (c =? chr "["%char).
    { destruct (next_is (chr "]"%char) (skip_ws s1)); [done|]. apply IHe; [lia|done]. }
    done.
  - intros acc fl s [|m] Hm Hn; [lia|]. cbn [scan_elements] in *.
    assert (Hv : scan_value n s <> SNoFuel) by (intros E; rewrite E in Hn; done).
    rewrite (IHv s m) by (lia || done).
    destruct (scan_value n s) as [v1 f1 s1| | |]; [|done..].
    destruct (next_is (chr "]"%char) (skip_ws s1)); [done|].
    destruct (next_is (chr ","%char) (skip_ws s1)); [|done]. apply IHe; [lia|done].
  - intros acc fl s [|m] Hm Hn; [lia|]. cbn [scan_members] in *.
    destruct (next_is 34 s) as [s1|]; [|done].
    destruct (scan_chars s1) as [[k s2]|]; [|done].
    destruct (next_is (chr ":"%char) (skip_ws s2)) as [s3|]; [|done].
    assert (Hv : scan_value n (skip_ws s3) <> SNoFuel) by (intros E; rewrite E in Hn; done).
    rewrite (IHv _ m) by (lia || done).
    destruct (scan_value n (skip_ws s3)) as [v1 f1 s4| | |]; [|done..].
    destruct (next_is (chr "}"%char) (skip_ws s4)); [done|].
    destruct (next_is (chr ","%char) (skip_ws s4)); [|done]. apply IHm; [lia|done].
Qed.

(** ** What the reader returns is within the int conversion limit *)

Lemma nb_digits_uint ds : Decimal.nb_digits (digits_uint ds) = length ds.
Proof. induction ds as [|c ds IH]; simpl; [done|]. by repeat case_match; simpl; rewrite IH. Qed.

Lemma int_of_digits_fits neg ds :
  (length ds <= int_max_str_digits)%nat -> int_fits (int_of_digits neg ds) = true.
Proof.
  intros Hn. apply int_fits_small. pose proof (of_uint_lt (digits_uint ds)) as Hlt.
  rewrite nb_digits_uint in Hlt. change (Z.of_N (N.of_uint (digits_uint ds))) with (Z.of_uint (digits_uint ds)) in Hlt.
  assert (10 ^ Z.of_nat (length ds) <= int_str_bound)
    by (unfold int_str_bound; apply Z.pow_le_mono_r; lia).
  pose proof (N2Z.is_nonneg (N.of_uint (digits_uint ds))).
  change (Z.of_N (N.of_uint (digits_uint ds))) with (Z.of_uint (digits_uint ds)) in *.
  unfold int_of_digits. destruct neg; lia.
Qed.

Lemma scan_number_fits s v f r : scan_number s = SOk v f r -> py_fits v = true.
Proof.
  unfold scan_number. destruct (split_minus s) as [neg [|c s2]]; [done|].
  destruct (scan_int_part c s2) as [[ds r0]|]; [|done].
  destruct (scan_frac r0); [destruct (scan_exp _)|destruct (scan_exp _)]; simpl;
    [by intros [= <- _ _]..|].
  destruct (int_max_str_digits <? length ds)%nat eqn:Hn; [done|]. intros [= <- _ _].
  apply Nat.ltb_ge in Hn. simpl. by apply int_of_digits_fits.
Qed.

Lemma scan_fits n :
  (forall s v f r, scan_value n s = SOk v f r -> py_fits v = true) /\
  (forall acc fl s v f r, forallb py_fits acc = true ->
     scan_elements n acc fl s = SOk v f r -> py_fits v = true) /\
  (forall acc fl s v f r, py_fits (PDict acc) = true ->
     scan_members n acc fl s = SOk v f r -> py_fits v = true).
Proof.
  induction n as [|n (IHv & IHe & IHm)]; [repeat split; intros; discriminate|].
  split; [|split].
  - intros [|c s1] v f r; cbn [scan_value]; [done|].
    repeat case_match; try (by intros [= <- _ _]); try (intros ?; discriminate);
      [by apply IHm | by apply IHe | by apply scan_number_fits].
  - intros acc fl s v f r Hacc; cbn [scan_elements].
    destruct (scan_value n s) as [v1 f1 s1| | |] eqn:E1; try discriminate.
    apply IHv in E1. assert (forallb py_fits (acc ++ [v1]) = true)
      by (rewrite forallb_app; simpl; by rewrite Hacc, E1).
    repeat case_match; try (intros ?; discriminate); [by intros [= <- _ _] | by apply IHe].
  - intros acc fl s v f r Hacc; cbn [scan_members].
    repeat case_match; try (intros ?; discriminate); subst;
      match goal with
      | E : scan_value n _ = SOk ?v1 _ _, K : scan_chars _ = Some (?k, _) |- _ =>
          pose proof (py_fits_dict_set acc k v1 Hacc (IHv _ _ _ _ E))
      end;
      [by intros [= <- _ _] | by apply IHm].
Qed.

Lemma json_loads_text_fits t v : json_loads_text t = Loaded v -> py_fits v = true.
Proof.
  unfold json_loads_text, json_decode. destruct (str_prefix [65279] t); [done|].
  destruct (scan_value _ _) as [v1 f1 r| | |] eqn:E; try done.
  apply (proj1 (scan_fits _)) in E. by repeat case_match; intros [= <-].
Qed.

(** ** A long integer literal *)

Lemma span_digits_all t : Forall (fun c => is_digit c = true) t -> span_digits t = (t, []).
Proof. induction 1 as [|c t Hc _ IH]; simpl; [done|]. by rewrite Hc, IH. Qed.

(** A text starting with a digit is read as a number. *)
Lemma scan_value_digit f c t : 48 <= c <= 57 -> scan_value (S f) (c :: t) = scan_number (c :: t).
Proof.
  intros Hc. cbn [scan_value].
  assert (Hne : forall k, (k = 34 \/ k = 123 \/ k = 91) -> (c =? k) = false) by (intros k Hk; apply Z.eqb_neq; lia).
  change (chr "{"%char) with 123. change (chr "["%char) with 91.
  rewrite (Hne 34), (Hne 123), (Hne 91) by lia.
  unfold float_constant, str. cbn [map String.list_ascii_of_string str_prefix].
  rewrite !(bool_decide_false (_ = c)) by (vm_compute; lia). done.
Qed.

(** C20: [json.load] of a file holding a decimal integer of more than
    4300 digits raises the [ValueError] of [int(s)], with the number of
    digits in its message: a [LoadRaised] result, not the
    [DecodeFailed] of a [JSONDecodeError]. *)
Theorem json_loads_int_limit c t :
  49 <= c <= 57 -> Forall (fun d => is_digit d = true) t -> (int_max_str_digits < length (c :: t))%nat ->
  json_loads_text (c :: t) = LoadRaised (ValueError (msg_str_to_int (length (c :: t)))).
Proof.
  intros Hc Ht Hn. unfold json_loads_text. cbn [str_prefix].
  rewrite bool_decide_false by lia. cbn [andb]. unfold json_decode.
  assert (Hws : skip_ws (c :: t) = c :: t).
  { cbn [skip_ws]. unfold is_ws. by rewrite !(proj2 (Z.eqb_neq _ _)) by lia. }
  rewrite Hws, scan_value_digit by lia. unfold scan_number. cbn [split_minus].
  change (chr "-"%char) with 45. rewrite (proj2 (Z.eqb_neq c 45)) by lia.
  unfold scan_int_part. rewrite (proj2 (andb_true_iff _ _)) by (split; apply Z.leb_le; lia).
  rewrite span_digits_all by done. cbn [scan_frac scan_exp]. by rewrite (proj2 (Nat.ltb_lt _ _) Hn).
Qed.

(** C34: the reader terminates: on any text [s], the fuel
    [2 * length s + 1] that [json_decode] gives never runs out, and any
    larger fuel gives the same result, so the fuel bounds nothing. *)
Theorem scan_value_terminates s :
  scan_value (S (2 * length s)%nat) s <> SNoFuel /\
  forall n, (2 * length s < n)%nat -> scan_value n s = scan_value (S (2 * length s)%nat) s.
Proof.
  pose proof (proj1 (scan_fuel_enough (S (2 * length s)%nat)) s ltac:(lia)) as Hok.
  split; [done|]. intros n Hn. apply (proj1 (scan_fuel_mono _)); [lia|done].
Qed.
