(* ===== verification/JsonRoundtrip.v ===== *)
(** * Reading back what [save_data] wrote

    The law of the [JsonCodec] interface for Python's [json] module:
    [json.loads] applied to the text of [json.dump(v, indent=4)] gives
    [v] back ([json_loads_dump]), for every value in [roundtrip_safe]:
    strings of valid code points in which no high surrogate is directly
    followed by a low one (the reader would join the two [\uXXXX]
    escapes into one astral character), and dicts without a repeated key
    (the reader would merge them).  The proof follows the printer of
    [Json] and the reader of [JsonParse] piece by piece: hex digits and
    surrogate pairs ([hex4_u_escape], [astral_surrogates]), escaped
    strings ([scan_chars_encode]), decimal integers ([scan_value_int]),
    then containers by nested induction on the value ([scan_dump]), with
    the reader's fuel bounded by the text's length ([scan_size_dump]).
    The file ends with the instance [python_json] of [JsonCodec]. *)

From Stdlib Require Import Ascii DecimalPos DecimalFacts.
From S2P Require Import Prelude PyDict PyInt PyValue Json Codec JsonParse.

Lemma lor_shiftl_small a b n : 0 <= n -> 0 <= b < 2 ^ n -> Z.lor (Z.shiftl a n) b = a * 2 ^ n + b.
Proof.
  intros Hn Hb. rewrite Z.shiftl_mul_pow2 by done. rewrite <- Z.add_lor_land.
  enough (Z.land (a * 2 ^ n) b = 0) by lia.
  rewrite <- (Z.mod_small b (2 ^ n)) by lia. rewrite <- Z.land_ones by done.
  rewrite (Z.land_comm b), Z.land_assoc, (Z.land_ones (a * 2 ^ n)) by done.
  rewrite Z.mod_mul by (apply Z.pow_nonzero; lia). apply Z.land_0_l.
Qed.

Lemma land_ones_mod x n : 0 <= n -> Z.land x (2 ^ n - 1) = x mod 2 ^ n.
Proof. intros Hn. rewrite <- Z.land_ones by done. f_equal. by rewrite Z.ones_equiv. Qed.

Lemma land_1023 x : Z.land x 1023 = x mod 1024.
Proof. apply (land_ones_mod x 10). lia. Qed.

Lemma hexval_hexdigit n : 0 <= n < 16 -> hexval (hexdigit n) = Some n.
Proof.
  intros Hn. unfold hexdigit, hexval.
  destruct (Z.ltb_spec n 10); repeat case_match; f_equal; lia.
Qed.

Lemma hex4_u_escape c : 0 <= c < 65536 ->
  hex4 (hexdigit (Z.land (Z.shiftr c 12) 15)) (hexdigit (Z.land (Z.shiftr c 8) 15))
       (hexdigit (Z.land (Z.shiftr c 4) 15)) (hexdigit (Z.land c 15)) = Some c.
Proof.
  intros Hc. rewrite !Z.shiftr_div_pow2 by lia.
  rewrite !(land_ones_mod _ 4) by lia.
  unfold hex4. rewrite !hexval_hexdigit by (apply Z.mod_pos_bound; lia).
  assert (Hb : forall x, 0 <= x mod 2 ^ 4 < 2 ^ 4) by (intros; apply Z.mod_pos_bound; lia).
  rewrite !lor_shiftl_small by (lia || apply Hb).
  f_equal. change (2 ^ 4) with 16. change (2 ^ 8) with 256. change (2 ^ 12) with 4096.
  pose proof (Z.div_mod c 16 ltac:(lia)) as H1.
  pose proof (Z.div_mod (c / 16) 16 ltac:(lia)) as H2.
  pose proof (Z.div_mod (c / 256) 16 ltac:(lia)) as H3.
  rewrite Z.div_div in H2, H3 by lia. change (16 * 16) with 256 in H2. change (256 * 16) with 4096 in H3.
  rewrite (Z.mod_small (c / 4096) 16) by (split; [apply Z.div_pos|apply Z.div_lt_upper_bound]; lia).
  lia.
Qed.

(** The surrogate pair [ascii_escape_unichar] writes for an astral
    code point, and [Py_UNICODE_JOIN_SURROGATES] of it. *)
Lemma astral_surrogates c : 65536 <= c <= 1114111 ->
  is_high_surrogate (55232 + Z.shiftr c 10) = true /\
  is_low_surrogate (56320 + Z.land c 1023) = true /\
  0 <= 55232 + Z.shiftr c 10 < 65536 /\ 0 <= 56320 + Z.land c 1023 < 65536 /\
  join_surrogates (55232 + Z.shiftr c 10) (56320 + Z.land c 1023) = c.
Proof.
  intros Hc. rewrite Z.shiftr_div_pow2 by lia. change (2 ^ 10) with 1024.
  unfold join_surrogates. rewrite !land_1023.
  rewrite lor_shiftl_small by (lia || (change (2 ^ 10) with 1024; apply Z.mod_pos_bound; lia)).
  change (2 ^ 10) with 1024.
  pose proof (Z.div_mod c 1024 ltac:(lia)). pose proof (Z.mod_pos_bound c 1024 ltac:(lia)).
  assert (64 <= c / 1024 < 1088) by (split; [apply Z.div_le_lower_bound|apply Z.div_lt_upper_bound]; lia).
  assert (E1 : (55232 + c / 1024) mod 1024 = c / 1024 - 64)
    by (symmetry; apply Z.mod_unique with 54; lia).
  assert (E2 : (56320 + c mod 1024) mod 1024 = c mod 1024)
    by (symmetry; apply Z.mod_unique with 55; lia).
  rewrite E1, E2. unfold is_high_surrogate, is_low_surrogate.
  repeat split; try (apply andb_true_intro; split; apply Z.leb_le); lia.
Qed.

(** ** Strings *)

Definition valid_cp (c : Z) : bool := (0 <=? c) && (c <=? 1114111).

(** No high surrogate directly followed by a low surrogate: such a
    pair of code points is written as two [\uXXXX] escapes that the
    reader joins into one code point. *)
Fixpoint no_surrogate_pair (s : pystr) : bool :=
  match s with
  | c :: ((c' :: _) as s') => negb (is_high_surrogate c && is_low_surrogate c') && no_surrogate_pair s'
  | _ => true
  end.

Definition str_safe (s : pystr) : bool := forallb valid_cp s && no_surrogate_pair s.

(** The text starts with a [\uXXXX] escape of a low surrogate (or a
    malformed one). *)
Definition starts_low_escape (t : pystr) : bool :=
  match t with
  | b :: v :: g1 :: g2 :: g3 :: g4 :: _ =>
      (b =? 92) && (v =? 117) &&
      match hex4 g1 g2 g3 g4 with Some u => is_low_surrogate u | None => true end
  | _ => false
  end.

Lemma scan_chars_quote rest : scan_chars (34 :: rest) = Some ([], rest).
Proof. reflexivity. Qed.

Lemma scan_chars_plain c s :
  c <> 34 -> c <> 92 -> 31 < c -> scan_chars (c :: s) = cons_res c (scan_chars s).
Proof.
  intros H1 H2 H3. cbn [scan_chars].
  rewrite (proj2 (Z.eqb_neq c 34) H1), (proj2 (Z.eqb_neq c (chr "\"%char)) H2).
  by rewrite (proj2 (Z.leb_gt c 31) ltac:(lia)).
Qed.

Lemma scan_chars_short e c' s :
  short_escape e = Some c' -> e <> 117 -> scan_chars (92 :: e :: s) = cons_res c' (scan_chars s).
Proof.
  intros He Hu. cbn [scan_chars]. change (chr "u"%char) with 117.
  by rewrite (proj2 (Z.eqb_neq e 117) Hu), He.
Qed.

Lemma scan_chars_u h1 h2 h3 h4 s3 :
  scan_chars (92 :: 117 :: h1 :: h2 :: h3 :: h4 :: s3) =
  match s3 with
  | [] => None
  | _ :: _ =>
      match hex4 h1 h2 h3 h4 with
      | None => None
      | Some u =>
          if is_high_surrogate u then
            match s3 with
            | b :: v :: g1 :: g2 :: g3 :: g4 :: (_ :: _) as s4 =>
                if (b =? chr "\"%char) && (v =? chr "u"%char) then
                  match hex4 g1 g2 g3 g4 with
                  | None => None
                  | Some u2 =>
                      if is_low_surrogate u2
                      then cons_res (join_surrogates u u2) (scan_chars s4)
                      else cons_res u (scan_chars s3)
                  end
                else cons_res u (scan_chars s3)
            | _ => cons_res u (scan_chars s3)
            end
          else cons_res u (scan_chars s3)
      end
  end.
Proof. reflexivity. Qed.

Lemma starts_low_escape_u c t : 0 <= c < 65536 -> starts_low_escape (u_escape c ++ t) = is_low_surrogate c.
Proof. intros Hc. unfold u_escape. cbn [app starts_low_escape]. by rewrite hex4_u_escape. Qed.

Lemma starts_low_escape_plain x t : x <> 92 -> starts_low_escape (x :: t) = false.
Proof.
  intros Hx. destruct t as [|v [|g1 [|g2 [|g3 [|g4 t]]]]]; try done.
  cbn [starts_low_escape]. by rewrite (proj2 (Z.eqb_neq x 92) Hx).
Qed.

Lemma starts_low_escape_short e t : e <> 117 -> starts_low_escape (92 :: e :: t) = false.
Proof.
  intros He. destruct t as [|g1 [|g2 [|g3 [|g4 t]]]]; try done.
  cbn [starts_low_escape]. by rewrite (proj2 (Z.eqb_neq e 117) He), andb_false_r.
Qed.

Lemma scan_u_escape c t :
  0 <= c < 65536 -> t <> [] ->
  (is_high_surrogate c = true -> starts_low_escape t = false) ->
  scan_chars (u_escape c ++ t) = cons_res c (scan_chars t).
Proof.
  intros Hc Ht Hlow. unfold u_escape. cbn [app]. change (chr "\"%char) with 92. change (chr "u"%char) with 117.
  rewrite scan_chars_u, hex4_u_escape by done.
  destruct t as [|x t']; [done|]. cbn beta iota.
  destruct (is_high_surrogate c) eqn:Eh; [|done].
  specialize (Hlow eq_refl).
  destruct t' as [|v [|g1 [|g2 [|g3 [|g4 [|y t4]]]]]]; try done.
  cbn [starts_low_escape] in Hlow. change (chr "\"%char) with 92. change (chr "u"%char) with 117.
  destruct ((x =? 92) && (v =? 117)) eqn:Ebv; [|done].
  simpl in Hlow. destruct (hex4 g1 g2 g3 g4) as [u2|]; [|done].
  by rewrite Hlow.
Qed.

Lemma scan_escape_char c t :
  valid_cp c = true -> t <> [] -> (is_high_surrogate c = true -> starts_low_escape t = false) ->
  scan_chars (escape_char c ++ t) = cons_res c (scan_chars t).
Proof.
  intros Hv Ht Hlow. unfold valid_cp in Hv. apply andb_prop in Hv as [Hv1 Hv2].
  apply Z.leb_le in Hv1, Hv2.
  unfold escape_char. destruct (s_char c) eqn:Es.
  { unfold s_char in Es. change (chr "\"%char) with 92 in Es.
    repeat match type of Es with (_ && _) = true => apply andb_prop in Es as [Es ?] end.
    apply scan_chars_plain; [apply Z.eqb_neq, negb_true_iff; done
                            |apply Z.eqb_neq, negb_true_iff; done
                            |apply Z.leb_le in Es; lia]. }
  unfold escape_unichar. change (chr "\"%char) with 92.
  destruct (Z.eqb_spec c 92) as [->|H92]; [by apply scan_chars_short|].
  destruct (Z.eqb_spec c 34) as [->|H34]; [by apply scan_chars_short|].
  destruct (Z.eqb_spec c 8) as [->|H8]; [by apply scan_chars_short|].
  destruct (Z.eqb_spec c 12) as [->|H12]; [by apply scan_chars_short|].
  destruct (Z.eqb_spec c 10) as [->|H10]; [by apply scan_chars_short|].
  destruct (Z.eqb_spec c 13) as [->|H13]; [by apply scan_chars_short|].
  destruct (Z.eqb_spec c 9) as [->|H9]; [by apply scan_chars_short|].
  destruct (Z.leb_spec 65536 c) as [Hc|Hc]; [|apply scan_u_escape; [lia|done..]].
  destruct (astral_surrogates c ltac:(lia)) as (Hh & Hl & Bh & Bl & Hj).
  rewrite <- app_assoc. unfold u_escape at 1. cbn [app].
  change (chr "\"%char) with 92. change (chr "u"%char) with 117.
  rewrite scan_chars_u, hex4_u_escape, Hh by done.
  unfold u_escape. destruct t as [|x t']; [done|]. cbn [app].
  change (chr "\"%char) with 92. change (chr "u"%char) with 117. cbn beta iota.
  rewrite hex4_u_escape, Hl by done. cbn beta iota. by rewrite Hj.
Qed.

Lemma str_safe_cons c s :
  str_safe (c :: s) = true ->
  valid_cp c = true /\ str_safe s = true /\
  (is_high_surrogate c = true -> match s with c' :: _ => is_low_surrogate c' = false | [] => True end).
Proof.
  unfold str_safe. cbn [forallb no_surrogate_pair].
  intros [[Hc Hs]%andb_prop Hp]%andb_prop. split; [done|].
  destruct s as [|c' s]; [done|].
  apply andb_prop in Hp as [Hhl Hp]. split; [by rewrite Hs, Hp|].
  intros Hh. rewrite Hh in Hhl. by destruct (is_low_surrogate c').
Qed.

Lemma starts_low_escape_encoded s rest :
  forallb valid_cp s = true ->
  match s with c' :: _ => is_low_surrogate c' = false | [] => True end ->
  starts_low_escape (flat_map escape_char s ++ 34 :: rest) = false.
Proof.
  destruct s as [|c s]; [intros; apply starts_low_escape_plain; lia|]. cbn [forallb flat_map].
  intros [Hv _]%andb_prop Hl. rewrite <- app_assoc.
  apply andb_prop in Hv as [Hv1 Hv2]. apply Z.leb_le in Hv1, Hv2.
  unfold escape_char. destruct (s_char c) eqn:Es.
  { apply starts_low_escape_plain. unfold s_char in Es. change (chr "\"%char) with 92 in Es.
    intros ->. vm_compute in Es. discriminate. }
  unfold escape_unichar. change (chr "\"%char) with 92.
  destruct (Z.eqb_spec c 92); [by apply starts_low_escape_short|].
  destruct (Z.eqb_spec c 34); [by apply starts_low_escape_short|].
  destruct (Z.eqb_spec c 8); [by apply starts_low_escape_short|].
  destruct (Z.eqb_spec c 12); [by apply starts_low_escape_short|].
  destruct (Z.eqb_spec c 10); [by apply starts_low_escape_short|].
  destruct (Z.eqb_spec c 13); [by apply starts_low_escape_short|].
  destruct (Z.eqb_spec c 9); [by apply starts_low_escape_short|].
  destruct (Z.leb_spec 65536 c) as [Hc|Hc]; [|by rewrite starts_low_escape_u by lia].
  destruct (astral_surrogates c ltac:(lia)) as (Hh & _ & Bh & _).
  rewrite <- app_assoc, starts_low_escape_u by done.
  unfold is_high_surrogate, is_low_surrogate in *. apply andb_prop in Hh as [Hh1 Hh2].
  apply Z.leb_le in Hh1, Hh2. apply andb_false_intro1, Z.leb_gt. lia.
Qed.

(** ** Strings with surrogate pairs *)

(** What the reader makes of the writer's text of [s]: every high
    surrogate directly followed by a low one becomes the code point the
    pair encodes, since both are written [\uXXXX] and
    [scanstring_unicode] joins two such escapes. *)
Fixpoint join_pairs (s : pystr) : pystr :=
  match s with
  | c :: ((c' :: s') as t) =>
      if is_high_surrogate c && is_low_surrogate c' then join_surrogates c c' :: join_pairs s'
      else c :: join_pairs t
  | _ => s
  end.

Lemma join_pairs_cons c s :
  (forall c' s', s = c' :: s' -> is_high_surrogate c && is_low_surrogate c' = false) ->
  join_pairs (c :: s) = c :: join_pairs s.
Proof. destruct s as [|c' s']; [done|]. intros H. cbn [join_pairs]. by rewrite (H c' s' eq_refl). Qed.

(** A string without surrogate pairs is read back unchanged. *)
Lemma join_pairs_id s : no_surrogate_pair s = true -> join_pairs s = s.
Proof.
  induction s as [|c s IH]; [done|]. intros Hs. rewrite join_pairs_cons.
  - f_equal. apply IH. destruct s; [done|]. by apply andb_prop in Hs as [_ ?].
  - intros c' s' ->. apply andb_prop in Hs as [Hs _]. by apply negb_true_iff.
Qed.

Lemma surrogate_bounds c : is_high_surrogate c || is_low_surrogate c = true -> 55296 <= c <= 57343.
Proof. unfold is_high_surrogate, is_low_surrogate. intros [[H1 H2]%andb_prop | [H1 H2]%andb_prop]%orb_prop; lia. Qed.

(** A surrogate is written as one [\uXXXX] escape. *)
Lemma escape_char_surrogate c : 55296 <= c <= 57343 -> escape_char c = u_escape c.
Proof.
  intros Hc. unfold escape_char, s_char. rewrite (proj2 (Z.leb_gt c 126)) by lia.
  rewrite andb_false_r. cbn [andb]. unfold escape_unichar. change (chr "\"%char) with 92.
  rewrite !(proj2 (Z.eqb_neq _ _)) by lia. by rewrite (proj2 (Z.leb_gt 65536 c)) by lia.
Qed.

(** Two escapes of a high and a low surrogate are read as one code
    point. *)
Lemma scan_u_pair c c' t :
  is_high_surrogate c = true -> is_low_surrogate c' = true -> t <> [] ->
  scan_chars (u_escape c ++ u_escape c' ++ t) = cons_res (join_surrogates c c') (scan_chars t).
Proof.
  intros Hh Hl Ht. pose proof (surrogate_bounds c ltac:(by rewrite Hh)) as Bc.
  pose proof (surrogate_bounds c' ltac:(by rewrite Hl, orb_true_r)) as Bc'.
  unfold u_escape at 1. cbn [app]. change (chr "\"%char) with 92. change (chr "u"%char) with 117.
  rewrite scan_chars_u, hex4_u_escape, Hh by lia.
  unfold u_escape. destruct t as [|x t']; [done|]. cbn [app].
  change (chr "\"%char) with 92. change (chr "u"%char) with 117. cbn beta iota.
  by rewrite hex4_u_escape, Hl by lia.
Qed.

(** The reader gives back every string the writer wrote, with its
    surrogate pairs joined. *)
Lemma scan_chars_join s rest :
  forallb valid_cp s = true -> scan_chars (flat_map escape_char s ++ 34 :: rest) = Some (join_pairs s, rest).
Proof.
  induction s as [s IH] using (well_founded_induction (Wf_nat.well_founded_ltof _ (@length Z))).
  unfold Wf_nat.ltof in IH.
  destruct s as [|c s1]; [done|]. cbn [forallb]. intros [Hc Hv]%andb_prop.
  cbn [flat_map]. rewrite <- app_assoc.
  destruct s1 as [|c' s2] eqn:Es1.
  - cbn [flat_map app]. rewrite scan_escape_char by (done || (intros _; by apply starts_low_escape_plain)).
    by rewrite scan_chars_quote.
  - destruct (is_high_surrogate c && is_low_surrogate c') eqn:Hp.
    + apply andb_prop in Hp as [Hh Hl]. cbn [forallb] in Hv. apply andb_prop in Hv as [_ Hv2].
      cbn [flat_map]. rewrite <- app_assoc.
      rewrite !escape_char_surrogate by (apply surrogate_bounds; by rewrite ?Hh, ?Hl, ?orb_true_r).
      rewrite scan_u_pair by (done || by destruct (flat_map escape_char s2)).
      rewrite (IH s2) by (done || (simpl; lia)). cbn [join_pairs]. by rewrite Hh, Hl.
    + rewrite scan_escape_char; [| done | by destruct (flat_map escape_char (c' :: s2)) |].
      2: { intros Hh. apply starts_low_escape_encoded; [done|]. rewrite Hh in Hp. exact Hp. }
      rewrite (IH (c' :: s2)) by (done || (simpl; lia)).
      rewrite (join_pairs_cons c (c' :: s2)); [reflexivity|]. by intros ? ? [= <- <-].
Qed.

(** The reader gives back every string the writer wrote. *)
Lemma scan_chars_encode s rest :
  str_safe s = true -> scan_chars (flat_map escape_char s ++ 34 :: rest) = Some (s, rest).
Proof.
  unfold str_safe. intros [Hv Hp]%andb_prop. by rewrite scan_chars_join, join_pairs_id.
Qed.

(** ** Integers *)

Lemma digits_uint_text u : digits_uint (uint_text u) = u.
Proof. induction u; simpl; by rewrite ?IHu. Qed.

Lemma uint_text_digits u : Forall (fun c => is_digit c = true) (uint_text u).
Proof. induction u; simpl; constructor; done. Qed.

(** [Pos.to_uint p] has no leading zero. *)
Lemma uint_text_head p : exists c t, uint_text (Pos.to_uint p) = c :: t /\ 49 <= c <= 57.
Proof.
  pose proof (to_uint_head p) as Hh.
  destruct (Pos.to_uint p); try contradiction; eexists _, _; (split; [reflexivity|lia]).
Qed.

(** What may follow a value in the writer's output: nothing, a comma
    or a newline. *)
Definition value_end (rest : pystr) : bool :=
  match rest with [] => true | c :: _ => (c =? 44) || (c =? 10) end.

Lemma span_digits_app ds rest :
  Forall (fun c => is_digit c = true) ds -> value_end rest = true ->
  span_digits (ds ++ rest) = (ds, rest).
Proof.
  intros Hds Hr. induction Hds as [|c ds Hc _ IH]; simpl.
  - destruct rest as [|c rest]; [done|]. cbn [span_digits].
    unfold value_end in Hr. apply orb_prop in Hr as [->%Z.eqb_eq | ->%Z.eqb_eq]; done.
  - by rewrite Hc, IH.
Qed.

Lemma scan_frac_end rest : value_end rest = true -> scan_frac rest = None.
Proof.
  destruct rest as [|c [|d rest]]; try done. unfold value_end.
  intros [->%Z.eqb_eq | ->%Z.eqb_eq]%orb_prop; done.
Qed.

Lemma scan_exp_end rest : value_end rest = true -> scan_exp rest = None.
Proof.
  destruct rest as [|c rest]; [done|]. unfold value_end.
  intros [->%Z.eqb_eq | ->%Z.eqb_eq]%orb_prop; done.
Qed.

Lemma scan_digits_pos p neg rest :
  value_end rest = true ->
  exists c t, uint_text (Pos.to_uint p) = c :: t /\ 49 <= c <= 57 /\
  (let '(is_float, r1) := match scan_frac rest with Some r' => (true, r') | None => (false, rest) end in
   let '(is_float, r2) := match scan_exp r1 with Some r' => (true, r') | None => (is_float, r1) end in
   if is_float then SOk PNone true r2
   else if (int_max_str_digits <? length (c :: t))%nat
   then SRaise (ValueError (msg_str_to_int (length (c :: t))))
   else SOk (PInt (int_of_digits neg (c :: t))) false r2)
  = (if (int_max_str_digits <? Decimal.nb_digits (Pos.to_uint p))%nat
     then SRaise (ValueError (msg_str_to_int (Decimal.nb_digits (Pos.to_uint p))))
     else SOk (PInt (if neg then Zneg p else Zpos p)) false rest) /\
  scan_int_part c (t ++ rest) = Some (c :: t, rest).
Proof.
  intros Hr. destruct (uint_text_head p) as (c & t & Ht & Hc).
  exists c, t. split; [done|]. split; [done|]. rewrite scan_frac_end, scan_exp_end by done. split.
  - rewrite <- Ht, length_uint_text. cbv iota. destruct (_ <? _)%nat; [done|].
    unfold int_of_digits. rewrite digits_uint_text.
    unfold Z.of_uint. rewrite DecimalPos.Unsigned.of_to. by destruct neg.
  - unfold scan_int_part. rewrite (proj2 (andb_true_iff _ _)) by (split; apply Z.leb_le; lia).
    pose proof (uint_text_digits (Pos.to_uint p)) as Hd. rewrite Ht in Hd. apply Forall_cons in Hd as [_ Hd].
    by rewrite span_digits_app.
Qed.

(** The digit test of [int(s)] on the writer's text of [z] is
    [int_fits z]. *)
Lemma digits_limit_fits z :
  (int_max_str_digits <? int_digits z)%nat = negb (int_fits z).
Proof.
  destruct (int_fits z) eqn:Hz; simpl.
  - apply Nat.ltb_ge. by apply int_fits_digits.
  - apply Nat.ltb_lt. apply Nat.nle_gt. intros Hd. apply int_fits_digits in Hd. congruence.
Qed.

(** The reader reads the writer's text of an int back, or raises the
    [ValueError] of [int(s)] when it has more than 4300 digits. *)
Lemma scan_number_int z rest :
  value_end rest = true ->
  scan_number (int_repr z ++ rest) =
    if int_fits z then SOk (PInt z) false rest else SRaise (ValueError (msg_str_to_int (int_digits z))).
Proof.
  intros Hr. rewrite <- (negb_involutive (int_fits z)), <- digits_limit_fits.
  unfold int_repr, int_digits. destruct z as [|p|p]; cbn [Z.to_int].
  - unfold scan_number. simpl. rewrite scan_frac_end, scan_exp_end by done. done.
  - destruct (scan_digits_pos p false rest Hr) as (c & t & Ht & Hc & Hv & Hi).
    unfold scan_number. rewrite Ht. cbn [app split_minus].
    rewrite (proj2 (Z.eqb_neq c (chr "-"%char))) by (change (chr "-"%char) with 45; lia).
    rewrite Hi. cbv iota. rewrite Hv. by destruct (int_max_str_digits <? Decimal.nb_digits (Pos.to_uint p))%nat.
  - destruct (scan_digits_pos p true rest Hr) as (c & t & Ht & Hc & Hv & Hi).
    unfold scan_number. rewrite Ht. cbn [app split_minus]. change (chr "-"%char =? chr "-"%char) with true.
    cbv iota. rewrite Hi. cbv iota. rewrite Hv. by destruct (int_max_str_digits <? Decimal.nb_digits (Pos.to_uint p))%nat.
Qed.

(** The reader gives back every int the writer wrote. *)
Lemma scan_number_repr z rest :
  int_fits z = true -> value_end rest = true -> scan_number (int_repr z ++ rest) = SOk (PInt z) false rest.
Proof. intros Hz Hr. by rewrite scan_number_int, Hz. Qed.

(** ** Values *)

Lemma skip_ws_spaces n t : skip_ws (repeat 32 n ++ t) = skip_ws t.
Proof. induction n; simpl; [done|]. by rewrite IHn. Qed.

Lemma skip_ws_indent n t : skip_ws (newline_indent n ++ t) = skip_ws t.
Proof. unfold newline_indent. cbn [app skip_ws is_ws]. simpl. apply skip_ws_spaces. Qed.

Lemma skip_ws_stop c t : is_ws c = false -> skip_ws (c :: t) = c :: t.
Proof. simpl. by intros ->. Qed.

(** The first character of a dumped value: never whitespace, a
    closing bracket or U+FEFF. *)
Definition dump_start (c : Z) : bool :=
  negb (is_ws c) && negb (c =? 93) && negb (c =? 125) && negb (c =? 65279).

Lemma int_repr_head z : exists c t, int_repr z = c :: t /\ (c = 45 \/ 48 <= c <= 57) /\
  (c = 45 -> exists c' t', t = c' :: t' /\ 48 <= c' <= 57).
Proof.
  unfold int_repr. destruct z as [|p|p]; cbn [Z.to_int].
  - eexists _, _. split; [reflexivity|]. split; [lia|done].
  - destruct (uint_text_head p) as (c & t & -> & Hc). eexists _, _. split; [reflexivity|].
    split; [lia|lia].
  - destruct (uint_text_head p) as (c & t & Ht & Hc). eexists _, _. split; [reflexivity|].
    split; [by left|]. intros _. exists c, t. split; [done|lia].
Qed.

Lemma dump_head level v : exists c t, dump level v = c :: t /\ dump_start c = true.
Proof.
  destruct v as [| [] | z | s | [|x xs] | [|kv kvs]]; try (eexists _, _; split; reflexivity).
  destruct (int_repr_head z) as (c & t & Ht & Hc & _). exists c, t. split; [done|].
  unfold dump_start, is_ws. destruct Hc as [->|Hc]; [done|].
  repeat (apply andb_true_intro; split); apply negb_true_iff;
    try apply orb_false_intro; try apply orb_false_intro; try apply orb_false_intro;
    apply Z.eqb_neq; lia.
Qed.

(** The writer's text of an int is read as a number. *)
Lemma scan_value_number f z rest : scan_value (S f) (int_repr z ++ rest) = scan_number (int_repr z ++ rest).
Proof.
  destruct (int_repr_head z) as (c & t & Ht & Hc & Hneg). rewrite Ht. cbn [app scan_value].
  assert (Hne : forall k, (k = 34 \/ k = 123 \/ k = 91 \/ k = 110 \/ k = 116 \/ k = 102 \/ k = 78 \/ k = 73) ->
                (c =? k) = false) by (intros k Hk; apply Z.eqb_neq; lia).
  change (chr "{"%char) with 123. change (chr "["%char) with 91.
  rewrite (Hne 34), (Hne 123), (Hne 91) by lia.
  unfold float_constant, str. cbn [map String.list_ascii_of_string str_prefix].
  change (Z.of_nat (Ascii.nat_of_ascii "n"%char)) with 110.
  change (Z.of_nat (Ascii.nat_of_ascii "t"%char)) with 116.
  change (Z.of_nat (Ascii.nat_of_ascii "f"%char)) with 102.
  change (Z.of_nat (Ascii.nat_of_ascii "N"%char)) with 78.
  change (Z.of_nat (Ascii.nat_of_ascii "I"%char)) with 73.
  change (Z.of_nat (Ascii.nat_of_ascii "-"%char)) with 45.
  rewrite !(bool_decide_false (_ = c)) by lia. cbn [andb].
  destruct (Z.eq_dec c 45) as [->|Hc45].
  - destruct (Hneg eq_refl) as (c' & t' & -> & Hc'). cbn [str_prefix].
    cbn [app]. rewrite (bool_decide_true (45 = 45)), (bool_decide_false (73 = c')) by lia. done.
  - by rewrite bool_decide_false by lia.
Qed.

(** The values the writer and the reader agree on: strings without a
    high surrogate directly followed by a low one, dicts without a
    repeated key. *)
Fixpoint roundtrip_safe (v : pyval) : bool :=
  match v with
  | PStr s => str_safe s
  | PList l => forallb roundtrip_safe l
  | PDict d => bool_decide (NoDup (dict_keys d)) && forallb (fun kv => str_safe kv.1 && roundtrip_safe kv.2) d
  | PInt z => int_fits z
  | PNone | PBool _ => true
  end.

(** The values whose strings and dicts the reader reads back as
    written: [roundtrip_safe] without its condition on ints, which
    [mark_completed] may break. *)
Fixpoint text_safe (v : pyval) : bool :=
  match v with
  | PStr s => str_safe s
  | PList l => forallb text_safe l
  | PDict d => bool_decide (NoDup (dict_keys d)) && forallb (fun kv => str_safe kv.1 && text_safe kv.2) d
  | PNone | PBool _ | PInt _ => true
  end.

Lemma roundtrip_safe_text v : roundtrip_safe v = text_safe v && py_fits v.
Proof.
  induction v as [| | | |l IH|d IH] using pyval_ind'; simpl; try (by rewrite ?andb_true_r).
  - rewrite <- forallb_andb. induction IH as [|x l Hx _ IHl]; simpl; [done|]. by rewrite Hx, IHl.
  - rewrite <- andb_assoc. f_equal. rewrite <- forallb_andb.
    induction IH as [|[k x] d Hx _ IHd]; simpl in *; [done|]. rewrite Hx, IHd. by rewrite !andb_assoc.
Qed.

(** ** What the reader makes of any text the writer wrote *)

(** Every string of [v], dict keys included, holds code points only
    (0 to 0x10FFFF), as every Python [str] does. *)
Fixpoint cp_valid (v : pyval) : bool :=
  match v with
  | PStr s => forallb valid_cp s
  | PList l => forallb cp_valid l
  | PDict d => forallb (fun kv => forallb valid_cp kv.1 && cp_valid kv.2) d
  | PNone | PBool _ | PInt _ => true
  end.

(** The dict [_parse_object_unicode] builds from its pairs: one item
    assignment per pair, from [acc] on, so a repeated key keeps its
    first position and gets its last value. *)
Definition dict_of_pairs (acc kvs : list (pystr * pyval)) : list (pystr * pyval) :=
  foldl (fun d kv => dict_set kv.1 kv.2 d) acc kvs.

(** The value the reader gives for the writer's text of [v]: its
    strings with their surrogate pairs joined, and its dicts rebuilt
    from the joined keys. *)
Fixpoint join_value (v : pyval) : pyval :=
  match v with
  | PStr s => PStr (join_pairs s)
  | PList l => PList (map join_value l)
  | PDict d => PDict (dict_of_pairs [] (map (fun kv => (join_pairs kv.1, join_value kv.2)) d))
  | PNone | PBool _ | PInt _ => v
  end.

Fixpoint first_some {A} (l : list (option A)) : option A :=
  match l with
  | [] => None
  | Some a :: _ => Some a
  | None :: l' => first_some l'
  end.

(** The first int of [v], in the order of its text, with more than
    4300 digits. *)
Fixpoint first_long (v : pyval) : option Z :=
  match v with
  | PInt z => if int_fits z then None else Some z
  | PList l => first_some (map first_long l)
  | PDict d => first_some (map (fun kv => first_long kv.2) d)
  | PNone | PBool _ | PStr _ => None
  end.

(** The [ValueError] [int(s)] raises on the digits of [z]. *)
Definition long_int_error (z : Z) : pyexc := ValueError (msg_str_to_int (int_digits z)).

(** What reading the writer's text of [v] followed by [rest] gives. *)
Definition read_back (v : pyval) (rest : pystr) : scan_res :=
  match first_long v with
  | None => SOk (join_value v) false rest
  | Some z => SRaise (long_int_error z)
  end.

(** The fuel the reader spends on a value. *)
Fixpoint scan_size (v : pyval) : nat :=
  match v with
  | PList l => S (sum_list_with (fun x => S (scan_size x)) l)
  | PDict d => S (sum_list_with (fun kv => S (scan_size kv.2)) d)
  | PNone | PBool _ | PInt _ | PStr _ => 1
  end.

Lemma skip_ws_dump level v t : skip_ws (dump level v ++ t) = dump level v ++ t.
Proof.
  destruct (dump_head level v) as (c & t' & -> & Hc). apply skip_ws_stop.
  unfold dump_start in Hc. by destruct (is_ws c).
Qed.

Lemma next_is_dump c level v t :
  c = 93 \/ c = 125 -> next_is c (dump level v ++ t) = None.
Proof.
  intros Hc. destruct (dump_head level v) as (c' & t' & -> & Hs). cbn [app next_is].
  unfold dump_start in Hs. destruct (Z.eqb_spec c' c); [|done]. subst.
  destruct Hc as [->| ->]; by rewrite ?andb_false_r in Hs.
Qed.

Lemma dump_list_cons level x xs :
  dump level (PList (x :: xs)) =
  91 :: newline_indent (S level) ++ dump (S level) x
     ++ flat_map (fun y => 44%Z :: newline_indent (S level) ++ dump (S level) y) xs
     ++ newline_indent level ++ [93].
Proof. reflexivity. Qed.

Lemma dump_dict_cons level kv kvs :
  dump level (PDict (kv :: kvs)) =
  123 :: newline_indent (S level)
      ++ encode_basestring_ascii kv.1 ++ 58 :: 32 :: dump (S level) kv.2
      ++ flat_map (fun kv => 44%Z :: newline_indent (S level)
                             ++ encode_basestring_ascii kv.1 ++ 58 :: 32 :: dump (S level) kv.2) kvs
      ++ newline_indent level ++ [125].
Proof. reflexivity. Qed.

Lemma value_end_indent n t : value_end (newline_indent n ++ t) = true.
Proof. reflexivity. Qed.

Lemma next_is_hit c t : next_is c (c :: t) = Some t.
Proof. simpl. by rewrite Z.eqb_refl. Qed.

Lemma next_is_miss c c' t : c' <> c -> next_is c (c' :: t) = None.
Proof. simpl. intros H. by rewrite (proj2 (Z.eqb_neq c' c) H). Qed.

Definition scans_back (v : pyval) : Prop :=
  forall level rest fuel, roundtrip_safe v = true -> value_end rest = true -> (scan_size v <= fuel)%nat ->
  scan_value fuel (dump level v ++ rest) = SOk v false rest.

Lemma skip_ws_encode s t : skip_ws (encode_basestring_ascii s ++ t) = encode_basestring_ascii s ++ t.
Proof. reflexivity. Qed.

Lemma scan_value_quote f t :
  scan_value (S f) (34 :: t) = match scan_chars t with Some (cs, r) => SOk (PStr cs) false r | None => SErr end.
Proof. reflexivity. Qed.

Lemma scan_value_bracket f t :
  scan_value (S f) (91 :: t) =
  match next_is 93 (skip_ws t) with Some r => SOk (PList []) false r | None => scan_elements f [] false (skip_ws t) end.
Proof. reflexivity. Qed.

Lemma scan_value_brace f t :
  scan_value (S f) (123 :: t) =
  match next_is 125 (skip_ws t) with Some r => SOk (PDict []) false r | None => scan_members f [] false (skip_ws t) end.
Proof. reflexivity. Qed.

Definition scans_joined (v : pyval) : Prop :=
  forall level rest fuel, cp_valid v = true -> value_end rest = true -> (scan_size v <= fuel)%nat ->
  scan_value fuel (dump level v ++ rest) = read_back v rest.

Lemma scan_elements_join level x xs acc fuel rest :
  Forall scans_joined (x :: xs) -> forallb cp_valid (x :: xs) = true ->
  (sum_list_with (fun y => S (scan_size y)) (x :: xs) <= fuel)%nat ->
  scan_elements fuel acc false
    (dump (S level) x ++ flat_map (fun y => 44%Z :: newline_indent (S level) ++ dump (S level) y) xs
       ++ newline_indent level ++ 93 :: rest) =
  match first_some (map first_long (x :: xs)) with
  | None => SOk (PList (acc ++ map join_value (x :: xs))) false rest
  | Some z => SRaise (long_int_error z)
  end.
Proof.
  revert x acc fuel. induction xs as [|y xs IH]; intros x acc fuel Hp Hs Hf;
    (destruct fuel as [|f]; [simpl in Hf; lia|]); cbn [scan_elements];
    apply Forall_cons in Hp as [Hx Hp]; cbn [forallb] in Hs; apply andb_prop in Hs as [Hsx Hs];
    cbn [sum_list_with] in Hf; cbn [map first_some].
  - cbn [flat_map app]. rewrite (Hx (S level) _ f Hsx) by (done || lia). unfold read_back.
    destruct (first_long x); [done|]. by rewrite skip_ws_indent.
  - cbn [flat_map]. rewrite <- !app_assoc.
    rewrite (Hx (S level) _ f Hsx) by (done || lia). unfold read_back.
    destruct (first_long x); [done|].
    change (chr "]"%char) with 93. change (chr ","%char) with 44.
    cbn [app]. rewrite skip_ws_stop, next_is_miss, next_is_hit by (done || lia).
    rewrite <- !app_assoc, skip_ws_indent, skip_ws_dump. change (false || false) with false.
    rewrite (IH y (acc ++ [join_value x]) f Hp Hs) by (cbn [sum_list_with]; lia).
    cbn [map first_some]. by rewrite <- app_assoc.
Qed.

(** A key and its value, as the writer writes them and the reader
    reads them. *)
Definition join_item (kv : pystr * pyval) : pystr * pyval := (join_pairs kv.1, join_value kv.2).

Lemma scan_members_join level kv kvs acc fuel rest :
  Forall (fun kv => scans_joined kv.2) (kv :: kvs) ->
  forallb (fun kv => forallb valid_cp kv.1 && cp_valid kv.2) (kv :: kvs) = true ->
  (sum_list_with (fun kv => S (scan_size kv.2)) (kv :: kvs) <= fuel)%nat ->
  scan_members fuel acc false
    (encode_basestring_ascii kv.1 ++ 58 :: 32 :: dump (S level) kv.2
       ++ flat_map (fun kv => 44%Z :: newline_indent (S level)
                              ++ encode_basestring_ascii kv.1 ++ 58 :: 32 :: dump (S level) kv.2) kvs
       ++ newline_indent level ++ 125 :: rest) =
  match first_some (map (fun kv => first_long kv.2) (kv :: kvs)) with
  | None => SOk (PDict (dict_of_pairs acc (map join_item (kv :: kvs)))) false rest
  | Some z => SRaise (long_int_error z)
  end.
Proof.
  revert kv acc fuel. induction kvs as [|kv' kvs IH]; intros [k v] acc fuel Hp Hs Hf;
    (destruct fuel as [|f]; [simpl in Hf; lia|]); cbn [scan_members];
    apply Forall_cons in Hp as [Hv Hp]; cbn [forallb] in Hs;
    apply andb_prop in Hs as [[Hk Hsv]%andb_prop Hs]; cbn [sum_list_with] in Hf;
    cbn [fst snd map first_some] in *;
    unfold encode_basestring_ascii at 1; cbn [app]; rewrite next_is_hit, <- !app_assoc;
    cbn [app]; rewrite scan_chars_join by done;
    change (chr ":"%char) with 58; change (chr "}"%char) with 125; change (chr ","%char) with 44;
    rewrite skip_ws_stop, next_is_hit by done; change (skip_ws (32 :: ?t)) with (skip_ws t);
    rewrite skip_ws_dump.
  - cbn [flat_map app]. rewrite (Hv (S level) _ f Hsv) by (done || lia). unfold read_back.
    destruct (first_long v); [done|]. by rewrite skip_ws_indent.
  - cbn [flat_map]. rewrite <- !app_assoc.
    rewrite (Hv (S level) _ f Hsv) by (done || lia). unfold read_back.
    destruct (first_long v); [done|].
    cbn [app]. rewrite skip_ws_stop, next_is_miss, next_is_hit by (done || lia).
    rewrite <- !app_assoc, skip_ws_indent, skip_ws_encode. change (false || false) with false.
    cbn [app]. rewrite (IH kv' (dict_set (join_pairs k) (join_value v) acc) f Hp Hs) by (cbn [sum_list_with]; lia).
    done.
Qed.

(** The reader reads any text the writer wrote: the value with its
    surrogate pairs joined, or the [ValueError] of the first int beyond
    the limit; it stops right after the text. *)
Lemma scan_join v : scans_joined v.
Proof.
  induction v as [| b | z | s | l IH | d IH] using pyval_ind'; intros level rest fuel Hs Hr Hf;
    (destruct fuel as [|f]; [simpl in Hf; lia|]).
  - reflexivity.
  - destruct b; reflexivity.
  - cbn [dump]. rewrite scan_value_number, scan_number_int by done. unfold read_back. cbn [first_long].
    by destruct (int_fits z).
  - cbn [dump]. unfold encode_basestring_ascii. cbn [app]. rewrite <- app_assoc.
    rewrite scan_value_quote. cbn [app]. by rewrite scan_chars_join.
  - destruct l as [|x xs]; [reflexivity|].
    rewrite dump_list_cons. cbn [app]. rewrite scan_value_bracket, <- !app_assoc. cbn [app].
    rewrite skip_ws_indent, skip_ws_dump, next_is_dump by (by left).
    rewrite (scan_elements_join level x xs [] f rest IH Hs) by (cbn [scan_size] in Hf; lia).
    unfold read_back. cbn [first_long]. by destruct (first_some _).
  - destruct d as [|kv kvs]; [reflexivity|].
    rewrite dump_dict_cons. cbn [app]. rewrite scan_value_brace, <- !app_assoc. cbn [app].
    rewrite skip_ws_indent, skip_ws_encode. unfold encode_basestring_ascii at 1. cbn [app].
    rewrite next_is_miss by lia. fold (encode_basestring_ascii kv.1).
    rewrite <- !app_assoc. cbn [app].
    rewrite (scan_members_join level kv kvs [] f rest IH Hs) by (cbn [scan_size] in Hf; lia).
    unfold read_back. cbn [first_long]. by destruct (first_some _).
Qed.

Lemma first_some_None {A} (l : list (option A)) : first_some l = None <-> Forall (fun o => o = None) l.
Proof.
  induction l as [|[a|] l IH]; cbn [first_some].
  - split; auto.
  - split; [discriminate|]. by intros [? _]%Forall_cons.
  - rewrite Forall_cons, IH. naive_solver.
Qed.

(** The reader raises on no int exactly when every int is within the
    limit. *)
Lemma first_long_fits v : first_long v = None <-> py_fits v = true.
Proof.
  induction v as [| | z | | l IH | d IH] using pyval_ind'; cbn [first_long py_fits]; try done.
  - by destruct (int_fits z).
  - rewrite first_some_None, Forall_map.
    induction IH as [|x l Hx _ IHl]; cbn [forallb]; [split; auto|].
    rewrite Forall_cons, IHl, Hx. destruct (py_fits x), (forallb py_fits l); naive_solver.
  - rewrite first_some_None, Forall_map.
    induction IH as [|x d Hx _ IHd]; cbn [forallb]; [split; auto|].
    rewrite Forall_cons, IHd, Hx. destruct (py_fits x.2), (forallb _ d); naive_solver.
Qed.

Lemma text_safe_cp v : text_safe v = true -> cp_valid v = true.
Proof.
  induction v as [| | | s | l IH | d IH] using pyval_ind'; cbn [text_safe cp_valid]; try done.
  - unfold str_safe. by intros [? _]%andb_prop.
  - rewrite !forallb_forall. intros Hl x Hx. eapply Forall_forall in IH; [|by apply list_elem_of_In]. auto.
  - intros [_ Hd]%andb_prop. rewrite forallb_forall in Hd |- *. intros kv Hkv.
    specialize (Hd kv Hkv). apply andb_prop in Hd as [Hk Hv]. eapply Forall_forall in IH; [|by apply list_elem_of_In].
    unfold str_safe in Hk. apply andb_prop in Hk as [Hk _]. rewrite Hk. auto.
Qed.

(** Item assignments of fresh keys append. *)
Lemma dict_of_pairs_fresh acc d : NoDup (dict_keys (acc ++ d)) -> dict_of_pairs acc d = acc ++ d.
Proof.
  revert acc. induction d as [|[k v] d IH]; intros acc Hnd; [by rewrite app_nil_r|].
  cbn [dict_of_pairs foldl fst snd]. rewrite dict_set_absent by (by eapply dict_wf_split).
  fold (dict_of_pairs (acc ++ [(k, v)]) d). rewrite IH; [by rewrite <- app_assoc|]. by rewrite <- app_assoc.
Qed.

(** A value without surrogate pairs or repeated keys is read back as
    it is. *)
Lemma join_value_text v : text_safe v = true -> join_value v = v.
Proof.
  induction v as [| | | s | l IH | d IH] using pyval_ind'; cbn [text_safe join_value]; try done.
  - unfold str_safe. intros [_ Hp]%andb_prop. by rewrite join_pairs_id.
  - intros Hl. f_equal. induction IH as [|x l Hx _ IHl]; [done|].
    cbn [forallb] in Hl. apply andb_prop in Hl as [H1 H2]. cbn [map]. by rewrite Hx, IHl.
  - intros [Hnd%bool_decide_eq_true Hd]%andb_prop.
    assert (Hm : map (fun kv => (join_pairs kv.1, join_value kv.2)) d = d).
    { clear Hnd. induction IH as [|[k x] d Hx _ IHd]; [done|].
      cbn [forallb fst snd] in Hd, Hx. apply andb_prop in Hd as [[Hk Hxs]%andb_prop Hd].
      unfold str_safe in Hk. apply andb_prop in Hk as [_ Hk].
      cbn [map fst snd]. by rewrite join_pairs_id, Hx, IHd. }
    by rewrite Hm, dict_of_pairs_fresh.
Qed.

(** The reader reads back what the writer wrote, and stops right
    after it. *)
Lemma scan_dump v : scans_back v.
Proof.
  intros level rest fuel Hs Hr Hf. rewrite roundtrip_safe_text in Hs. apply andb_prop in Hs as [Ht Hfit].
  rewrite (scan_join v level rest fuel (text_safe_cp v Ht) Hr Hf). unfold read_back.
  rewrite (proj2 (first_long_fits v) Hfit). by rewrite join_value_text.
Qed.

Lemma length_newline_indent level : length (newline_indent level) = S (4 * level).
Proof. unfold newline_indent. cbn [length]. by rewrite repeat_length. Qed.

Lemma length_encode s : (2 <= length (encode_basestring_ascii s))%nat.
Proof. unfold encode_basestring_ascii. cbn [length]. rewrite length_app. cbn [length]. lia. Qed.

Lemma length_flat_map {A B} (f : A -> list B) l :
  length (flat_map f l) = sum_list_with (fun x => length (f x)) l.
Proof. induction l; simpl; [done|]. by rewrite length_app, IHl. Qed.

Lemma sum_list_with_le {A} (f g : A -> nat) l :
  Forall (fun x => (f x <= g x)%nat) l -> (sum_list_with f l <= sum_list_with g l)%nat.
Proof. induction 1; simpl; lia. Qed.

(** The reader's fuel for a value is at most the length of its text. *)
Lemma scan_size_dump v : forall level, (scan_size v <= length (dump level v))%nat.
Proof.
  induction v as [| b | z | s | l IH | d IH] using pyval_ind'; intros level.
  - simpl. lia.
  - destruct b; simpl; lia.
  - destruct (int_repr_head z) as (c & t & Ht & _). cbn [dump scan_size]. rewrite Ht. simpl. lia.
  - cbn [dump scan_size]. unfold encode_basestring_ascii. simpl. lia.
  - destruct l as [|x xs]; [simpl; lia|]. rewrite dump_list_cons. cbn [scan_size sum_list_with].
    apply Forall_cons in IH as [IHx IH].
    assert (Hxs : (sum_list_with (fun y => S (scan_size y)) xs <=
                   length (flat_map (fun y => 44%Z :: newline_indent (S level) ++ dump (S level) y) xs))%nat).
    { rewrite length_flat_map. apply sum_list_with_le. eapply Forall_impl; [exact IH|].
      intros y Hy. cbn [length]. rewrite length_app. specialize (Hy (S level)). lia. }
    specialize (IHx (S level)). cbn [length]. rewrite !length_app, !length_newline_indent. lia.
  - destruct d as [|kv kvs]; [simpl; lia|]. rewrite dump_dict_cons. cbn [scan_size sum_list_with].
    apply Forall_cons in IH as [IHx IH].
    assert (Hkvs : (sum_list_with (fun kv => S (scan_size kv.2)) kvs <=
                   length (flat_map (fun kv => 44%Z :: newline_indent (S level)
                              ++ encode_basestring_ascii kv.1 ++ 58%Z :: 32%Z :: dump (S level) kv.2) kvs))%nat).
    { rewrite length_flat_map. apply sum_list_with_le. eapply Forall_impl; [exact IH|].
      intros [k w] Hy. cbn [length fst snd]. rewrite !length_app. specialize (Hy (S level)). cbn [length snd] in *. lia. }
    specialize (IHx (S level)). cbn [length]. rewrite !length_app, !length_newline_indent.
    pose proof (length_encode kv.1). cbn [length] in *. rewrite !length_app, !length_newline_indent. cbn [length]. lia.
Qed.

(** [json.load] of the text [json.dump(v, indent=4)] writes, when no
    int limit stops the writer (Python before 3.11, or a file written
    with the limit raised): the value with its surrogate pairs joined
    and its dicts rebuilt by item assignment, or the [ValueError] of
    [int(s)] on the first int of more than 4300 digits. *)
Theorem json_loads_dump_any v :
  cp_valid v = true ->
  json_loads_text (json_dump v) =
    match first_long v with None => Loaded (join_value v) | Some z => LoadRaised (long_int_error z) end.
Proof.
  intros Hs. unfold json_loads_text, json_dump.
  destruct (dump_head 0%nat v) as (c & t & Ht & Hc).
  assert (Hbom : str_prefix [65279] (dump 0%nat v) = false).
  { rewrite Ht. cbn [str_prefix]. unfold dump_start in Hc.
    rewrite bool_decide_false; [done|]. intros <-. by rewrite andb_false_r in Hc. }
  rewrite Hbom. unfold json_decode.
  pose proof (skip_ws_dump 0%nat v []) as Hw. rewrite app_nil_r in Hw. rewrite Hw.
  pose proof (scan_join v 0%nat [] (S (2 * length (dump 0%nat v)))) as Hd.
  rewrite app_nil_r in Hd. rewrite Hd; [|done|done|pose proof (scan_size_dump v 0%nat); lia].
  unfold read_back. by destruct (first_long v).
Qed.

(** [json.loads(json.dumps(v, indent=4)) == v] for every value the
    writer and the reader agree on. *)
Theorem json_loads_dump v : roundtrip_safe v = true -> json_loads_text (json_dump v) = Loaded v.
Proof.
  rewrite roundtrip_safe_text. intros [Ht Hf]%andb_prop.
  rewrite json_loads_dump_any by (by apply text_safe_cp).
  by rewrite (proj2 (first_long_fits v) Hf), join_value_text.
Qed.

Lemma json_dump_stream_fits v : py_fits v = true -> json_dump_stream v = Dumped (json_dump v).
Proof.
  intros Hf. pose proof (dump_io_spec v 0) as Hs. unfold json_dump_stream, json_dump.
  destruct (dump_io 0 v) as [t|p e]; simpl in Hs; [by destruct Hs as [_ ->] | destruct Hs; congruence].
Qed.

Lemma json_dump_stream_complete v t : json_dump_stream v = Dumped t -> t = json_dump v.
Proof.
  pose proof (dump_io_spec v 0) as Hs. unfold json_dump_stream, json_dump. intros Ht.
  rewrite Ht in Hs. by destruct Hs.
Qed.

Lemma json_dump_stream_fits_inv v t : json_dump_stream v = Dumped t -> py_fits v = true.
Proof.
  pose proof (dump_io_spec v 0) as Hs. unfold json_dump_stream. intros Ht.
  rewrite Ht in Hs. by destruct Hs.
Qed.

(** Python's [json] module as the tracker's codec. *)
#[export] Instance python_json : JsonCodec := {|
  json_dump_io := json_dump_stream;
  json_dumps := json_dump;
  json_loads := json_loads_text;
  json_safe := roundtrip_safe;
  json_dump_fits := json_dump_stream_fits;
  json_dump_complete := json_dump_stream_complete;
  json_dumped_fits := json_dump_stream_fits_inv;
  json_loads_fits := json_loads_text_fits;
  json_loads_dumps := json_loads_dump
|}.
