(* ===== verification/JsonPrefix.v ===== *)
(** * [json.load] of the text [json.dump] wrote before raising

    [save_data] empties the file ([open(filename, 'w')]) before
    [json.dump] runs, and [json.dump] writes chunk by chunk: when
    [int.__repr__] raises on an int beyond the conversion limit, the
    file keeps the chunks written before it ([dump_io]).  That text is
    the items the writer completed, then the item that raised, cut
    where it raised: nothing of a scalar item (its chunk [buf + text] is
    never yielded), or the cut text of a list or a dict.  The reader
    reads the completed items back ([scan_dump]) and then meets the end
    of the text where it expects a value, a comma or a closing bracket:
    for a value whose strings and dicts the reader reads back
    ([text_safe]), [json.load] of what [json.dump] wrote before raising
    is a [JSONDecodeError] ([json_loads_cut]). *)

From Stdlib Require Import Ascii.
From S2P Require Import Prelude PyDict PyInt PyValue Codec Json JsonParse JsonRoundtrip.

(** ** The reader on a text that stops early *)

(** The reader gives up: a [JSONDecodeError], or no fuel, which
    [json_decode] also reports as a [JSONDecodeError]. *)
Definition scan_fails (r : scan_res) : Prop := r = SErr \/ r = SNoFuel.

Definition value_fails (t : pystr) : Prop := forall fuel, scan_fails (scan_value fuel t).
Definition elements_fail (t : pystr) : Prop := forall fuel acc fl, scan_fails (scan_elements fuel acc fl t).
Definition members_fail (t : pystr) : Prop := forall fuel acc fl, scan_fails (scan_members fuel acc fl t).

(** What may follow a completed item of a cut list or dict: nothing,
    or a comma and a text on which the reader's loop gives up. *)
Definition after_item (loop_fails : pystr -> Prop) (t : pystr) : Prop :=
  t = [] \/ exists t', t = 44 :: t' /\ loop_fails (skip_ws t').

(** A text cut where a value was being written: empty, or the cut text
    of a list or a dict, on which the reader gives up. *)
Definition cut_text (p : pystr) : Prop :=
  value_fails p /\ (p = [] \/ exists c t, p = c :: t /\ (c = 91 \/ c = 123)).

Lemma scan_fails_err : scan_fails SErr.
Proof. by left. Qed.

Lemma scan_fails_nofuel : scan_fails SNoFuel.
Proof. by right. Qed.

#[local] Hint Resolve scan_fails_err scan_fails_nofuel : core.

(** With any fuel, the reader reads a completed value back or runs out
    of fuel. *)
Lemma scan_dump_fuel v level rest fuel :
  roundtrip_safe v = true -> value_end rest = true ->
  scan_value fuel (dump level v ++ rest) = SOk v false rest \/ scan_value fuel (dump level v ++ rest) = SNoFuel.
Proof.
  intros Hs Hr.
  assert (Hle : (fuel <= fuel + scan_size v)%nat) by lia.
  pose proof (proj1 (scan_fuel_mono fuel) (dump level v ++ rest) _ Hle) as Hm.
  rewrite (scan_dump v level rest (fuel + scan_size v)%nat) in Hm by (done || lia).
  destruct (scan_value fuel (dump level v ++ rest)); [..|by right]; left; symmetry; apply Hm; discriminate.
Qed.

Lemma value_fails_nil : value_fails [].
Proof. intros [|f]; auto. Qed.

Lemma cut_text_nil : cut_text [].
Proof. split; [exact value_fails_nil | by left]. Qed.

Lemma cut_text_skip_ws p : cut_text p -> skip_ws p = p.
Proof. intros [_ [-> | (c & t & -> & [-> | ->])]]; reflexivity. Qed.

Lemma value_fails_elements t : value_fails t -> elements_fail t.
Proof. intros Ht [|f] acc fl; [auto|]. cbn [scan_elements]. by destruct (Ht f) as [-> | ->]. Qed.

Lemma after_item_end P t : after_item P t -> value_end t = true.
Proof. by intros [-> | (t' & -> & _)]. Qed.

(** A completed list item, then what follows it. *)
Lemma elements_fail_item level y t :
  roundtrip_safe y = true -> after_item elements_fail t -> elements_fail (dump level y ++ t).
Proof.
  intros Hy Ht [|f] acc fl; [auto|]. cbn [scan_elements].
  destruct (scan_dump_fuel y level t f Hy (after_item_end _ _ Ht)) as [-> | ->]; [|auto].
  destruct Ht as [-> | (t' & -> & Ht')]; [simpl; auto|].
  change (chr "]"%char) with 93. change (chr ","%char) with 44.
  rewrite skip_ws_stop, next_is_miss, next_is_hit by (done || lia). apply Ht'.
Qed.

(** The reader on a dict member: the key, [": "], then the value. *)
Lemma scan_members_key f acc fl k t :
  str_safe k = true ->
  scan_members (S f) acc fl (encode_basestring_ascii k ++ 58 :: 32 :: t) =
  match scan_value f (skip_ws t) with
  | SOk v f' s4 =>
      let acc' := dict_set k v acc in
      let s5 := skip_ws s4 in
      match next_is (chr "}"%char) s5 with
      | Some r => SOk (PDict acc') (fl || f') r
      | None =>
          match next_is (chr ","%char) s5 with
          | Some s6 => scan_members f acc' (fl || f') (skip_ws s6)
          | None => SErr
          end
      end
  | r => r
  end.
Proof.
  intros Hk. cbn [scan_members]. unfold encode_basestring_ascii at 1. cbn [app].
  rewrite next_is_hit, <- !app_assoc. cbn [app]. rewrite scan_chars_encode by done.
  change (chr ":"%char) with 58. rewrite skip_ws_stop, next_is_hit by done. reflexivity.
Qed.

(** A dict member whose value was cut. *)
Lemma members_fail_cut k t :
  str_safe k = true -> value_fails (skip_ws t) -> members_fail (encode_basestring_ascii k ++ 58 :: 32 :: t).
Proof. intros Hk Ht [|f] acc fl; [auto|]. rewrite scan_members_key by done. by destruct (Ht f) as [-> | ->]. Qed.

(** A completed dict member, then what follows it. *)
Lemma members_fail_item level k y t :
  str_safe k = true -> roundtrip_safe y = true -> after_item members_fail t ->
  members_fail (encode_basestring_ascii k ++ 58 :: 32 :: dump level y ++ t).
Proof.
  intros Hk Hy Ht [|f] acc fl; [auto|]. rewrite scan_members_key, skip_ws_dump by done.
  destruct (scan_dump_fuel y level t f Hy (after_item_end _ _ Ht)) as [-> | ->]; [|auto].
  destruct Ht as [-> | (t' & -> & Ht')]; [simpl; auto|].
  cbv zeta. change (chr "}"%char) with 125. change (chr ","%char) with 44.
  rewrite skip_ws_stop, next_is_miss, next_is_hit by (done || lia). apply Ht'.
Qed.

(** ** What [json.dump] wrote when it raised *)

(** [json.dump] cuts the value only where the reader gives up. *)
Definition cuts_cleanly (v : pyval) : Prop :=
  forall level p e, text_safe v = true -> dump_io level v = DumpRaised p e -> cut_text p.

Lemma seq_writes_cons r rs : seq_writes (r :: rs) = seq_write r (seq_writes rs).
Proof. reflexivity. Qed.

(** A completed value's chunks are its text, and its ints fit. *)
Lemma dump_io_dumped level v t : dump_io level v = Dumped t -> t = dump level v /\ py_fits v = true.
Proof. intros H. pose proof (dump_io_spec v level) as Hs. rewrite H in Hs. by destruct Hs. Qed.

Lemma roundtrip_safe_fits v : text_safe v = true -> py_fits v = true -> roundtrip_safe v = true.
Proof. intros Hs Hf. by rewrite roundtrip_safe_text, Hs, Hf. Qed.

Lemma cut_text_next_is c u : c <> 91 -> c <> 123 -> cut_text u -> next_is c u = None.
Proof. intros H1 H2 [_ [-> | (c' & t & -> & [-> | ->])]]; [done|by apply next_is_miss..]. Qed.

(** A list item written after [buf]: completed, cut before anything
    of it was written (a scalar's chunk is [buf + text]), or cut
    inside. *)
Lemma item_chunk_cases buf level y :
  cuts_cleanly y -> text_safe y = true ->
  let r := match scalar_chunk y with
           | Some c => write_chunk buf c
           | None => then_write buf (dump_io (S level) y)
           end in
  (r = Dumped (buf ++ dump (S level) y) /\ roundtrip_safe y = true) \/
  (exists e, r = DumpRaised [] e) \/
  (exists u e, r = DumpRaised (buf ++ u) e /\ cut_text u).
Proof.
  intros Hc Hs. cbv zeta. destruct (scalar_chunk y) as [c|] eqn:Hsc.
  - pose proof (write_chunk_spec buf (S level) y c Hsc) as Hw.
    destruct c as [e|t]; cbn [write_chunk] in *; [eauto|].
    destruct Hw as [Hf Ht]. left. rewrite Ht. split; [done | by apply roundtrip_safe_fits].
  - destruct (dump_io (S level) y) as [t|u e] eqn:Hd; cbn [then_write].
    + apply dump_io_dumped in Hd as [-> Hf]. left. split; [done | by apply roundtrip_safe_fits].
    + right; right. exists u, e. split; [done | exact (Hc _ _ _ Hs Hd)].
Qed.

(** A dict value written after its key: completed or cut. *)
Lemma value_chunk_cases level y :
  cuts_cleanly y -> text_safe y = true ->
  let r := match scalar_chunk y with Some c => write_chunk [] c | None => dump_io (S level) y end in
  (r = Dumped (dump (S level) y) /\ roundtrip_safe y = true) \/ (exists u e, r = DumpRaised u e /\ cut_text u).
Proof.
  intros Hc Hs. pose proof (item_chunk_cases [] level y Hc Hs) as H. cbv zeta in *.
  replace (match scalar_chunk y with Some c => write_chunk [] c | None => then_write [] (dump_io (S level) y) end)
    with (match scalar_chunk y with Some c => write_chunk [] c | None => dump_io (S level) y end) in H
    by (destruct (scalar_chunk y); [done | by destruct (dump_io (S level) y)]).
  destruct H as [H | [(e & H) | (u & e & H & Hu)]]; [by left | right | right]; eauto using cut_text_nil.
Qed.

(** The items after the first of a list [json.dump] cut. *)
Lemma list_items_cut level xs p e :
  Forall cuts_cleanly xs -> forallb text_safe xs = true ->
  seq_writes (map (fun y => match scalar_chunk y with
                            | Some c => write_chunk (str "," ++ newline_indent (S level)) c
                            | None => then_write (str "," ++ newline_indent (S level)) (dump_io (S level) y)
                            end) xs ++ [Dumped (newline_indent level ++ str "]")]) = DumpRaised p e ->
  after_item elements_fail p.
Proof.
  revert p e. induction xs as [|y xs IH]; intros p e Hc Hs Hw; [discriminate Hw|].
  apply Forall_cons in Hc as [Hcy Hc]. cbn [forallb] in Hs. apply andb_prop in Hs as [Hsy Hs].
  cbn [map app] in Hw. rewrite seq_writes_cons in Hw.
  destruct (item_chunk_cases (str "," ++ newline_indent (S level)) level y Hcy Hsy)
    as [[Hr Hy] | [(e' & Hr) | (u & e' & Hr & Hu)]]; rewrite Hr in Hw; cbn [seq_write] in Hw.
  - destruct (seq_writes _) as [t|p' e''] eqn:Hrest; cbn [then_write] in Hw; [discriminate|].
    injection Hw as <- <-. right. exists (newline_indent (S level) ++ dump (S level) y ++ p').
    split; [by rewrite <- !app_assoc|]. rewrite skip_ws_indent, skip_ws_dump.
    exact (elements_fail_item _ _ _ Hy (IH _ _ Hc Hs eq_refl)).
  - injection Hw as <- <-. by left.
  - injection Hw as <- <-. right. exists (newline_indent (S level) ++ u). split; [done|].
    rewrite skip_ws_indent, (cut_text_skip_ws u Hu). apply value_fails_elements, Hu.
Qed.

(** The members after the first of a dict [json.dump] cut. *)
Lemma dict_items_cut level kvs p e :
  Forall (fun kv => cuts_cleanly kv.2) kvs -> forallb (fun kv => str_safe kv.1 && text_safe kv.2) kvs = true ->
  seq_writes (map (fun kv => then_write (str "," ++ newline_indent (S level) ++ encode_basestring_ascii kv.1 ++ str ": ")
                               (match scalar_chunk kv.2 with
                                | Some c => write_chunk [] c
                                | None => dump_io (S level) kv.2
                                end)) kvs ++ [Dumped (newline_indent level ++ str "}")]) = DumpRaised p e ->
  after_item members_fail p.
Proof.
  revert p e. induction kvs as [|[k y] kvs IH]; intros p e Hc Hs Hw; [discriminate Hw|].
  apply Forall_cons in Hc as [Hcy Hc]. cbn [forallb fst snd] in Hs, Hcy.
  apply andb_prop in Hs as [[Hk Hsy]%andb_prop Hs].
  rewrite map_cons, <- app_comm_cons, seq_writes_cons in Hw. cbn [fst snd] in Hw.
  destruct (value_chunk_cases level y Hcy Hsy) as [[Hr Hy] | (u & e' & Hr & Hu)];
    rewrite Hr in Hw; cbn [then_write seq_write] in Hw.
  - destruct (seq_writes _) as [t|p' e''] eqn:Hrest; cbn [then_write] in Hw; [discriminate|].
    injection Hw as <- <-. right.
    exists (newline_indent (S level) ++ encode_basestring_ascii k ++ 58 :: 32 :: dump (S level) y ++ p').
    split; [unfold encode_basestring_ascii; rewrite <- !app_assoc; simpl; rewrite <- !app_assoc; reflexivity|]. rewrite skip_ws_indent, skip_ws_encode.
    exact (members_fail_item _ _ _ _ Hk Hy (IH _ _ Hc Hs eq_refl)).
  - injection Hw as <- <-. right. exists (newline_indent (S level) ++ encode_basestring_ascii k ++ 58 :: 32 :: u).
    split; [unfold encode_basestring_ascii; rewrite <- !app_assoc; simpl; rewrite <- !app_assoc; reflexivity|]. rewrite skip_ws_indent, skip_ws_encode.
    apply members_fail_cut; [done|]. rewrite (cut_text_skip_ws u Hu). apply Hu.
Qed.

Lemma DumpRaised_inj p1 p2 e1 e2 : DumpRaised p1 e1 = DumpRaised p2 e2 -> p1 = p2 /\ e1 = e2.
Proof. by intros [= -> ->]. Qed.

Lemma seq_write_dumped t r : seq_write (Dumped t) r = then_write t r.
Proof. reflexivity. Qed.

Lemma seq_write_raised p e r : seq_write (DumpRaised p e) r = DumpRaised p e.
Proof. reflexivity. Qed.

Lemma then_write_dumped t u : then_write t (Dumped u) = Dumped (t ++ u).
Proof. reflexivity. Qed.

Lemma then_write_raised t p e : then_write t (DumpRaised p e) = DumpRaised (t ++ p) e.
Proof. reflexivity. Qed.

Lemma dump_io_list_cons level x xs :
  dump_io level (PList (x :: xs)) =
  seq_writes
    ((match scalar_chunk x with
      | Some c => write_chunk (str "[" ++ newline_indent (S level)) c
      | None => then_write (str "[" ++ newline_indent (S level)) (dump_io (S level) x)
      end) ::
     map (fun y => match scalar_chunk y with
                   | Some c => write_chunk (str "," ++ newline_indent (S level)) c
                   | None => then_write (str "," ++ newline_indent (S level)) (dump_io (S level) y)
                   end) xs ++
     [Dumped (newline_indent level ++ str "]")]).
Proof. reflexivity. Qed.

Lemma dump_io_dict_cons level k x kvs :
  dump_io level (PDict ((k, x) :: kvs)) =
  then_write (str "{" ++ newline_indent (S level))
    (seq_writes
      (then_write (encode_basestring_ascii k ++ str ": ")
         (match scalar_chunk x with Some c => write_chunk [] c | None => dump_io (S level) x end) ::
       map (fun kv => then_write (str "," ++ newline_indent (S level) ++ encode_basestring_ascii kv.1 ++ str ": ")
                        (match scalar_chunk kv.2 with
                         | Some c => write_chunk [] c
                         | None => dump_io (S level) kv.2
                         end)) kvs ++
       [Dumped (newline_indent level ++ str "}")])).
Proof. reflexivity. Qed.

(** A written key starts with a double quote. *)
Lemma next_is_encode c k t : c <> 34 -> next_is c (encode_basestring_ascii k ++ t) = None.
Proof. intros Hc. unfold encode_basestring_ascii. cbn [app]. by apply next_is_miss. Qed.

Lemma str_bracket t : str "[" ++ t = 91 :: t.
Proof. reflexivity. Qed.

Lemma str_brace t : str "{" ++ t = 123 :: t.
Proof. reflexivity. Qed.

(** Every value whose strings and dicts the reader reads back is cut
    by [json.dump] only where the reader gives up. *)
Lemma dump_io_cut v : cuts_cleanly v.
Proof.
  induction v as [| b | z | s | l IH | d IH] using pyval_ind'; intros level p e Hs Hd.
  - discriminate.
  - destruct b; discriminate.
  - cbn [dump_io write_chunk] in Hd. unfold int_chunk in Hd.
    destruct (int_fits z); [discriminate|]. apply DumpRaised_inj in Hd as [<- _]. exact cut_text_nil.
  - discriminate.
  - destruct l as [|x xs]; [discriminate|]. apply Forall_cons in IH as [IHx IH].
    cbn [text_safe forallb] in Hs. apply andb_prop in Hs as [Hsx Hs].
    rewrite dump_io_list_cons, seq_writes_cons in Hd.
    destruct (item_chunk_cases (str "[" ++ newline_indent (S level)) level x IHx Hsx)
      as [[Hr Hx] | [(e' & Hr) | (u & e' & Hr & Hu)]]; rewrite Hr in Hd;
      rewrite ?seq_write_dumped, ?seq_write_raised in Hd.
    + destruct (seq_writes _) as [t|p' e''] eqn:Hrest; rewrite ?then_write_dumped, ?then_write_raised in Hd; [discriminate|].
      apply DumpRaised_inj in Hd as [<- <-]. pose proof (list_items_cut level xs p' e'' IH Hs Hrest) as Ht.
      split; [|right; eexists _, _; split; [reflexivity | auto]].
      intros [|f]; [auto|]. rewrite <- !app_assoc, str_bracket.
      rewrite scan_value_bracket, skip_ws_indent, skip_ws_dump, next_is_dump by (by left).
      exact (elements_fail_item _ _ _ Hx Ht f [] false).
    + apply DumpRaised_inj in Hd as [<- _]. exact cut_text_nil.
    + apply DumpRaised_inj in Hd as [<- _]. split; [|right; eexists _, _; split; [reflexivity | auto]].
      intros [|f]; [auto|]. rewrite <- !app_assoc, str_bracket.
      rewrite scan_value_bracket, skip_ws_indent, (cut_text_skip_ws u Hu), cut_text_next_is by (done || lia).
      exact (value_fails_elements u (proj1 Hu) f [] false).
  - destruct d as [|[k x] kvs]; [discriminate|]. apply Forall_cons in IH as [IHx IH]. cbn [fst snd] in IHx.
    cbn [text_safe forallb fst snd] in Hs. apply andb_prop in Hs as [_ Hs].
    apply andb_prop in Hs as [[Hk Hsx]%andb_prop Hs].
    rewrite dump_io_dict_cons in Hd.
    destruct (seq_writes _) as [t|p1 e1] eqn:Hw; rewrite ?then_write_dumped, ?then_write_raised in Hd; [discriminate|].
    apply DumpRaised_inj in Hd as [<- <-]. rewrite seq_writes_cons in Hw.
    destruct (value_chunk_cases level x IHx Hsx) as [[Hr Hx] | (u & e' & Hr & Hu)];
      rewrite Hr in Hw; rewrite ?then_write_dumped, ?then_write_raised, ?seq_write_dumped, ?seq_write_raised in Hw.
    + destruct (seq_writes _) as [t|p' e''] eqn:Hrest; rewrite ?then_write_dumped, ?then_write_raised in Hw; [discriminate|].
      apply DumpRaised_inj in Hw as [<- <-]. pose proof (dict_items_cut level kvs p' e'' IH Hs Hrest) as Ht.
      split; [|right; eexists _, _; split; [reflexivity | auto]].
      intros [|f]; [auto|]. rewrite <- !app_assoc, str_brace.
      rewrite scan_value_brace, skip_ws_indent, skip_ws_encode, next_is_encode by lia.
      exact (members_fail_item _ _ _ _ Hk Hx Ht f [] false).
    + apply DumpRaised_inj in Hw as [<- <-]. split; [|right; eexists _, _; split; [reflexivity | auto]].
      intros [|f]; [auto|]. rewrite <- !app_assoc, str_brace.
      rewrite scan_value_brace, skip_ws_indent, skip_ws_encode, next_is_encode by lia.
      apply (members_fail_cut k u Hk); [by rewrite (cut_text_skip_ws u Hu); apply Hu].
Qed.

(** ** The reader refuses the text *)

(** The reader's answer on a text cut where a value was being written. *)
Lemma json_loads_cut_text p : cut_text p -> json_loads_text p = DecodeFailed.
Proof.
  intros Hp. pose proof (cut_text_skip_ws p Hp) as Hw. destruct Hp as [Hf Hh].
  destruct Hh as [-> | (c & t & -> & Hc)]; [reflexivity|].
  unfold json_loads_text, json_decode. cbn [str_prefix].
  rewrite bool_decide_false by lia. cbn [andb]. rewrite Hw.
  by destruct (Hf (S (2 * length (c :: t)))) as [-> | ->].
Qed.

(** C19: a save cut short is never read back.  The text [json.dump]
    writes into the file before it raises, for a value whose strings
    and dicts the reader reads back, is refused by [json.load] with
    [JSONDecodeError]: [load_data] turns it into an empty store. *)
Theorem json_loads_cut v p e :
  text_safe v = true -> json_dump_stream v = DumpRaised p e -> json_loads_text p = DecodeFailed.
Proof. intros Hs Hd. exact (json_loads_cut_text p (dump_io_cut v 0%nat p e Hs Hd)). Qed.
