(* ===== verification/Refinement.v ===== *)
(** * [HabitTracker] implements the abstract store

    [abs_store] reads the abstract store [Spec.store] off a tracker's
    [habits]: a dict without repeated keys whose every value is a
    record with a string [description], a string [frequency] and a
    non-negative integer [completion_count] ([habit_of]; other keys of
    a record are allowed and kept).  The refinement theorems say that
    each method, run on a tracker whose [habits] stands for [m], does
    what [Store.add], [Store.mark], [Store.view], [Store.remove] and
    [Store.reset] do to [m]: on an error it raises [exc_of] of the
    abstract error and changes nothing; otherwise it ends with
    [save_data] on [habits] standing for the new store ([commit]). *)

From S2P Require Import Prelude PyDict PyInt PyValue Codec Spec Tracker.

(** ** The abstraction *)

(** The typed record a Python habit record stands for. *)
Definition habit_of (r : pyval) : option habit :=
  match r with
  | PDict rr =>
      match dict_get k_description rr, dict_get k_frequency rr, dict_get k_count rr with
      | Some (PStr ds), Some (PStr fq), Some (PInt n) =>
          if bool_decide (0 <= n) then Some (mk_habit ds fq (Z.to_nat n)) else None
      | _, _, _ => None
      end
  | _ => None
  end.

Fixpoint abs_dict (d : list (pystr * pyval)) : option store :=
  match d with
  | [] => Some ∅
  | (k, r) :: d' => h ← habit_of r; m ← abs_dict d'; Some (<[k := h]> m)
  end.

(** The store [self.habits] stands for, if it stands for one. *)
Definition abs_store (v : pyval) : option store :=
  match v with
  | PDict d => if bool_decide (dict_wf d) then abs_dict d else None
  | _ => None
  end.

(** The exception the code raises for an abstract error. *)
Definition exc_of (e : store_error) : pyexc :=
  match e with
  | DuplicateHabit => ValueError msg_exists
  | HabitNotFound => ValueError msg_not_found
  end.

(** Every count of [m] is within Python's int conversion limit:
    [json.dump] can write it. *)
Definition store_fits (m : store) : Prop := map_Forall (fun _ h => Z.of_nat (h_count h) < int_str_bound) m.

(** The pointwise form of [abs_dict d = Some m]. *)
Definition dict_abs (d : list (pystr * pyval)) (m : store) : Prop :=
  forall k, habit_of <$> dict_get k d = Some <$> m !! k.

(** ** Records *)

Lemma habit_of_Some r h :
  habit_of r = Some h ->
  exists rr, r = PDict rr /\ dict_get k_description rr = Some (PStr (h_description h)) /\
             dict_get k_frequency rr = Some (PStr (h_frequency h)) /\
             dict_get k_count rr = Some (PInt (Z.of_nat (h_count h))).
Proof.
  destruct r as [| | | | |rr]; try discriminate. simpl.
  destruct (dict_get k_description rr) as [[| | |ds| |]|] eqn:Hd; try discriminate.
  destruct (dict_get k_frequency rr) as [[| | |fq| |]|] eqn:Hf; try discriminate.
  destruct (dict_get k_count rr) as [[| |n| | |]|] eqn:Hc; try discriminate.
  destruct (decide (0 <= n)) as [Hn|Hn].
  - rewrite bool_decide_true by done. intros [=<-]. exists rr. simpl. by rewrite Z2Nat.id.
  - rewrite bool_decide_false by done. discriminate.
Qed.

Lemma habit_of_intro rr ds fq n :
  dict_get k_description rr = Some (PStr ds) -> dict_get k_frequency rr = Some (PStr fq) ->
  dict_get k_count rr = Some (PInt (Z.of_nat n)) ->
  habit_of (PDict rr) = Some (mk_habit ds fq n).
Proof.
  simpl. intros -> -> ->. rewrite bool_decide_true by lia. by rewrite Nat2Z.id.
Qed.

Lemma habit_of_new ds fq : habit_of (new_record ds fq) = Some (mk_habit ds fq 0).
Proof. by apply habit_of_intro. Qed.

Lemma habit_of_pydict r h : habit_of r = Some h -> is_pydict r = true.
Proof. intros (rr & -> & _)%habit_of_Some. done. Qed.

Lemma k_count_description : k_count ≠ k_description.
Proof. discriminate. Qed.

Lemma k_count_frequency : k_count ≠ k_frequency.
Proof. discriminate. Qed.

(** [record["completion_count"] = c] keeps the other two fields. *)
Lemma habit_of_set_count rr h n :
  habit_of (PDict rr) = Some h ->
  habit_of (PDict (dict_set k_count (PInt (Z.of_nat n)) rr)) =
    Some (mk_habit (h_description h) (h_frequency h) n).
Proof.
  intros (? & [=<-] & Hd & Hf & _)%habit_of_Some. apply habit_of_intro.
  - rewrite dict_get_set_ne; [done|]. apply k_count_description.
  - rewrite dict_get_set_ne; [done|]. apply k_count_frequency.
  - apply dict_get_set_eq.
Qed.

Lemma habit_of_reset r h : habit_of r = Some h -> habit_of (reset_record r) = Some (Store.zero h).
Proof.
  intros Hh. destruct (habit_of_Some r h Hh) as (rr & -> & _).
  apply (habit_of_set_count rr h 0 Hh).
Qed.

(** ** The abstraction of a dict *)

Lemma abs_dict_abs d m : abs_dict d = Some m -> dict_abs d m.
Proof.
  revert m. induction d as [|[k r] d IH]; intros m; simpl.
  - by intros [=<-] k.
  - destruct (habit_of r) as [h|] eqn:Hr; [|done]. simpl.
    destruct (abs_dict d) as [m'|] eqn:Hd; [|done]. intros [=<-] k'. simpl.
    case_decide as Hk; subst.
    + rewrite lookup_insert_eq. cbn. by rewrite Hr.
    + rewrite lookup_insert_ne by congruence. by apply IH.
Qed.

Lemma abs_dict_complete d m : dict_wf d -> dict_abs d m -> abs_dict d = Some m.
Proof.
  revert m. induction d as [|[k r] d IH]; intros m Hwf Hm; simpl.
  - f_equal. apply map_eq. intros k. specialize (Hm k). rewrite lookup_empty.
    by destruct (m !! k).
  - pose proof (Hm k) as Hk. simpl in Hk. rewrite decide_True in Hk by done.
    destruct (m !! k) as [h|] eqn:Hmk; [|done]. injection Hk as ->. simpl.
    unfold dict_wf, dict_keys in Hwf. rewrite fmap_cons in Hwf. apply NoDup_cons in Hwf as [Hnin Hwf].
    rewrite (IH (delete k m)); [simpl; by rewrite insert_delete_id| done |].
    intros k'. destruct (decide (k' = k)) as [->|Hne].
    + by rewrite lookup_delete_eq, (proj2 (dict_get_None _ _) Hnin).
    + rewrite lookup_delete_ne by congruence. rewrite <- (Hm k'). simpl. by rewrite decide_False.
Qed.

Lemma abs_store_iff d m : abs_store (PDict d) = Some m <-> dict_wf d /\ dict_abs d m.
Proof.
  simpl. case_bool_decide as Hwf.
  - split; [by intros ?%abs_dict_abs | intros [_ ?]; by apply abs_dict_complete].
  - split; [done | by intros []].
Qed.

Lemma abs_store_dict v m : abs_store v = Some m -> exists d, v = PDict d /\ dict_wf d /\ dict_abs d m.
Proof. destruct v as [| | | | |d]; try discriminate. intros ?%abs_store_iff. eauto. Qed.

Lemma dict_abs_lookup_Some d m k h :
  dict_abs d m -> m !! k = Some h -> exists r, dict_get k d = Some r /\ habit_of r = Some h.
Proof.
  intros Hm Hk. specialize (Hm k). rewrite Hk in Hm.
  destruct (dict_get k d) as [r|]; [|done]. injection Hm. eauto.
Qed.

Lemma dict_abs_lookup_None d m k : dict_abs d m -> m !! k = None -> dict_get k d = None.
Proof. intros Hm Hk. specialize (Hm k). rewrite Hk in Hm. by destruct (dict_get k d). Qed.

Lemma dict_abs_set d m k r h :
  dict_abs d m -> habit_of r = Some h -> dict_abs (dict_set k r d) (<[k:=h]> m).
Proof.
  intros Hm Hr k'. rewrite dict_get_set. destruct (decide (k' = k)) as [->|Hne].
  - rewrite lookup_insert_eq. cbn. by rewrite Hr.
  - rewrite lookup_insert_ne by congruence. apply Hm.
Qed.

Lemma dict_abs_del d m k : dict_abs d m -> dict_abs (dict_del k d) (delete k m).
Proof.
  intros Hm k'. rewrite dict_get_del. destruct (decide (k' = k)) as [->|Hne].
  - by rewrite lookup_delete_eq.
  - rewrite lookup_delete_ne by congruence. apply Hm.
Qed.

Lemma dict_abs_map d m (f : pyval -> pyval) (g : habit -> habit) :
  dict_abs d m -> (forall r h, habit_of r = Some h -> habit_of (f r) = Some (g h)) ->
  dict_abs (dict_map_values f d) (g <$> m).
Proof.
  intros Hm Hfg k. rewrite dict_get_map_values, lookup_fmap. specialize (Hm k).
  destruct (dict_get k d) as [r|], (m !! k) as [h|]; simpl in *; try done.
  injection Hm as Hr. by rewrite (Hfg r h).
Qed.

Lemma dict_abs_records d m :
  dict_wf d -> dict_abs d m -> Forall (fun kv => is_pydict kv.2 = true) d.
Proof.
  intros Hwf Hm. apply Forall_forall. intros [k r] Hin. simpl.
  pose proof (Hm k) as Hk. rewrite (dict_wf_get_elem k r d Hwf Hin) in Hk. simpl in Hk.
  destruct (m !! k) as [h|]; [|done]. injection Hk. apply habit_of_pydict.
Qed.

Lemma counts_below_fits b m : Store.counts_below b m -> Z.of_nat b <= int_str_bound -> store_fits m.
Proof. intros Hm Hb. eapply map_Forall_impl; [exact Hm|]. simpl. lia. Qed.

Lemma after_counts_below c b m : Store.counts_below b m -> Store.counts_below (S b) (Store.after c m).
Proof.
  intros Hm. unfold Store.after. destruct (Store.step c m) as [e|[m' r]] eqn:Hs.
  - apply (Store.counts_below_mono b); [lia|done].
  - exact (Store.step_counts_below c m m' r b Hm Hs).
Qed.

(** The counts of the store [habits] stands for are ints of [habits]. *)
Lemma abs_store_fits v m : abs_store v = Some m -> py_fits v = true -> store_fits m.
Proof.
  intros (d & -> & _ & Hm)%abs_store_dict Hf k h Hk.
  destruct (dict_abs_lookup_Some d m k h Hm Hk) as (r & Hr & Hrh).
  destruct (habit_of_Some r h Hrh) as (rr & -> & _ & _ & Hc).
  pose proof (py_fits_dict_get _ _ _ (py_fits_dict_get _ _ _ Hf Hr) Hc) as Hi.
  apply int_fits_bound in Hi. lia.
Qed.

Lemma store_fits_insert m k h :
  store_fits m -> Z.of_nat (h_count h) < int_str_bound -> store_fits (<[k := h]> m).
Proof. intros Hm Hh. by apply map_Forall_insert_2. Qed.

(** A count of 0 is within the limit: new and reset records fit. *)
Lemma store_fits_zero_count m k h : store_fits m -> h_count h = 0%nat -> store_fits (<[k := h]> m).
Proof. intros Hm Hh. apply store_fits_insert; [done|]. rewrite Hh. exact int_str_bound_pos. Qed.

Lemma store_fits_reset m : store_fits (Store.reset m).
Proof. apply map_Forall_fmap. intros k h _. exact int_str_bound_pos. Qed.

(** ** Refinement of each method *)

Local Open Scope pym_scope.

Section Refines.
Context `{!JsonCodec}.

(** A method run on [w] does what the abstract operation's result
    [res] says: its error, with nothing changed, or [save_data] on
    [habits] standing for the new store, within the int conversion
    limit when [habits] was and the new counts are. *)
Definition mutates_as (w : world) (res : store_error + store) (out : world * (pyexc + unit)) : Prop :=
  match res with
  | inl e => out = (w, inl (exc_of e))
  | inr m' => exists h, out = commit (with_habits w h) /\ abs_store h = Some m' /\
                        (py_fits (w_habits w) = true -> store_fits m' -> py_fits h = true)
  end.

Lemma add_habit_refines w m name ds fq :
  abs_store (w_habits w) = Some m ->
  mutates_as w (Store.add name ds fq m) (add_habit name ds fq w).
Proof.
  intros (d & Hh & Hwf & Hm)%abs_store_dict. unfold Store.add.
  destruct (m !! name) as [h|] eqn:Hn.
  - destruct (dict_abs_lookup_Some d m name h Hm Hn) as (r & Hr & _).
    by rewrite (add_habit_present w d) by eauto.
  - pose proof (dict_abs_lookup_None d m name Hm Hn) as Hd.
    exists (PDict (d ++ [(name, new_record ds fq)])).
    rewrite <- dict_set_absent by (by apply dict_get_None). split_and!.
    + rewrite (add_habit_absent w d) by done. rewrite dict_set_absent by (by apply dict_get_None).
      apply save_data_commit.
    + apply abs_store_iff. split; [by apply dict_set_wf|].
      apply dict_abs_set; [done | apply habit_of_new].
    + rewrite Hh. intros Hf _. by apply py_fits_dict_set, new_record_fits.
Qed.

Lemma mark_completed_refines w m name :
  abs_store (w_habits w) = Some m ->
  mutates_as w (Store.mark name m) (mark_completed name w).
Proof.
  intros (d & Hh & Hwf & Hm)%abs_store_dict. unfold Store.mark.
  destruct (m !! name) as [h|] eqn:Hn.
  - destruct (dict_abs_lookup_Some d m name h Hm Hn) as (r & Hr & Hrh).
    destruct (habit_of_Some r h Hrh) as (rr & -> & _ & _ & Hc).
    eexists. split_and!.
    + rewrite (mark_completed_mutation w d name rr _ Hh Hr Hc). apply save_data_commit.
    + apply abs_store_iff. split; [by apply dict_set_wf|]. apply dict_abs_set; [done|].
      replace (Z.of_nat (h_count h) + 1) with (Z.of_nat (S (h_count h))) by lia.
      by apply habit_of_set_count.
    + rewrite Hh. intros Hf Hm'. apply py_fits_dict_set; [done|].
      apply py_fits_dict_set; [exact (py_fits_dict_get _ _ _ Hf Hr)|]. apply int_fits_small.
      specialize (Hm' name (Store.bump h) (lookup_insert_eq _ _ _)). simpl in Hm'. lia.
  - by rewrite (proj1 (absent_name_guards w d name Hh (dict_abs_lookup_None d m name Hm Hn))).
Qed.

Lemma view_progress_refines w m name :
  abs_store (w_habits w) = Some m ->
  view_progress name w =
    (w, match Store.view name m with
        | inl e => inl (exc_of e)
        | inr c => inr (PInt (Z.of_nat c))
        end).
Proof.
  intros (d & Hh & Hwf & Hm)%abs_store_dict. unfold Store.view.
  destruct (m !! name) as [h|] eqn:Hn.
  - destruct (dict_abs_lookup_Some d m name h Hm Hn) as (r & Hr & Hrh).
    destruct (habit_of_Some r h Hrh) as (rr & -> & _ & _ & Hc).
    by apply (view_progress_ok w d name rr).
  - by rewrite (proj1 (proj2 (absent_name_guards w d name Hh (dict_abs_lookup_None d m name Hm Hn)))).
Qed.

Lemma remove_habit_refines w m name :
  abs_store (w_habits w) = Some m ->
  mutates_as w (Store.remove name m) (remove_habit name w).
Proof.
  intros (d & Hh & Hwf & Hm)%abs_store_dict. unfold Store.remove.
  destruct (m !! name) as [h|] eqn:Hn.
  - destruct (dict_abs_lookup_Some d m name h Hm Hn) as (r & Hr & _).
    exists (PDict (dict_del name d)). split_and!.
    + rewrite (remove_habit_present w d) by eauto. apply save_data_commit.
    + apply abs_store_iff. split; [by apply dict_del_wf | by apply dict_abs_del].
    + rewrite Hh. intros Hf _. by apply py_fits_dict_del.
  - by rewrite (proj2 (proj2 (absent_name_guards w d name Hh (dict_abs_lookup_None d m name Hm Hn)))).
Qed.

Lemma reset_progress_refines w m :
  abs_store (w_habits w) = Some m ->
  mutates_as w (inr (Store.reset m)) (reset_progress w).
Proof.
  intros (d & Hh & Hwf & Hm)%abs_store_dict.
  exists (PDict (dict_map_values reset_record d)). split_and!.
  - rewrite (reset_progress_records w d Hh Hwf) by (by eapply dict_abs_records).
    apply save_data_commit.
  - apply abs_store_iff. split; [by apply dict_map_values_wf|].
    apply dict_abs_map; [done | apply habit_of_reset].
  - rewrite Hh. intros Hf _. by apply py_fits_map_values; [apply reset_record_fits|].
Qed.
End Refines.

(** ** Requests, sessions and the file *)

Section Session.
Context `{!JsonCodec}.

(** The method call the menu makes for a request. *)
Definition run_command (c : command) : PyM world pyexc (option pyval) :=
  match c with
  | CAdd n d f => add_habit n d f ;;; ret None
  | CMark n => mark_completed n ;;; ret None
  | CView n => v <- view_progress n ;; ret (Some v)
  | CRemove n => remove_habit n ;;; ret None
  | CReset => reset_progress ;;; ret None
  end.

(** The tracker after a request, its exception (if any) caught. *)
Definition after_command (c : command) (w : world) : world := (run_command c w).1.

Definition run_session (cs : list command) (w : world) : world :=
  foldl (fun w c => after_command c w) w cs.

(** The file holds the JSON text of [habits]. *)
Definition persisted (w : world) : Prop :=
  w_disk w !! w_file w = Some (FText (json_dumps (w_habits w))).

Lemma commit_writable w :
  file_writable w = true -> py_fits (w_habits w) = true -> commit w = (saved w, inr tt).
Proof. intros Hw Hf. by rewrite commit_fits, Hw. Qed.

Lemma saved_persisted w : persisted (saved w).
Proof. unfold persisted, saved. simpl. by rewrite lookup_insert_eq. Qed.

Lemma saved_writable w : file_writable (saved w) = true.
Proof. unfold file_writable, saved. simpl. by rewrite lookup_insert_eq. Qed.

(** [save_data] changes no more than the disk, and a writable file
    stays writable: [json.dump] leaves text in it, whole or cut. *)
Lemma commit_state w :
  w_habits (commit w).1 = w_habits w /\ w_file (commit w).1 = w_file w /\
  (file_writable w = true -> file_writable (commit w).1 = true).
Proof.
  unfold commit. destruct (file_writable w) eqn:Hw; [|done].
  destruct (json_dump_io (w_habits w)) as [t|t e]; simpl; unfold file_writable, written; simpl;
    by rewrite lookup_insert_eq.
Qed.

Lemma commit_habits w : w_habits (commit w).1 = w_habits w.
Proof. apply commit_state. Qed.

(** What a request leaves when the abstract store accepts it. *)
Definition command_done (w w' : world) (m' : store) (r : option nat) : Prop :=
  abs_store (w_habits w') = Some m' /\ file_writable w' = true /\ w_file w' = w_file w /\
  py_fits (w_habits w') = true /\
  match r with None => persisted w' | Some _ => w' = w end.

Lemma mutates_as_writable w res out :
  file_writable w = true -> py_fits (w_habits w) = true -> mutates_as w res out ->
  match res with
  | inl e => out = (w, inl (exc_of e))
  | inr m' => store_fits m' -> exists w', out = (w', inr tt) /\ command_done w w' m' None
  end.
Proof.
  destruct res as [e|m']; [done|]. intros Hw Hf (h & -> & Hh & Hfit) Hm'.
  rewrite commit_writable by (done || by apply Hfit). eexists. split; [done|].
  split_and!; [done | apply saved_writable | done | by apply Hfit | apply saved_persisted].
Qed.

Lemma run_command_mutation (p : PyM world pyexc unit) w res :
  file_writable w = true -> py_fits (w_habits w) = true -> mutates_as w res (p w) ->
  match res with
  | inl e => (p ;;; ret (@None pyval)) w = (w, inl (exc_of e))
  | inr m' => store_fits m' ->
      exists w', (p ;;; ret (@None pyval)) w = (w', inr None) /\ command_done w w' m' None
  end.
Proof.
  intros Hw Hf Hp. apply mutates_as_writable in Hp; [|done|done]. destruct res as [e|m'].
  - by apply bind_err.
  - intros Hm. destruct (Hp Hm) as (w' & Hp' & Hd). exists w'. split; [|done].
    by rewrite (bind_ok _ _ _ _ _ Hp').
Qed.

(** Whatever [save_data] does, a method leaves [habits] standing for
    the abstract result and a writable file writable. *)
Lemma mutates_as_state w m res out :
  abs_store (w_habits w) = Some m -> file_writable w = true -> mutates_as w res out ->
  abs_store (w_habits out.1) = Some (match res with inl _ => m | inr m' => m' end) /\
  file_writable out.1 = true.
Proof.
  intros Habs Hw. destruct res as [e|m']; [by intros ->|].
  intros (h & -> & Hh & _). destruct (commit_state (with_habits w h)) as (-> & _ & Hw').
  split; [done|]. by apply Hw'.
Qed.

Lemma after_command_method c w :
  after_command c w =
    match c with
    | CAdd n d f => (add_habit n d f w).1
    | CMark n => (mark_completed n w).1
    | CView n => (view_progress n w).1
    | CRemove n => (remove_habit n w).1
    | CReset => (reset_progress w).1
    end.
Proof. unfold after_command. destruct c; apply (bind_ret_state _ (fun _ => _)). Qed.

(** A request on a tracker standing for [m], its file writable and its
    ints within the conversion limit, when the new store's counts are
    within it too: the abstract error as the exception, nothing
    changed; or the new store, the file written for a change, the count
    for [view]. *)
Lemma run_command_refines c w m :
  abs_store (w_habits w) = Some m -> file_writable w = true -> py_fits (w_habits w) = true ->
  store_fits (Store.after c m) ->
  match Store.step c m with
  | inl e => run_command c w = (w, inl (exc_of e))
  | inr (m', r) =>
      exists w', run_command c w = (w', inr ((fun n => PInt (Z.of_nat n)) <$> r)) /\
                 command_done w w' m' r
  end.
Proof.
  intros Habs Hw Hf Hfit. unfold Store.after in Hfit.
  destruct c as [n d f|n|n|n|]; cbn [Store.step run_command] in *.
  - pose proof (run_command_mutation _ w _ Hw Hf (add_habit_refines w m n d f Habs)) as Hr.
    destruct (Store.add n d f m); [exact Hr | exact (Hr Hfit)].
  - pose proof (run_command_mutation _ w _ Hw Hf (mark_completed_refines w m n Habs)) as Hr.
    destruct (Store.mark n m); [exact Hr | exact (Hr Hfit)].
  - pose proof (view_progress_refines w m n Habs) as Hv.
    destruct (Store.view n m) as [e|c].
    + by apply bind_err.
    + exists w. split; [by rewrite (bind_ok _ _ _ _ _ Hv) | by split_and!].
  - pose proof (run_command_mutation _ w _ Hw Hf (remove_habit_refines w m n Habs)) as Hr.
    destruct (Store.remove n m); [exact Hr | exact (Hr Hfit)].
  - exact (run_command_mutation _ w _ Hw Hf (reset_progress_refines w m Habs) Hfit).
Qed.

Lemma after_command_refines c w m :
  abs_store (w_habits w) = Some m -> file_writable w = true ->
  abs_store (w_habits (after_command c w)) = Some (Store.after c m) /\
  file_writable (after_command c w) = true.
Proof.
  intros Habs Hw. rewrite after_command_method. unfold Store.after.
  destruct c as [n d f|n|n|n|]; cbn [Store.step].
  - pose proof (mutates_as_state _ _ _ _ Habs Hw (add_habit_refines w m n d f Habs)) as Hs.
    by destruct (Store.add n d f m).
  - pose proof (mutates_as_state _ _ _ _ Habs Hw (mark_completed_refines w m n Habs)) as Hs.
    by destruct (Store.mark n m).
  - rewrite (view_progress_refines w m n Habs). by destruct (Store.view n m).
  - pose proof (mutates_as_state _ _ _ _ Habs Hw (remove_habit_refines w m n Habs)) as Hs.
    by destruct (Store.remove n m).
  - exact (mutates_as_state _ _ _ _ Habs Hw (reset_progress_refines w m Habs)).
Qed.

(** Reopening a file that holds the JSON text of [habits]. *)
Lemma reload_persisted w :
  persisted w -> json_safe (w_habits w) = true -> HabitTracker (w_file w) (w_disk w) = Ready w.
Proof.
  unfold persisted, HabitTracker, load_data. intros -> Hs.
  rewrite json_loads_dumps by done. by destruct w.
Qed.

(** C2: refinement of sessions.  Run any sequence of requests on a
    tracker whose [habits] stands for the abstract store [m] and whose
    file is writable (a hypothesis: on a file [open] refuses, a request
    changes [habits] and then raises, [add_habit_unwritable]), each
    request's exception caught by the caller:
    the tracker's [habits] then stands for [Store.run cs m], the store
    the specification's operations give, errors leaving it unchanged. *)
Theorem run_session_refines cs w m :
  abs_store (w_habits w) = Some m -> file_writable w = true ->
  abs_store (w_habits (run_session cs w)) = Some (Store.run cs m).
Proof.
  revert w m. induction cs as [|c cs IH]; intros w m Habs Hw; [done|].
  destruct (after_command_refines c w m Habs Hw) as [Ha Hw'].
  exact (IH _ _ Ha Hw').
Qed.
End Session.

