(* ===== verification/Laws.v ===== *)
(** * The testable properties of the specification, for the code

    Section 8 of the specification lists laws of the store: [add] then
    [view] gives 0, [n] completions give a count of [n], [view] after
    [remove] fails, [reset] zeroes every count, a second [add] of a
    name fails and changes nothing.  Each is proved here of
    [HabitTracker]'s methods on any tracker standing for an abstract
    store with a writable file and ints within Python's conversion
    limit (the counts it reaches included), through the refinement
    theorems of [Refinement] and the laws of [Spec.Store]. *)

From S2P Require Import Prelude PyDict PyInt PyValue Codec Spec Tracker Refinement.

Local Open Scope pym_scope.

Section Laws.
Context `{!JsonCodec}.

(** [n] calls of [mark_completed(name)], as a test makes them. *)
Fixpoint mark_times (n : nat) (name : pystr) : PyM world pyexc unit :=
  match n with
  | O => ret tt
  | S n' => mark_completed name ;;; mark_times n' name
  end.

(** A method the abstract store lets succeed, on a writable file,
    within the int conversion limit. *)
Lemma mutates_as_ok w m' out :
  file_writable w = true -> py_fits (w_habits w) = true -> store_fits m' -> mutates_as w (inr m') out ->
  exists w', out = (w', inr tt) /\ abs_store (w_habits w') = Some m' /\ file_writable w' = true /\
             py_fits (w_habits w') = true.
Proof.
  intros Hw Hf Hfit Hm. destruct (mutates_as_writable w _ out Hw Hf Hm Hfit) as (w' & -> & Ha & Hw' & _ & Hf' & _).
  eauto.
Qed.

Lemma view_progress_found w m name h :
  abs_store (w_habits w) = Some m -> m !! name = Some h ->
  view_progress name w = (w, inr (PInt (Z.of_nat (h_count h)))).
Proof. intros Habs Hh. rewrite (view_progress_refines w m name Habs). by rewrite (Store.view_lookup name m h Hh). Qed.

Lemma view_progress_missing w m name :
  abs_store (w_habits w) = Some m -> m !! name = None ->
  view_progress name w = (w, inl (ValueError msg_not_found)).
Proof. intros Habs Hh. rewrite (view_progress_refines w m name Habs). by rewrite (Store.view_absent name m Hh). Qed.

(** C26: the counting law.  On a present habit with count [c], when
    [n + c] is below Python's int conversion limit [int_str_bound] ([10 ^ 4300]), [n]
    calls of [mark_completed] all succeed and [view_progress] then
    returns [n + c]; in particular [n] from a fresh habit. *)
Theorem mark_times_count n w m name h :
  abs_store (w_habits w) = Some m -> file_writable w = true -> py_fits (w_habits w) = true ->
  m !! name = Some h -> Z.of_nat (n + h_count h) < int_str_bound ->
  exists w', mark_times n name w = (w', inr tt) /\
             view_progress name w' = (w', inr (PInt (Z.of_nat (n + h_count h)))).
Proof.
  revert w m h. induction n as [|n IH]; intros w m h Habs Hw Hf Hh Hn.
  - exists w. split; [done|]. by apply (view_progress_found w m).
  - pose proof (mark_completed_refines w m name Habs) as Hm. unfold Store.mark in Hm. rewrite Hh in Hm.
    assert (Hfit : store_fits (<[name := Store.bump h]> m)).
    { apply store_fits_insert; [exact (abs_store_fits _ _ Habs Hf) | simpl; lia]. }
    destruct (mutates_as_ok w _ _ Hw Hf Hfit Hm) as (w1 & Hw1 & Habs1 & Hwr1 & Hf1).
    destruct (IH w1 _ (Store.bump h) Habs1 Hwr1 Hf1) as (w' & Hrun & Hview);
      [by rewrite lookup_insert_eq | simpl; lia |].
    exists w'. cbn [mark_times]. rewrite (bind_ok _ _ _ _ _ Hw1). split; [done|].
    rewrite Hview. cbn [h_count Store.bump]. by rewrite Nat.add_succ_r.
Qed.

(** C27: [add_habit] of a new name succeeds, the stored record has
    the given description and frequency and a count of 0, and
    [view_progress] then returns 0. *)
Theorem add_then_view w m name ds fq :
  abs_store (w_habits w) = Some m -> file_writable w = true -> py_fits (w_habits w) = true ->
  m !! name = None ->
  exists w' m', add_habit name ds fq w = (w', inr tt) /\ abs_store (w_habits w') = Some m' /\
                m' !! name = Some (mk_habit ds fq 0) /\ view_progress name w' = (w', inr (PInt 0)).
Proof.
  intros Habs Hw Hf Hn. pose proof (add_habit_refines w m name ds fq Habs) as Ha.
  unfold Store.add in Ha. rewrite Hn in Ha.
  assert (Hfit : store_fits (<[name := mk_habit ds fq 0]> m)).
  { apply store_fits_zero_count; [exact (abs_store_fits _ _ Habs Hf) | done]. }
  destruct (mutates_as_ok w _ _ Hw Hf Hfit Ha) as (w' & Hadd & Habs' & _).
  exists w', (<[name := mk_habit ds fq 0]> m). split_and!; [done | done | by rewrite lookup_insert_eq |].
  apply (view_progress_found w' _ _ (mk_habit ds fq 0) Habs'). by rewrite lookup_insert_eq.
Qed.

(** C28: [remove_habit] of a present name succeeds, and
    [view_progress] of the name then raises ["Habit not found"]. *)
Theorem remove_then_view w m name :
  abs_store (w_habits w) = Some m -> file_writable w = true -> py_fits (w_habits w) = true ->
  is_Some (m !! name) ->
  exists w', remove_habit name w = (w', inr tt) /\
             view_progress name w' = (w', inl (ValueError msg_not_found)).
Proof.
  intros Habs Hw Hf [h Hh]. pose proof (remove_habit_refines w m name Habs) as Hr.
  unfold Store.remove in Hr. rewrite Hh in Hr.
  assert (Hfit : store_fits (delete name m)) by (apply map_Forall_delete, (abs_store_fits _ _ Habs Hf)).
  destruct (mutates_as_ok w _ _ Hw Hf Hfit Hr) as (w' & Hrem & Habs' & _).
  exists w'. split; [done|]. apply (view_progress_missing w' _ _ Habs'). by rewrite lookup_delete_eq.
Qed.

(** C29: [reset_progress] succeeds with one save, and every habit's
    [view_progress] then returns 0, whatever its count was. *)
Theorem reset_then_view w m :
  abs_store (w_habits w) = Some m -> file_writable w = true -> py_fits (w_habits w) = true ->
  exists w', reset_progress w = (w', inr tt) /\
             forall name, is_Some (m !! name) -> view_progress name w' = (w', inr (PInt 0)).
Proof.
  intros Habs Hw Hf. pose proof (reset_progress_refines w m Habs) as Hr.
  assert (Hfit : store_fits (Store.reset m)) by apply store_fits_reset.
  destruct (mutates_as_ok w _ _ Hw Hf Hfit Hr) as (w' & Hres & Habs' & _).
  exists w'. split; [done|]. intros name [h Hh].
  apply (view_progress_found w' _ _ (Store.zero h) Habs'). by rewrite Store.reset_lookup, Hh.
Qed.

(** C30: [add_habit] of a name already present raises ["Habit
    already exists"] and leaves the tracker, its record and its file
    as they were. *)
Theorem add_existing_rejected w m name ds fq :
  abs_store (w_habits w) = Some m -> is_Some (m !! name) ->
  add_habit name ds fq w = (w, inl (ValueError msg_exists)).
Proof.
  intros Habs Hn. pose proof (add_habit_refines w m name ds fq Habs) as Ha.
  by rewrite (Store.add_present name ds fq m Hn) in Ha.
Qed.
End Laws.
