(* ===== verification/Persistence.v ===== *)
(** * Saving and reopening with Python's [json] module

    With the codec [python_json], the values [roundtrip_safe] are read
    back as written.  This file shows that every method keeps [habits]
    in that set when the strings given to [add_habit] are in it
    ([after_command_safe]), defines the trackers a session can reach
    from [HabitTracker(filename)] ([reachable]), and proves by rule
    induction that every reachable tracker stands for an abstract store
    and, once it has saved, is what reopening its file gives back. *)

From S2P Require Import Prelude PyDict PyInt PyValue Codec Spec Tracker Json JsonParse JsonRoundtrip Refinement.

(** The strings a request stores must be safe for the codec. *)
Definition command_safe (c : command) : bool :=
  match c with
  | CAdd n d f => str_safe n && str_safe d && str_safe f
  | CMark _ | CView _ | CRemove _ | CReset => true
  end.

(** The trackers a session reaches from [HabitTracker(f)] on the disk
    [dk]: requests whose exceptions are caught, one after the other. *)
Inductive reachable (f : pystr) (dk : gmap pystr fentry) : world -> Prop :=
| reach_init w : HabitTracker f dk = Ready w -> reachable f dk w
| reach_step c w : command_safe c = true -> reachable f dk w -> reachable f dk (after_command c w).

(** ** Safe values *)

Lemma text_safe_dict d :
  text_safe (PDict d) = true <->
  dict_wf d /\ Forall (fun kv => str_safe kv.1 = true /\ text_safe kv.2 = true) d.
Proof.
  cbn [text_safe]. rewrite andb_true_iff, bool_decide_eq_true, forallb_forall, Forall_forall.
  unfold dict_wf. setoid_rewrite list_elem_of_In.
  split; intros [Hnd H]; (split; [done|]); intros x Hx; specialize (H x Hx);
    [by apply andb_prop in H | by apply andb_true_intro].
Qed.

Lemma text_safe_set_count rr z :
  text_safe (PDict rr) = true -> text_safe (PDict (dict_set k_count (PInt z) rr)) = true.
Proof.
  intros [Hwf Hf]%text_safe_dict. apply text_safe_dict.
  split; [by apply dict_set_wf | by apply dict_set_Forall].
Qed.

Lemma text_safe_reset r : text_safe r = true -> text_safe (reset_record r) = true.
Proof. destruct r as [| | | | |rr]; try done. apply text_safe_set_count. Qed.

Lemma text_safe_new ds fq :
  str_safe ds = true -> str_safe fq = true -> text_safe (new_record ds fq) = true.
Proof.
  intros Hd Hf. apply text_safe_dict. split.
  - unfold dict_wf, dict_keys. cbn. repeat constructor; set_solver.
  - repeat constructor; done.
Qed.

Lemma text_safe_get d k v :
  text_safe (PDict d) = true -> dict_get k d = Some v -> text_safe v = true.
Proof.
  intros [_ Hf]%text_safe_dict Hv%dict_get_Some_elem.
  by apply (proj1 (Forall_forall _ _) Hf) in Hv as [_ ?].
Qed.

(** ** What a request leaves in [habits] *)

(** Every request keeps the strings and dicts of [habits] safe for the
    codec. *)
Lemma after_command_safe c w m :
  abs_store (w_habits w) = Some m -> text_safe (w_habits w) = true -> command_safe c = true ->
  text_safe (w_habits (after_command c w)) = true.
Proof.
  intros Habs Hs Hc. pose proof Habs as (d & Hh & Hwf & Hm)%abs_store_dict.
  rewrite Hh in Hs. rewrite after_command_method.
  destruct c as [n ds fq|n|n|n|]; simpl in Hc.
  - destruct (m !! n) as [h|] eqn:Hn.
    + destruct (dict_abs_lookup_Some d m n h Hm Hn) as (r & Hr & _).
      rewrite (add_habit_present w d) by eauto. simpl; by rewrite Hh.
    + pose proof (dict_abs_lookup_None d m n Hm Hn) as Hd.
      rewrite (add_habit_absent w d), save_data_commit, commit_habits by done. simpl.
      rewrite <- dict_set_absent by (by apply dict_get_None).
      apply andb_prop in Hc as [[Hn' Hds]%andb_prop Hfq].
      apply text_safe_dict in Hs as [Hwf' Hf]. apply text_safe_dict.
      split; [by apply dict_set_wf|]. apply dict_set_Forall; [done|].
      split; [done | by apply text_safe_new].
  - destruct (m !! n) as [h|] eqn:Hn.
    + destruct (dict_abs_lookup_Some d m n h Hm Hn) as (r & Hr & Hrh).
      destruct (habit_of_Some r h Hrh) as (rr & -> & _ & _ & Hcnt).
      rewrite (mark_completed_mutation w d n rr _ Hh Hr Hcnt), save_data_commit, commit_habits. simpl.
      apply text_safe_dict in Hs as Hs'. destruct Hs' as [Hwf' Hf]. apply text_safe_dict.
      split; [by apply dict_set_wf|]. apply dict_set_Forall; [done|]. split.
      * apply dict_get_Some_elem, (proj1 (Forall_forall _ _) Hf) in Hr as [? _]. done.
      * apply text_safe_set_count. by apply (text_safe_get d n).
    + rewrite (proj1 (absent_name_guards w d n Hh (dict_abs_lookup_None d m n Hm Hn))). simpl; by rewrite Hh.
  - destruct (Store.view n m) eqn:Hv;
      rewrite (view_progress_refines w m n Habs); simpl; by rewrite Hh.
  - destruct (m !! n) as [h|] eqn:Hn.
    + destruct (dict_abs_lookup_Some d m n h Hm Hn) as (r & Hr & _).
      rewrite (remove_habit_present w d), save_data_commit, commit_habits by eauto. simpl.
      apply text_safe_dict in Hs as [Hwf' Hf]. apply text_safe_dict.
      split; [by apply dict_del_wf | ]. apply Forall_forall. intros x [_ Hx]%list_elem_of_filter. by apply (proj1 (Forall_forall _ _) Hf).
    + rewrite (proj2 (proj2 (absent_name_guards w d n Hh (dict_abs_lookup_None d m n Hm Hn)))).
      simpl; by rewrite Hh.
  - rewrite (reset_progress_records w d Hh Hwf), save_data_commit, commit_habits
      by (by eapply dict_abs_records). simpl.
    apply text_safe_dict in Hs as [Hwf' Hf]. apply text_safe_dict.
    split; [by apply dict_map_values_wf|]. unfold dict_map_values. apply Forall_fmap.
    eapply Forall_impl; [exact Hf|]. intros [k v] [Hk Hv]. split; [done|]. by apply text_safe_reset.
Qed.

(** ** The invariant of a session *)

(** The file is either still missing, with [habits] the empty dict
    [__init__] made, or holds the JSON text of [habits]. *)
Definition file_synced (f : pystr) (w : world) : Prop :=
  (w_disk w !! f = None /\ w_habits w = PDict []) \/ persisted w.

(** The file is behind [habits] only after a save that [json.dump] cut
    short, which leaves an int beyond the conversion limit in [habits]. *)
Definition session_inv (f : pystr) (w : world) : Prop :=
  (exists m, abs_store (w_habits w) = Some m) /\ text_safe (w_habits w) = true /\
  file_writable w = true /\ w_file w = f /\ (py_fits (w_habits w) = true -> file_synced f w).

Lemma session_inv_init f dk w : dk !! f = None -> HabitTracker f dk = Ready w -> session_inv f w.
Proof.
  unfold HabitTracker, load_data. intros Hf. rewrite Hf. intros [=<-].
  unfold session_inv, file_synced, file_writable. simpl. rewrite Hf. split_and!; eauto.
Qed.

(** A method leaves the tracker as it was, or has called [save_data],
    which wrote the whole of [habits] when they are within the limit. *)
Lemma mutates_as_synced w res out :
  file_writable w = true -> mutates_as w res out ->
  out.1 = w \/ (w_file out.1 = w_file w /\ (py_fits (w_habits out.1) = true -> persisted out.1)).
Proof.
  intros Hw. destruct res as [e|m']; [intros ->; by left|]. intros (h & -> & _). right.
  destruct (commit_state (with_habits w h)) as (Hh & Hfile & _). split; [done|].
  rewrite Hh. simpl. intros Hf. rewrite commit_fits by done. rewrite file_writable_with_habits, Hw. apply saved_persisted.
Qed.

(** A request leaves the tracker as it was, or ends with [save_data]. *)
Lemma after_command_cases c w m :
  abs_store (w_habits w) = Some m -> file_writable w = true ->
  after_command c w = w \/
  (w_file (after_command c w) = w_file w /\
   (py_fits (w_habits (after_command c w)) = true -> persisted (after_command c w))).
Proof.
  intros Habs Hw. rewrite after_command_method. destruct c as [n d f|n|n|n|].
  - exact (mutates_as_synced w _ _ Hw (add_habit_refines w m n d f Habs)).
  - exact (mutates_as_synced w _ _ Hw (mark_completed_refines w m n Habs)).
  - left. by rewrite (view_progress_refines w m n Habs).
  - exact (mutates_as_synced w _ _ Hw (remove_habit_refines w m n Habs)).
  - exact (mutates_as_synced w _ _ Hw (reset_progress_refines w m Habs)).
Qed.

Lemma session_inv_step f c w :
  command_safe c = true -> session_inv f w -> session_inv f (after_command c w).
Proof.
  intros Hc ((m & Habs) & Hs & Hw & Hf & Hsync).
  destruct (after_command_refines c w m Habs Hw) as [Habs' Hw'].
  destruct (after_command_cases c w m Habs Hw) as [Heq|[Hfile Hp]]; [by rewrite Heq; split_and!; eauto|].
  split_and!; [eauto | by eapply after_command_safe | done | congruence |].
  intros Hfit. right. by apply Hp.
Qed.

Lemma reachable_session_inv f dk w : dk !! f = None -> reachable f dk w -> session_inv f w.
Proof.
  intros Hf. induction 1 as [w Hinit|c w Hc _ IH].
  - by apply (session_inv_init f dk).
  - by apply session_inv_step.
Qed.

(** ** Claims *)

(** C6: at every point of a session started on a missing file, with
    the strings given to [add_habit] safe for the codec, while the ints
    of [habits] are within Python's conversion limit, reopening the file
    with [HabitTracker(filename)] gives back exactly the tracker in
    memory: the file is never behind [habits]. *)
Theorem reopen_reachable f dk w :
  dk !! f = None -> reachable f dk w -> py_fits (w_habits w) = true ->
  HabitTracker f (w_disk w) = Ready w.
Proof.
  intros Hf Hr Hfit. destruct (reachable_session_inv f dk w Hf Hr) as (_ & Hs & _ & Hfile & Hsync).
  destruct (Hsync Hfit) as [[Hnone Hh] | Hp].
  - unfold HabitTracker, load_data. rewrite Hnone. destruct w; simpl in *. by subst.
  - rewrite <- Hfile. apply reload_persisted; [done|]. simpl. by rewrite roundtrip_safe_text, Hs, Hfit.
Qed.

(** C7: save then load.  When [save_data] succeeds on a tracker whose
    [habits] is safe for the codec, [HabitTracker] on the same file
    and the disk [save_data] left gives back the saved tracker: names,
    descriptions, frequencies and counts are all read back as written. *)
Theorem save_then_load w :
  roundtrip_safe (w_habits w) = true -> file_writable w = true ->
  exists w', save_data w = (w', inr tt) /\ HabitTracker (w_file w) (w_disk w') = Ready w'.
Proof.
  intros Hs Hw. exists (saved w). split.
  - apply save_data_ok; [done|]. rewrite roundtrip_safe_text in Hs. by apply andb_prop in Hs as [_ ?].
  - apply (reload_persisted (saved w)); [apply saved_persisted | done].
Qed.
