(* ===== verification/Safety.v ===== *)
(** * What the methods do to the disk, and the type of [habits]

    Two properties that hold of every tracker, well formed or not.
    Safety of the disk ([methods_disk_safety]): a method that raises has
    written no file, and a method that returns has written exactly its
    [habits] into its own file and touched no other; [view_progress]
    changes nothing.  The proof reads every method as a prefix that only
    changes [habits] ([method_outcome]), whatever the dynamic checks of
    the prefix give, followed by [save_data].  Type preservation
    ([after_command_typed]): on a tracker whose [habits] stands for an
    abstract store, every request, even one whose [save_data] raises,
    leaves [habits] standing for an abstract store: a dict of records
    with string fields and a non-negative integer count. *)

From S2P Require Import Prelude PyDict PyValue Codec Spec Tracker Refinement Persistence.

Local Open Scope pym_scope.

Section Safety.
Context `{!JsonCodec}.

(** How a mutating method ends: an exception after changing at most
    [habits], or the outcome of [save_data] on the changed [habits]. *)
Inductive method_outcome (w : world) : world * (pyexc + unit) -> Prop :=
| mo_raise h e : method_outcome w (with_habits w h, inl e)
| mo_commit h : method_outcome w (commit (with_habits w h)).

Lemma mo_same w e : method_outcome w (w, inl e).
Proof. rewrite <- (with_habits_id w) at 2. constructor. Qed.

Lemma mo_save w h : method_outcome w (save_data (with_habits w h)).
Proof. rewrite save_data_commit. constructor. Qed.

(** Split on every dynamic check of a method: the results of the
    [lift]ed Python operations and the tests of [if]. *)
Ltac run_checks :=
  repeat (pym_run;
          first [ match goal with |- context [bind (lift ?e) _ _] => destruct e end
                | match goal with |- context [if ?b then _ else _] => destruct b end ]).

Ltac finish_outcome :=
  first [ apply mo_same | apply mo_save | (eexists; by rewrite with_habits_id)
        | (eexists; reflexivity) ].

Lemma add_habit_outcome name ds fq w : method_outcome w (add_habit name ds fq w).
Proof. unfold add_habit. run_checks; finish_outcome. Qed.

Lemma mark_completed_outcome name w : method_outcome w (mark_completed name w).
Proof. unfold mark_completed. run_checks; finish_outcome. Qed.

Lemma remove_habit_outcome name w : method_outcome w (remove_habit name w).
Proof. unfold remove_habit. run_checks; finish_outcome. Qed.

Lemma reset_one_habits habit w : exists h, (reset_one habit w).1 = with_habits w h.
Proof. unfold reset_one. run_checks; finish_outcome. Qed.

Lemma reset_loop_habits n count w : exists h, (reset_loop n count w).1 = with_habits w h.
Proof.
  revert n w. induction count as [|count IH]; intros n w; cbn [reset_loop].
  - exists (w_habits w). by rewrite with_habits_id.
  - rewrite bind_get. destruct (py_iter_nth (w_habits w) n) as [habit|].
    + unfold bind at 1. destruct (reset_one_habits habit w) as [h1 Hh1].
      destruct (reset_one habit w) as [w1 [e|[]]]; simpl in Hh1; subst w1; [by eexists|].
      destruct (IH (S n) (with_habits w h1)) as [h2 ->]. by eexists.
    + exists (w_habits w). by rewrite with_habits_id.
Qed.

Lemma reset_progress_outcome w : method_outcome w (reset_progress w).
Proof.
  unfold reset_progress. pym_run. destruct (py_iter_len (w_habits w)) as [e|len]; pym_run.
  - apply mo_same.
  - unfold bind. destruct (reset_loop_habits 0 len w) as [h Hh].
    destruct (reset_loop 0 len w) as [w1 [e|[]]]; simpl in Hh; subst w1; [constructor | apply mo_save].
Qed.

Lemma view_progress_state name w : (view_progress name w).1 = w.
Proof. unfold view_progress. run_checks; reflexivity. Qed.

(** What a method may have done to the disk: nothing, or the text
    [json.dump] wrote before it raised, when it raised; the whole text
    of [habits] in the tracker's own file when it returned. *)
Definition disk_effect (w : world) (o : world * (pyexc + unit)) : Prop :=
  w_file o.1 = w_file w /\
  match o.2 with
  | inl e => w_disk o.1 = w_disk w \/
             exists t, json_dump_io (w_habits o.1) = DumpRaised t e /\
                       w_disk o.1 = <[w_file w := FText t]> (w_disk w)
  | inr _ => w_disk o.1 = <[w_file w := FText (json_dumps (w_habits o.1))]> (w_disk w)
  end.

Lemma method_outcome_disk w o : method_outcome w o -> disk_effect w o.
Proof.
  destruct 1 as [h e|h]; [by split; [|left]|]. unfold commit, disk_effect.
  destruct (file_writable (with_habits w h)); [|by split; [|left]].
  destruct (json_dump_io (with_habits w h).(w_habits)) as [t|t e] eqn:Hd; simpl in *.
  - split; [done|]. by rewrite <- (json_dump_complete _ _ Hd).
  - split; [done|]. right. by exists t.
Qed.

(** C3: safety of the disk.  On any tracker, well formed or not,
    [add_habit], [mark_completed], [remove_habit] and [reset_progress]
    either raise with no file written, or raise the exception of
    [json.dump] with the tracker's own file holding what it wrote
    before, or return with exactly [habits] written into the tracker's
    own file; every other file is untouched, and [view_progress]
    changes nothing. *)
Theorem methods_disk_safety w name ds fq :
  disk_effect w (add_habit name ds fq w) /\ disk_effect w (mark_completed name w) /\
  disk_effect w (remove_habit name w) /\ disk_effect w (reset_progress w) /\
  (view_progress name w).1 = w.
Proof.
  split_and!; try apply method_outcome_disk.
  - apply add_habit_outcome.
  - apply mark_completed_outcome.
  - apply remove_habit_outcome.
  - apply reset_progress_outcome.
  - apply view_progress_state.
Qed.

(** ** The one-record methods change [habits] only to save it *)

(** How [add_habit], [mark_completed] and [remove_habit] end: an
    exception with the tracker as it was, or [save_data] on the
    changed [habits]. *)
Inductive atomic_outcome (w : world) : world * (pyexc + unit) -> Prop :=
| ao_raise e : atomic_outcome w (w, inl e)
| ao_commit h : atomic_outcome w (commit (with_habits w h)).

Lemma ao_save w h : atomic_outcome w (save_data (with_habits w h)).
Proof. rewrite save_data_commit. constructor. Qed.

(** C4: the one-record methods fail atomically.  On any tracker, an
    exception [add_habit], [mark_completed] or [remove_habit] raises
    before [save_data] (the membership guard, a type error on loaded
    data, a record without ["completion_count"]) leaves the tracker,
    [habits] and disk, as it was: [habits] changes only together with a
    call of [save_data], which may then fail in its turn
    ([add_habit_unwritable]).  [reset_progress], which changes record
    after record, has no such property ([reset_progress_partial]). *)
Theorem methods_atomic w name ds fq :
  atomic_outcome w (add_habit name ds fq w) /\ atomic_outcome w (mark_completed name w) /\
  atomic_outcome w (remove_habit name w).
Proof.
  split_and!; [unfold add_habit | unfold mark_completed | unfold remove_habit]; run_checks;
    first [apply ao_raise | apply ao_save].
Qed.

(** ** Type preservation *)

Lemma mutates_as_typed w m res out :
  abs_store (w_habits w) = Some m -> mutates_as w res out ->
  exists m', abs_store (w_habits out.1) = Some m'.
Proof.
  intros Habs. destruct res as [e|m']; [intros ->; by exists m|].
  intros (h & -> & Hh & _). exists m'. by rewrite commit_habits.
Qed.

(** C5: type preservation.  A request on a tracker whose [habits]
    stands for an abstract store leaves [habits] standing for one (a
    dict without repeated keys of records with a string description,
    a string frequency and a count that is a non-negative integer),
    whether it succeeds, is refused, or fails to write its file. *)
Theorem after_command_typed c w m :
  abs_store (w_habits w) = Some m -> exists m', abs_store (w_habits (after_command c w)) = Some m'.
Proof.
  intros Habs. rewrite after_command_method. destruct c as [n d f|n|n|n|].
  - exact (mutates_as_typed _ _ _ _ Habs (add_habit_refines w m n d f Habs)).
  - exact (mutates_as_typed _ _ _ _ Habs (mark_completed_refines w m n Habs)).
  - exists m. by rewrite view_progress_state.
  - exact (mutates_as_typed _ _ _ _ Habs (remove_habit_refines w m n Habs)).
  - exact (mutates_as_typed _ _ _ _ Habs (reset_progress_refines w m Habs)).
Qed.
End Safety.
