(* ===== verification/IntLimit.v ===== *)
(** * Python's int conversion limit in [save_data]

    With Python's [json] module ([python_json]), [save_data] on a
    writable file either writes the whole text of [habits], when every
    int in it has at most 4300 digits, or raises the [ValueError] of
    [int.__repr__] after writing a proper prefix of that text:
    [open(filename, 'w')] has already emptied the file and [json.dump]
    has written its chunks up to the int ([save_data_int_limit]).
    [mark_completed] on a count of 4300 nines therefore raises with the
    new count in [habits] and the file cut short
    ([mark_completed_overflow]); [json.load] reads such a file as a
    [JSONDecodeError] ([json_loads_cut]), so the next [HabitTracker()]
    starts from an empty store ([mark_completed_overflow_empties]).  The
    same holds of every request that raises after writing, in every
    tracker a session reaches ([request_cut_empties]). *)

From S2P Require Import Prelude PyDict PyInt PyValue Codec Spec Tracker Json JsonParse JsonRoundtrip JsonPrefix.
From S2P Require Import Refinement Persistence Safety.

Local Open Scope pym_scope.

(** [habits] after [mark_completed(name)] raised the count to [z]. *)
Definition counted (d : list (pystr * pyval)) (name : pystr) (r : list (pystr * pyval)) (z : Z) : pyval :=
  PDict (dict_set name (PDict (dict_set k_count (PInt z) r)) d).

Lemma counted_fits d name r z : py_fits (counted d name r z) = true -> int_fits z = true.
Proof.
  intros Hf. pose proof (py_fits_dict_get _ name _ Hf (dict_get_set_eq _ _ _)) as Hr.
  exact (py_fits_dict_get _ k_count _ Hr (dict_get_set_eq _ _ _)).
Qed.

(** C16: [save_data] and the int conversion limit.  On a writable
    file, [save_data] returns after writing the whole text of [habits]
    exactly when every int of [habits] has at most 4300 digits;
    otherwise it raises [ValueError] with the file holding a proper
    prefix of that text. *)
Theorem save_data_int_limit w :
  file_writable w = true ->
  match save_data w with
  | (w', inr _) => py_fits (w_habits w) = true /\ w' = saved w
  | (w', inl e) => py_fits (w_habits w) = false /\ e = ValueError msg_int_to_str /\
                   exists p q, q <> [] /\ json_dump (w_habits w) = p ++ q /\ w' = written w p
  end.
Proof.
  intros Hw. rewrite save_data_commit. unfold commit. rewrite Hw. cbn [json_dump_io python_json].
  pose proof (dump_io_spec (w_habits w) 0) as Hs. unfold json_dump_stream.
  destruct (dump_io 0 (w_habits w)) as [t|p e]; simpl in Hs.
  - by destruct Hs as [-> ->].
  - destruct Hs as (-> & -> & q & Hq & Heq). split_and!; [done..|]. by exists p, q.
Qed.

(** C17: the count overflow.  [mark_completed(name)] on a record whose
    count [n] makes [n + 1] longer than 4300 digits, with a writable
    file, raises [ValueError] after [habits] holds [n + 1] and after
    [open(filename, 'w')] and [json.dump] have replaced the file by a
    proper prefix of the new text: the call fails with memory changed
    and the file cut short. *)
Theorem mark_completed_overflow w d name r n :
  w_habits w = PDict d -> dict_get name d = Some (PDict r) -> dict_get k_count r = Some (PInt n) ->
  file_writable w = true -> int_fits (n + 1) = false ->
  exists p q, q <> [] /\ json_dump (counted d name r (n + 1)) = p ++ q /\
    mark_completed name w =
      (written (with_habits w (counted d name r (n + 1))) p, inl (ValueError msg_int_to_str)).
Proof.
  intros Hh Hr Hc Hw Hn. rewrite (mark_completed_mutation w d name r n Hh Hr Hc).
  pose proof (save_data_int_limit (with_habits w (counted d name r (n + 1))) Hw) as Hs.
  unfold counted in *. destruct (save_data _) as [w' [e|[]]].
  - destruct Hs as (_ & -> & p & q & Hq & Hd & ->). eauto.
  - destruct Hs as [Hf _]. apply counted_fits in Hf. congruence.
Qed.

(** ** What the next start reads after a save cut short *)

(** A request raised: the method raised, in the same state. *)
Lemma seq_ret_raised (p : PyM world pyexc unit) (a : option pyval) w e :
  ((p ;;; ret a) w).2 = inl e -> p w = (((p ;;; ret a) w).1, inl e).
Proof. unfold bind, ret. destruct (p w) as [w1 [e1|[]]]; simpl; congruence. Qed.

(** A request that raised wrote no file, or what [json.dump] wrote
    before raising. *)
Lemma run_command_disk c w e :
  (run_command c w).2 = inl e -> disk_effect w ((run_command c w).1, inl e).
Proof.
  intros He. destruct c as [n d f|n|n|n|]; cbn [run_command] in *;
    try (rewrite <- (seq_ret_raised _ _ _ _ He); apply method_outcome_disk;
         first [apply add_habit_outcome | apply mark_completed_outcome
               | apply remove_habit_outcome | apply reset_progress_outcome]).
  unfold bind in *. pose proof (view_progress_state n w) as Hv.
  destruct (view_progress n w) as [w1 [e1|v]]; simpl in *; [|discriminate]. subst. split; [done|by left].
Qed.

(** [HabitTracker(filename)] on a file holding what [json.dump] wrote
    before raising, for [habits] whose strings and dicts the reader
    reads back: the [JSONDecodeError] gives an empty store. *)
Lemma reload_cut f dk t e v :
  text_safe v = true -> json_dump_stream v = DumpRaised t e ->
  HabitTracker f (<[f := FText t]> dk) = Ready (mk_world f (PDict []) (<[f := FText t]> dk)).
Proof.
  intros Hs Hd. unfold HabitTracker, load_data. rewrite lookup_insert_eq. cbn [json_loads python_json].
  by rewrite (json_loads_cut v t e Hs Hd).
Qed.

(** A failed request loses the whole store.  In every tracker a
    session reaches from a missing file with safe requests, a request
    that raises after writing the file ([json.dump] cut short by an int
    beyond the conversion limit) leaves a file that the next
    [HabitTracker(filename)] reads as an empty store: every habit is
    lost, not only the one the request changed. *)
Lemma request_cut_empties f dk w c e :
  dk !! f = None -> reachable f dk w -> command_safe c = true ->
  (run_command c w).2 = inl e -> w_disk (after_command c w) <> w_disk w ->
  HabitTracker f (w_disk (after_command c w)) = Ready (mk_world f (PDict []) (w_disk (after_command c w))).
Proof.
  intros Hf Hr Hc He Hch. destruct (reachable_session_inv f dk w Hf Hr) as ([m Habs] & Hs & _ & Hfile & _).
  pose proof (after_command_safe c w m Habs Hs Hc) as Hs'. unfold after_command in *.
  destruct (run_command_disk c w e He) as [_ [Hsame | (t & Hd & Hdisk)]]; cbn [fst snd] in *; [done|].
  rewrite Hdisk, Hfile. exact (reload_cut f (w_disk w) t e _ Hs' Hd).
Qed.

(** [save_data] on [habits] with an int beyond the limit: it raises
    the [ValueError] of [int.__repr__], and the next [HabitTracker]
    reads the file it left as an empty store. *)
Lemma save_data_cut w :
  file_writable w = true -> text_safe (w_habits w) = true -> py_fits (w_habits w) = false ->
  exists t, save_data w = (written w t, inl (ValueError msg_int_to_str)) /\
    HabitTracker (w_file w) (w_disk (written w t)) = Ready (mk_world (w_file w) (PDict []) (w_disk (written w t))).
Proof.
  intros Hw Hs Hf. rewrite save_data_commit. unfold commit. rewrite Hw. cbn [json_dump_io python_json].
  pose proof (dump_io_spec (w_habits w) 0) as Hspec. unfold json_dump_stream.
  destruct (dump_io 0 (w_habits w)) as [t|t e] eqn:Hd; simpl in Hspec; [destruct Hspec as [Hf' _]; congruence|].
  destruct Hspec as (_ & -> & _). exists t. split; [done|]. exact (reload_cut (w_file w) (w_disk w) t _ _ Hs Hd).
Qed.

Lemma text_safe_counted d name r z :
  text_safe (PDict d) = true -> dict_get name d = Some (PDict r) -> text_safe (counted d name r z) = true.
Proof.
  intros Hs Hr. pose proof (text_safe_set_count r z (text_safe_get d name _ Hs Hr)) as Hr'.
  apply text_safe_dict in Hs as [Hwf Hf]. apply text_safe_dict.
  split; [by apply dict_set_wf|]. apply dict_set_Forall; [done|]. split; [|done].
  apply dict_get_Some_elem, (proj1 (Forall_forall _ _) Hf) in Hr as [Hn _]. done.
Qed.

Lemma counted_not_fits d name r z : int_fits z = false -> py_fits (counted d name r z) = false.
Proof. intros Hz. destruct (py_fits _) eqn:Hf; [|done]. apply counted_fits in Hf. congruence. Qed.

(** C18: the count overflow loses the store.  [mark_completed(name)] on
    a count [n] whose successor has more than 4300 digits, with a
    writable file and [habits] whose strings and dicts [json] reads
    back, raises [ValueError] with [n + 1] in memory, and the next
    [HabitTracker(filename)] reads the file it left as an empty store:
    every habit is lost, not only the one completed. *)
Theorem mark_completed_overflow_empties w d name r n :
  w_habits w = PDict d -> dict_get name d = Some (PDict r) -> dict_get k_count r = Some (PInt n) ->
  file_writable w = true -> text_safe (PDict d) = true -> int_fits (n + 1) = false ->
  exists w', mark_completed name w = (w', inl (ValueError msg_int_to_str)) /\
    w_habits w' = counted d name r (n + 1) /\
    HabitTracker (w_file w) (w_disk w') = Ready (mk_world (w_file w) (PDict []) (w_disk w')).
Proof.
  intros Hh Hr Hc Hw Hs Hn. rewrite (mark_completed_mutation w d name r n Hh Hr Hc). fold (counted d name r (n + 1)).
  destruct (save_data_cut (with_habits w (counted d name r (n + 1)))) as (t & Hsave & Hload);
    [done | by apply text_safe_counted | by apply counted_not_fits |].
  eexists. split_and!; [exact Hsave | done | exact Hload].
Qed.
