(* ===== verification/Cli.v ===== *)
(** * The menu loop [main()] (src/habit_tracker.py, lines 53-102)

    [main] builds [HabitTracker()] on ["habits.json"], then repeats the
    body of [while True:]: the menu is printed, a choice is read, and
    the choice's method is called on the tracker.  The state of the
    loop is [cli]: the tracker, the lines [input()] has still to read,
    and the texts written to standard output, prompts included; choice
    ["3"] formats the progress with [py_format] ([str()]), which raises
    on an int beyond the conversion limit, but never in a state the
    loop reaches ([loop_view_prints]).  Nothing in [main] catches an
    exception: one raised by a method or by [input()] ([EOFError] when
    the input is exhausted) ends [main].  The loop is a [Fixpoint] on
    fuel; every pass reads a line, so [S (length input)] passes are
    always enough ([main_loop_enough]). *)

From S2P Require Import Prelude PyDict PyInt PyValue Codec Spec Tracker Json PyFormat Refinement Persistence Safety.

Record cli : Type := mk_cli {
  c_world : world;           (** [tracker] *)
  c_input : list pystr;      (** the lines [input()] has still to read *)
  c_output : list pystr     (** what has been written to stdout *)
}.

Definition with_world (s : cli) (w : world) : cli := mk_cli w (c_input s) (c_output s).

(** How the loop ends: [break], or the fuel is spent (never, with the
    fuel [main] gives). *)
Inductive loop_end : Type := LoopBreak | LoopFuel.

Inductive main_outcome : Type :=
| MainExit (s : cli)                  (** [main()] returns *)
| MainRaised (s : cli) (e : pyexc)    (** an exception escapes [main()] *)
| MainInit (e : pyexc)                (** [HabitTracker()] raises *)
| MainFloat                           (** ["habits.json"] holds a float *)
| MainFuel (s : cli).

(** [HabitTracker()]'s default [filename]. *)
Definition default_file : pystr := str "habits.json".

Definition t (s : string) : pystr := str s.

Local Open Scope pym_scope.

(** [print(...)] writes its text and a newline. *)
Definition print (cs : list pystr) : PyM cli pyexc unit :=
  modify (fun s => mk_cli (c_world s) (c_input s) (c_output s ++ cs ++ [[10]])).

(** [input(prompt)]: the prompt is written, then a line is read, or
    [EOFError] is raised when there is none left. *)
Definition input (prompt : pystr) : PyM cli pyexc pystr :=
  s <- get ;;
  match c_input s with
  | [] => put (mk_cli (c_world s) [] (c_output s ++ [prompt])) ;;; raise EOFError
  | l :: rest => put (mk_cli (c_world s) rest (c_output s ++ [prompt])) ;;; ret l
  end.

(** Lines 57-63. *)
Definition print_menu : PyM cli pyexc unit :=
  print [(10 :: str "Habit Tracker")] ;;;
  print [t "1. Add Habit"] ;;;
  print [t "2. Mark Habit as Completed"] ;;;
  print [t "3. View Progress"] ;;;
  print [t "4. Remove Habit"] ;;;
  print [t "5. Reset Progress"] ;;;
  print [t "6. Exit"].

Section Main.
Context `{!JsonCodec, !UnicodeData}.

(** A call [tracker.method(...)]. *)
Definition on_tracker {A} (p : PyM world pyexc A) : PyM cli pyexc A :=
  fun s => let '(w', r) := p (c_world s) in (with_world s w', r).

(** One pass of [while True:] (lines 57-98): [true] to go on,
    [false] at [break]. *)
Definition loop_body : PyM cli pyexc bool :=
  print_menu ;;;
  choice <- input (str "Choose an option: ") ;;
  if bool_decide (choice = str "1") then
    name <- input (str "Enter habit name: ") ;;
    description <- input (str "Enter description (optional): ") ;;
    frequency <- input (str "Enter frequency (daily/weekly): ") ;;
    on_tracker (add_habit name description frequency) ;;;
    print [t "Habit '"; name; t "' added!"] ;;;
    ret true
  else if bool_decide (choice = str "2") then
    name <- input (str "Enter habit name: ") ;;
    on_tracker (mark_completed name) ;;;
    print [t "Habit '"; name; t "' marked as completed!"] ;;;
    ret true
  else if bool_decide (choice = str "3") then
    name <- input (str "Enter habit name: ") ;;
    progress <- on_tracker (view_progress name) ;;
    shown <- lift (py_format progress) ;;
    print [t "Progress for '"; name; t "': "; shown] ;;;
    ret true
  else if bool_decide (choice = str "4") then
    name <- input (str "Enter habit name: ") ;;
    on_tracker (remove_habit name) ;;;
    print [t "Habit '"; name; t "' removed!"] ;;;
    ret true
  else if bool_decide (choice = str "5") then
    on_tracker reset_progress ;;;
    print [t "All progress has been reset."] ;;;
    ret true
  else if bool_decide (choice = str "6") then
    print [t "Exiting the Habit Tracker."] ;;;
    ret false
  else
    print [t "Invalid choice, please try again."] ;;;
    ret true.

(** [while True:] for at most [fuel] passes. *)
Fixpoint main_loop (fuel : nat) : PyM cli pyexc loop_end :=
  match fuel with
  | O => ret LoopFuel
  | S fuel' => go <- loop_body ;; if go then main_loop fuel' else ret LoopBreak
  end.

(** [main()] on the disk [dk] and the lines of standard input [inp]. *)
Definition main (dk : gmap pystr fentry) (inp : list pystr) : main_outcome :=
  match HabitTracker default_file dk with
  | InitRaised e => MainInit e
  | InitFloat => MainFloat
  | Ready w =>
      match main_loop (S (length inp)) (mk_cli w inp []) with
      | (s, inl e) => MainRaised s e
      | (s, inr LoopBreak) => MainExit s
      | (s, inr LoopFuel) => MainFuel s
      end
  end.

(** [if __name__ == "__main__": main()] (lines 101-102): the script run
    on the disk [dk] with standard input [inp]. *)
Definition script (dk : gmap pystr fentry) (inp : list pystr) : main_outcome := main dk inp.
End Main.

(** ** Every pass reads a line *)

(** [p] never gives [input()] more lines to read. *)
Definition input_le {A} (p : PyM cli pyexc A) : Prop :=
  forall s, (length (c_input (p s).1) <= length (c_input s))%nat.

Lemma input_le_ret {A} (a : A) : input_le (ret a).
Proof. intros s. done. Qed.

Lemma input_le_bind {A B} (m : PyM cli pyexc A) (k : A -> PyM cli pyexc B) :
  input_le m -> (forall a, input_le (k a)) -> input_le (bind m k).
Proof.
  intros Hm Hk s. unfold bind. specialize (Hm s).
  destruct (m s) as [s1 [e|a]]; simpl in *; [done|]. specialize (Hk a s1). lia.
Qed.

Lemma input_le_print cs : input_le (print cs).
Proof. intros s. done. Qed.

Lemma input_le_lift {A} (r : pyexc + A) : input_le (lift r).
Proof. intros s. done. Qed.

Lemma input_le_input prompt : input_le (input prompt).
Proof. intros s. unfold input. rewrite bind_get. destruct (c_input s); simpl; lia. Qed.

Lemma input_le_state {A} (p : PyM cli pyexc A) s s' r :
  input_le p -> p s = (s', r) -> (length (c_input s') <= length (c_input s))%nat.
Proof. intros Hp Hs. specialize (Hp s). by rewrite Hs in Hp. Qed.

Lemma input_cons prompt s l rest :
  c_input s = l :: rest -> input prompt s = (mk_cli (c_world s) rest (c_output s ++ [prompt]), inr l).
Proof. intros Hs. unfold input. rewrite bind_get, Hs. reflexivity. Qed.

Lemma input_inr prompt s s' l : input prompt s = (s', inr l) -> c_input s = l :: c_input s'.
Proof.
  unfold input. rewrite bind_get. destruct (c_input s) as [|l' rest]; [discriminate|].
  by intros [= <- <-].
Qed.

Lemma print_menu_input s : c_input (print_menu s).1 = c_input s.
Proof. reflexivity. Qed.

Section Loop.
Context `{!JsonCodec, !UnicodeData}.

Lemma input_le_on_tracker {A} (p : PyM world pyexc A) : input_le (on_tracker p).
Proof. intros s. unfold on_tracker. by destruct (p (c_world s)). Qed.

Ltac input_le_tac :=
  repeat first [ apply input_le_input | apply input_le_print | apply input_le_on_tracker | apply input_le_lift
               | apply input_le_ret | apply input_le_bind; intros ?; cbv beta | case_bool_decide ].

(** A pass that goes on or breaks has read at least the choice. *)
Lemma loop_body_consumes s s' b :
  loop_body s = (s', inr b) -> (length (c_input s') < length (c_input s))%nat.
Proof.
  unfold loop_body. intros (s1 & [] & Hm & Hb)%bind_inr_inv.
  apply bind_inr_inv in Hb as (s2 & l & Hi & Hb).
  assert (Hs1 : c_input s1 = c_input s) by (by rewrite <- (print_menu_input s), Hm).
  apply input_inr in Hi. rewrite Hs1 in Hi.
  enough (length (c_input s') <= length (c_input s2))%nat by (rewrite Hi; simpl; lia).
  eapply input_le_state; [|exact Hb]. input_le_tac.
Qed.

Lemma main_loop_enough n s : (length (c_input s) < n)%nat -> (main_loop n s).2 <> inr LoopFuel.
Proof.
  revert s. induction n as [|n IH]; intros s Hn; [lia|]. cbn [main_loop]. unfold bind at 1.
  destruct (loop_body s) as [s1 [e|[]]] eqn:Hb; [done| |done].
  apply loop_body_consumes in Hb. apply IH. lia.
Qed.

Lemma main_loop_fuel n n' s :
  (length (c_input s) < n)%nat -> (length (c_input s) < n')%nat -> main_loop n s = main_loop n' s.
Proof.
  revert n' s. induction n as [|n IH]; intros n' s Hn Hn'; [lia|].
  destruct n' as [|n']; [lia|]. cbn [main_loop]. unfold bind at 1 2.
  destruct (loop_body s) as [s1 [e|[]]] eqn:Hb; try done.
  apply loop_body_consumes in Hb. apply IH; lia.
Qed.
End Loop.

(** ** One pass *)

(** The choices the menu acts on. *)
Definition menu_choices : list pystr := [str "1"; str "2"; str "3"; str "4"; str "5"; str "6"].

(** What [print_menu] writes. *)
Definition menu_output : list pystr :=
  [(10 :: str "Habit Tracker"); [10]; t "1. Add Habit"; [10];
   t "2. Mark Habit as Completed"; [10]; t "3. View Progress"; [10];
   t "4. Remove Habit"; [10]; t "5. Reset Progress"; [10]; t "6. Exit"; [10]].

(** The input lines with which the menu makes the request [c]. *)
Definition menu_lines (c : command) : list pystr :=
  match c with
  | CAdd n d f => [str "1"; n; d; f]
  | CMark n => [str "2"; n]
  | CView n => [str "3"; n]
  | CRemove n => [str "4"; n]
  | CReset => [str "5"]
  end.

Lemma print_menu_run s :
  print_menu s = (mk_cli (c_world s) (c_input s) (c_output s ++ menu_output), inr tt).
Proof. cbv [print_menu print modify bind]. cbn. by rewrite <- !app_assoc. Qed.

Lemma input_mk prompt w l rest o :
  input prompt (mk_cli w (l :: rest) o) = (mk_cli w rest (o ++ [prompt]), inr l).
Proof. reflexivity. Qed.

Lemma length_menu_lines cs : (length cs <= length (flat_map menu_lines cs))%nat.
Proof. induction cs as [|[] cs IH]; simpl; lia. Qed.

(** Decide the tests [choice == '1'], ... on a known choice. *)
Ltac choose :=
  repeat first [ rewrite bool_decide_true by reflexivity
               | rewrite bool_decide_false by (let H := fresh in intros H; vm_compute in H; discriminate H) ].

Section Pass.
Context `{!JsonCodec, !UnicodeData}.

Lemma bind_on_tracker {A B} (p : PyM world pyexc A) (k : A -> PyM cli pyexc B) s :
  bind (on_tracker p) k s =
    match p (c_world s) with
    | (w', inl e) => (with_world s w', inl e)
    | (w', inr a) => k a (with_world s w')
    end.
Proof. unfold bind, on_tracker. by destruct (p (c_world s)) as [w' [e|a]]. Qed.

(** A pass reading the lines of a request makes the request. *)
Lemma loop_body_command c s rest :
  py_fits (w_habits (c_world s)) = true -> c_input s = menu_lines c ++ rest ->
  exists out, loop_body s =
    (mk_cli (run_command c (c_world s)).1 rest out,
     match (run_command c (c_world s)).2 with inl e => inl e | inr _ => inr true end).
Proof.
  intros Hfit Hin. unfold loop_body. rewrite (bind_ok _ _ _ _ _ (print_menu_run s)). cbv beta.
  destruct c as [n d f|n|n|n|]; cbn [menu_lines app] in Hin;
    rewrite Hin; rewrite (bind_ok _ _ _ _ _ (input_mk _ _ _ _ _)); cbv beta; choose;
    repeat (rewrite (bind_ok _ _ _ _ _ (input_mk _ _ _ _ _)); cbv beta); rewrite ?bind_on_tracker;
    cbn [run_command c_world];
    match goal with |- context [match ?p (c_world s) with _ => _ end] =>
      destruct (p (c_world s)) as [w' [e|a]] eqn:E end;
    first [rewrite (bind_err _ _ _ _ _ E) | rewrite (bind_ok _ _ _ _ _ E)];
    try match goal with E : view_progress _ _ = (_, inr ?a) |- _ =>
      destruct (py_format_ok a (view_progress_fits _ _ _ Hfit ltac:(by rewrite E))) as [txt ->] end;
    eexists; reflexivity.
Qed.

Lemma loop_body_exit s rest :
  c_input s = str "6" :: rest ->
  loop_body s =
    (mk_cli (c_world s) rest (c_output s ++ menu_output ++
       [(str "Choose an option: "); t "Exiting the Habit Tracker."; [10]]), inr false).
Proof.
  intros Hin. unfold loop_body. rewrite (bind_ok _ _ _ _ _ (print_menu_run s)). cbv beta.
  rewrite Hin, (bind_ok _ _ _ _ _ (input_mk _ _ _ _ _)). cbv beta. choose.
  cbv [print modify bind ret]. cbn. by rewrite <- !app_assoc.
Qed.
End Pass.

(** ** The loop and the abstract store *)

Section Session.
Context `{!JsonCodec, !UnicodeData}.

Lemma main_loop_commands cs s m rest fuel b :
  abs_store (w_habits (c_world s)) = Some m -> file_writable (c_world s) = true ->
  py_fits (w_habits (c_world s)) = true ->
  Store.counts_below b m -> Z.of_nat (b + length cs) <= int_str_bound ->
  c_input s = flat_map menu_lines cs ++ str "6" :: rest -> (length cs < fuel)%nat ->
  match Store.exec cs m with
  | inl e => exists s', main_loop fuel s = (s', inl (exc_of e))
  | inr m' => exists s', main_loop fuel s = (s', inr LoopBreak) /\
                         abs_store (w_habits (c_world s')) = Some m' /\ c_input s' = rest
  end.
Proof.
  revert s m fuel b. induction cs as [|c cs IH]; intros s m fuel b Habs Hw Hfit Hb Hbound Hin Hf;
    (destruct fuel as [|fuel]; [simpl in Hf; lia|]); cbn [main_loop Store.exec].
  - rewrite (bind_ok _ _ _ _ _ (loop_body_exit s rest Hin)). eexists. by split_and!.
  - destruct (loop_body_command c s (flat_map menu_lines cs ++ str "6" :: rest) Hfit) as [out Hb'].
    { rewrite Hin. cbn [flat_map]. by rewrite <- app_assoc. }
    pose proof (after_counts_below c b m Hb) as Hb1.
    pose proof (run_command_refines c (c_world s) m Habs Hw Hfit
                  (counts_below_fits _ _ Hb1 ltac:(simpl in Hbound; lia))) as Hr.
    unfold Store.after in Hb1. destruct (Store.step c m) as [e|[m' r]].
    + rewrite Hr in Hb'. simpl in Hb'. eexists. by rewrite (bind_err _ _ _ _ _ Hb').
    + destruct Hr as (w' & Hrun & Habs' & Hw' & _ & Hfit' & _). rewrite Hrun in Hb'. simpl in Hb'.
      rewrite (bind_ok _ _ _ _ _ Hb'). apply (IH _ _ _ (S b)); [done..| simpl in Hbound |- *; lia | done | simpl in Hf; lia].
Qed.

(** C1: [main()] implements the specification's store.  Started on a
    disk where [HabitTracker()] gives a tracker standing for [m] with a
    writable file, and fed the menu lines of the requests [cs] and then
    ["6"], while the counts stay within Python's int conversion limit
    (every count of [m] below [b], and [b] plus the number of requests
    at most [int_str_bound], that is [10 ^ 4300]), [main] exits with its tracker standing for
    [Store.exec cs m] when the store accepts every request; when a
    request is refused, the refusal's [ValueError] escapes [main] and
    ends the program. *)
Theorem main_commands dk w m cs rest b :
  HabitTracker default_file dk = Ready w -> abs_store (w_habits w) = Some m ->
  file_writable w = true -> Store.counts_below b m -> Z.of_nat (b + length cs) <= int_str_bound ->
  match Store.exec cs m with
  | inl e => exists s, main dk (flat_map menu_lines cs ++ str "6" :: rest) = MainRaised s (exc_of e)
  | inr m' => exists s, main dk (flat_map menu_lines cs ++ str "6" :: rest) = MainExit s /\
                        abs_store (w_habits (c_world s)) = Some m' /\ c_input s = rest
  end.
Proof.
  intros Hinit Habs Hw Hb Hbound. unfold main. rewrite Hinit.
  set (inp := flat_map menu_lines cs ++ str "6" :: rest).
  assert (Hf : (length cs < S (length inp))%nat).
  { pose proof (length_menu_lines cs). subst inp. rewrite length_app. simpl. lia. }
  pose proof (main_loop_commands cs (mk_cli w inp []) m rest _ b Habs Hw (HabitTracker_fits _ _ _ Hinit)
                Hb Hbound eq_refl Hf) as Hl.
  destruct (Store.exec cs m) as [e|m'].
  - destruct Hl as [s' ->]. eauto.
  - destruct Hl as (s' & -> & Ha & Hr). eauto.
Qed.

(** C32: the loop always stops within its fuel.  Every pass that does
    not end [main] reads a line, so with more passes than input lines
    [main_loop] never runs out of fuel, and any such fuel gives the
    same result as the fuel [main] uses. *)
Theorem main_loop_terminates n s :
  (length (c_input s) < n)%nat ->
  main_loop n s = main_loop (S (length (c_input s))) s /\ (main_loop n s).2 <> inr LoopFuel.
Proof. intros Hn. split; [apply main_loop_fuel; lia | by apply main_loop_enough]. Qed.

(** C31: a choice other than ["1"] to ["6"] prints the menu, the
    prompt and ["Invalid choice, please try again."], calls no method
    (the tracker is unchanged) and goes on with the next line. *)
Theorem loop_body_invalid s choice rest :
  choice ∉ menu_choices -> c_input s = choice :: rest ->
  loop_body s =
    (mk_cli (c_world s) rest (c_output s ++ menu_output ++
       [(str "Choose an option: "); t "Invalid choice, please try again."; [10]]), inr true).
Proof.
  intros Hc Hin. unfold loop_body. rewrite (bind_ok _ _ _ _ _ (print_menu_run s)). cbv beta.
  rewrite Hin, (bind_ok _ _ _ _ _ (input_mk _ _ _ _ _)). cbv beta.
  rewrite !bool_decide_false by (intros ->; apply Hc; unfold menu_choices; repeat constructor).
  cbv [print modify bind ret]. cbn. by rewrite <- !app_assoc.
Qed.

(** C33: when standard input is exhausted, the pass raises [EOFError]
    from [input()] after printing the menu and the prompt, with the
    tracker unchanged.  ([main_loop] and [main] pass the exception on;
    that is their definition, not this theorem.) *)
Theorem loop_body_eof s :
  c_input s = [] ->
  loop_body s = (mk_cli (c_world s) [] (c_output s ++ menu_output ++ [(str "Choose an option: ")]),
                 inl EOFError).
Proof.
  intros Hin. unfold loop_body. rewrite (bind_ok _ _ _ _ _ (print_menu_run s)). cbv beta.
  rewrite Hin. cbv [input bind get put raise]. cbn. by rewrite <- !app_assoc.
Qed.
(** C9: the script always ends.  On every disk and every
    standard input, running [habit_tracker.py] returns from [main()]
    after choice ["6"], or stops on an exception ([EOFError] once the
    input is exhausted, a [ValueError] or an error of [open]) or on the
    float case of [HabitTracker()]: the loop never runs out of fuel. *)
Theorem script_terminates dk inp :
  match script dk inp with MainFuel _ => False | _ => True end.
Proof.
  unfold script, main. destruct (HabitTracker default_file dk) as [w|e|]; [|done|done].
  pose proof (main_loop_enough (S (length inp)) (mk_cli w inp []) ltac:(simpl; lia)) as Hloop.
  by destruct (main_loop _ _) as [s [e|[]]].
Qed.
End Session.

(** ** The progress text in every state of the loop *)

Section Reach.
Context `{!JsonCodec, !UnicodeData}.

(** The states of [main]'s loop on the disk [dk]: the one [main]
    starts from, and the state every pass that goes on leaves. *)
Inductive loop_reach (dk : gmap pystr fentry) : cli -> Prop :=
| lr_start w inp : HabitTracker default_file dk = Ready w -> loop_reach dk (mk_cli w inp [])
| lr_pass s s' : loop_reach dk s -> loop_body s = (s', inr true) -> loop_reach dk s'.

(** A method that returns leaves [habits] within the int conversion
    limit: it returned through a [json.dump] that completed. *)
Lemma method_outcome_fits w o u :
  method_outcome w o -> o.2 = inr u -> py_fits (w_habits o.1) = true.
Proof.
  destruct 1 as [h e|h]; [done|]. unfold commit. destruct (file_writable _); [|done].
  destruct (json_dump_io _) as [t|t e] eqn:Hd; [|done]. intros _. exact (json_dumped_fits _ _ Hd).
Qed.

(** [p] returns only on trackers within the limit, from one within it. *)
Definition keeps_fits {A} (p : PyM cli pyexc A) : Prop :=
  forall s s' a, py_fits (w_habits (c_world s)) = true -> p s = (s', inr a) ->
                 py_fits (w_habits (c_world s')) = true.

Lemma keeps_fits_bind {A B} (m : PyM cli pyexc A) (k : A -> PyM cli pyexc B) :
  keeps_fits m -> (forall a, keeps_fits (k a)) -> keeps_fits (bind m k).
Proof.
  intros Hm Hk s s' b Hs. unfold bind. destruct (m s) as [s1 [e|a]] eqn:E; [done|].
  apply Hk. exact (Hm _ _ _ Hs E).
Qed.

(** [print], [input], [lift] and [ret] leave the tracker alone. *)
Lemma keeps_fits_world {A} (p : PyM cli pyexc A) :
  (forall s, c_world (p s).1 = c_world s) -> keeps_fits p.
Proof. intros Hp s s' a Hs E. pose proof (Hp s) as Hw. rewrite E in Hw. simpl in Hw. by rewrite Hw. Qed.

Lemma keeps_fits_input prompt : keeps_fits (input prompt).
Proof. apply keeps_fits_world. intros s. unfold input. rewrite bind_get. by destruct (c_input s). Qed.

Lemma keeps_fits_method (p : PyM world pyexc unit) :
  (forall w, method_outcome w (p w)) -> keeps_fits (on_tracker p).
Proof.
  intros Hp s s' [] _. unfold on_tracker. pose proof (method_outcome_fits _ _ tt (Hp (c_world s))) as Hf.
  destruct (p (c_world s)) as [w' r]. intros [= <- ->]. by apply Hf.
Qed.

Lemma keeps_fits_view name : keeps_fits (on_tracker (view_progress name)).
Proof.
  intros s s' a Hs. unfold on_tracker. pose proof (view_progress_state name (c_world s)) as Hv.
  destruct (view_progress name (c_world s)) as [w' r]. simpl in Hv. subst w'. intros [= <- _]. done.
Qed.

Lemma loop_body_keeps_fits : keeps_fits loop_body.
Proof.
  unfold loop_body.
  repeat first [ apply keeps_fits_input | apply keeps_fits_view
               | apply keeps_fits_method; intros w;
                 first [apply add_habit_outcome | apply mark_completed_outcome
                       | apply remove_habit_outcome | apply reset_progress_outcome]
               | apply keeps_fits_bind; [|intros ?; cbv beta] | case_bool_decide
               | apply keeps_fits_world; intros s; done ].
Qed.

(** Every tracker of [main]'s loop is within the int conversion limit:
    [HabitTracker()] reads none beyond it, and a pass that goes on
    returned through completed saves only. *)
Lemma loop_reach_fits dk s : loop_reach dk s -> py_fits (w_habits (c_world s)) = true.
Proof.
  induction 1 as [w inp Hw|s s' _ IH Hb]; [exact (HabitTracker_fits _ _ _ Hw)|].
  exact (loop_body_keeps_fits _ _ _ IH Hb).
Qed.

(** C10: the progress line never raises.  In every state of [main]'s
    loop, when choice ["3"] reads a name whose [view_progress] returns a
    value, formatting that value in the f-string succeeds: the pass
    prints the prompts, [Progress for '<name>': ] and the value's text,
    changes nothing and goes on.  A count beyond the int conversion
    limit, on which [str()] would raise, never reaches the loop. *)
Theorem loop_view_prints dk s name rest v :
  loop_reach dk s -> c_input s = str "3" :: name :: rest -> (view_progress name (c_world s)).2 = inr v ->
  exists txt, py_format v = inr txt /\
    loop_body s =
      (mk_cli (c_world s) rest (c_output s ++ menu_output ++
         [str "Choose an option: "; str "Enter habit name: "; t "Progress for '"; name; t "': "; txt; [10]]),
       inr true).
Proof.
  intros Hr Hin Hv. pose proof (loop_reach_fits dk s Hr) as Hf.
  destruct (py_format_ok v (view_progress_fits name _ v Hf Hv)) as [txt Htxt]. exists txt. split; [done|].
  pose proof (view_progress_state name (c_world s)) as Hw.
  destruct (view_progress name (c_world s)) as [w' r] eqn:E. simpl in Hv, Hw. subst w' r.
  unfold loop_body. rewrite (bind_ok _ _ _ _ _ (print_menu_run s)). cbv beta.
  rewrite Hin, (bind_ok _ _ _ _ _ (input_mk _ _ _ _ _)). cbv beta. choose.
  rewrite (bind_ok _ _ _ _ _ (input_mk _ _ _ _ _)). cbv beta. rewrite bind_on_tracker. cbn [c_world].
  rewrite E, Htxt. cbv [print modify bind ret lift with_world]. cbn. by rewrite <- !app_assoc.
Qed.
End Reach.
