(* ===== verification/Tests.v ===== *)
(** * The unit tests (src/test_habit_tracker.py)

    [TestHabitTracker] is run the way [unittest] runs it: for every test
    method, [setUp] builds [HabitTracker(filename="test_habits.json")]
    and empties its [habits], the method runs, and [tearDown] removes
    the file.  A failed assertion is the exception [AssertionError]; a
    test passes when its method returns, fails on [AssertionError], and
    errs on any other exception.  Each test method is a program of the
    monad [PyM world pyexc] over the same methods [Tracker] defines, and
    [with self.assertRaises(ValueError):] is a handler that turns a
    [ValueError] into success.  The suite runs the methods in the order
    [unittest] sorts them, the disk passed from one test to the next.
    [suite_passes_any_content] evaluates the suite on a test file left
    with any content, and [suite_errors_on_load_error] on one that
    [json.load] refuses with an exception. *)

From S2P Require Import Prelude PyDict PyValue Codec Tracker Json JsonParse JsonRoundtrip.

Local Open Scope pym_scope.

(** ** The harness *)

(** [self.test_file] (line 9). *)
Definition test_file : pystr := str "test_habits.json".

(** What a test comes to. *)
Inductive test_result : Type := Passed | Failed | Errored (e : pyexc).

#[export] Instance test_result_eq_dec : EqDecision test_result.
Proof. solve_decision. Defined.

Section Harness.
Context `{!JsonCodec}.

(** [setUp] (lines 7-11): [HabitTracker(filename=self.test_file)], then
    [self.tracker.habits = {}].  The loaded object is dropped, so a
    file holding a float gives the same tracker as any other; only an
    exception of [open] stops [setUp]. *)
Definition setUp (dk : gmap pystr fentry) : pyexc + world :=
  match HabitTracker test_file dk with
  | Ready w => inr (with_habits w (PDict []))
  | InitFloat => inr (mk_world test_file (PDict []) dk)
  | InitRaised e => inl e
  end.

(** [tearDown] (lines 13-16): [os.remove] of the file when it exists. *)
Definition tearDown (w : world) : world := with_disk w (delete test_file (w_disk w)).

(** [assert] of a condition: [AssertionError] when it does not hold. *)
Definition fail_unless (b : bool) : PyM world pyexc unit :=
  if b then ret tt else raise AssertionError.

(** [self.assertIn(k, self.tracker.habits)] *)
Definition assertIn (k : pystr) : PyM world pyexc unit :=
  w <- get ;; b <- lift (py_contains k (w_habits w)) ;; fail_unless b.

(** [self.assertNotIn(k, self.tracker.habits)] *)
Definition assertNotIn (k : pystr) : PyM world pyexc unit :=
  w <- get ;; b <- lift (py_contains k (w_habits w)) ;; fail_unless (negb b).

(** [self.assertEqual(a, b)] *)
Definition assertEqual (a b : pyval) : PyM world pyexc unit := fail_unless (py_eq a b).

(** [self.tracker.habits[k1][k2]] *)
Definition habits_item (k1 k2 : pystr) : PyM world pyexc pyval :=
  w <- get ;; r <- lift (py_getitem (w_habits w) (PStr k1)) ;; lift (py_getitem r (PStr k2)).

(** [with self.assertRaises(ValueError): p]: a [ValueError] (or its
    subclass [JSONDecodeError]) is caught; any other exception passes
    through; no exception is a failure. *)
Definition assertRaises_ValueError (p : PyM world pyexc unit) : PyM world pyexc unit :=
  fun w =>
    match p w with
    | (w', inl (ValueError _)) | (w', inl JSONDecodeError) => (w', inr tt)
    | (w', inl e) => (w', inl e)
    | (w', inr _) => (w', inl AssertionError)
    end.

(** ** The test methods *)

Definition exercise : pystr := str "Exercise".
Definition meditation : pystr := str "Meditation".
Definition nonexistent : pystr := str "Nonexistent".

(** Lines 18-24. *)
Definition test_add_habit : PyM world pyexc unit :=
  add_habit exercise (str "Daily workout") (str "daily") ;;;
  assertIn exercise ;;;
  d <- habits_item exercise k_description ;; assertEqual d (PStr (str "Daily workout")) ;;;
  f <- habits_item exercise k_frequency ;; assertEqual f (PStr (str "daily")) ;;;
  c <- habits_item exercise k_count ;; assertEqual c (PInt 0).

(** Lines 26-30. *)
Definition test_add_existing_habit : PyM world pyexc unit :=
  add_habit exercise (str "Daily workout") (str "daily") ;;;
  assertRaises_ValueError (add_habit exercise (str "Another description") (str "weekly")).

(** Lines 32-36. *)
Definition test_mark_completed : PyM world pyexc unit :=
  add_habit exercise (str "Daily workout") (str "daily") ;;;
  mark_completed exercise ;;;
  c <- habits_item exercise k_count ;; assertEqual c (PInt 1).

(** Lines 38-41. *)
Definition test_mark_completed_nonexistent_habit : PyM world pyexc unit :=
  assertRaises_ValueError (mark_completed nonexistent).

(** Lines 43-48. *)
Definition test_view_progress : PyM world pyexc unit :=
  add_habit exercise (str "Daily workout") (str "daily") ;;;
  mark_completed exercise ;;;
  progress <- view_progress exercise ;;
  assertEqual progress (PInt 1).

(** Lines 50-53. *)
Definition test_view_progress_nonexistent_habit : PyM world pyexc unit :=
  assertRaises_ValueError (_ <- view_progress nonexistent ;; ret tt).

(** Lines 55-59. *)
Definition test_remove_habit : PyM world pyexc unit :=
  add_habit exercise (str "Daily workout") (str "daily") ;;;
  remove_habit exercise ;;;
  assertNotIn exercise.

(** Lines 61-64. *)
Definition test_remove_nonexistent_habit : PyM world pyexc unit :=
  assertRaises_ValueError (remove_habit nonexistent).

(** Lines 66-74. *)
Definition test_reset_progress : PyM world pyexc unit :=
  add_habit exercise (str "Daily workout") (str "daily") ;;;
  add_habit meditation (str "Daily meditation") (str "daily") ;;;
  mark_completed exercise ;;;
  mark_completed meditation ;;;
  reset_progress ;;;
  c1 <- habits_item exercise k_count ;; assertEqual c1 (PInt 0) ;;;
  c2 <- habits_item meditation k_count ;; assertEqual c2 (PInt 0).

(** The test methods in the order [unittest] runs them (sorted by
    name). *)
Definition suite : list (PyM world pyexc unit) :=
  [test_add_existing_habit; test_add_habit; test_mark_completed;
   test_mark_completed_nonexistent_habit; test_remove_habit;
   test_remove_nonexistent_habit; test_reset_progress; test_view_progress;
   test_view_progress_nonexistent_habit].

(** One test: [setUp], the method, then [tearDown] when [setUp]
    succeeded; the result and the disk it leaves. *)
Definition run_test (dk : gmap pystr fentry) (t : PyM world pyexc unit) : test_result * gmap pystr fentry :=
  match setUp dk with
  | inl e => (Errored e, dk)
  | inr w =>
      let '(w', r) := t w in
      (match r with
       | inr _ => Passed
       | inl AssertionError => Failed
       | inl e => Errored e
       end, w_disk (tearDown w'))
  end.

(** [unittest.main()] (lines 77-78): the tests one after the other. *)
Fixpoint run_suite (dk : gmap pystr fentry) (ts : list (PyM world pyexc unit))
    : list test_result * gmap pystr fentry :=
  match ts with
  | [] => ([], dk)
  | t :: ts' =>
      let '(r, dk') := run_test dk t in
      let '(rs, dk'') := run_suite dk' ts' in
      (r :: rs, dk'')
  end.
End Harness.

(** ** The suite passes *)

(** [setUp] gives a tracker with empty [habits] unless the test file
    is locked or [json.load] raises on it. *)
Lemma setUp_ok `{!JsonCodec} dk :
  match dk !! test_file with
  | Some FLocked => False
  | Some (FText t) => forall e, json_loads t <> LoadRaised e
  | None => True
  end ->
  setUp dk = inr (mk_world test_file (PDict []) dk).
Proof.
  intros Hf. unfold setUp, HabitTracker, load_data.
  destruct (dk !! test_file) as [[t|]|]; [|done|done].
  destruct (json_loads t) eqn:Ht; [done..|]. by destruct (Hf e).
Qed.

Lemma setUp_raised `{!JsonCodec} dk t e :
  dk !! test_file = Some (FText t) -> json_loads t = LoadRaised e -> setUp dk = inl e.
Proof. intros Hf Ht. unfold setUp, HabitTracker, load_data. by rewrite Hf, Ht. Qed.

(** When [setUp] raises, every test errs and the disk stays. *)
Lemma run_suite_setUp_error `{!JsonCodec} dk e ts :
  setUp dk = inl e -> run_suite dk ts = (repeat (Errored e) (length ts), dk).
Proof.
  intros He. induction ts as [|t ts IH]; [done|]. cbn [run_suite].
  unfold run_test at 1. rewrite He. cbn iota zeta. by rewrite IH.
Qed.

(** C11: whatever an earlier run left in ["test_habits.json"] (a
    store, text that is not JSON, a float), [setUp] isolates the tests:
    all nine pass and the file is gone afterwards, unless [json.load]
    raises on the text (an int of more than 4300 digits). *)
Theorem suite_passes_any_content content :
  (forall e, json_loads_text content <> LoadRaised e) ->
  run_suite {[test_file := FText content]} suite = (repeat Passed 9, ∅).
Proof.
  intros Hc. cbn [suite run_suite]. unfold run_test at 1.
  rewrite setUp_ok by (rewrite lookup_singleton_eq; exact Hc).
  vm_compute. reflexivity.
Qed.

(** C36: a test file holding an int of more than 4300 digits (which
    [json.load] refuses with [ValueError]) makes [setUp] raise in every
    test: [unittest] reports all nine tests as errors, skips
    [tearDown], and the file stays. *)
Theorem suite_errors_on_load_error content e :
  json_loads_text content = LoadRaised e ->
  run_suite {[test_file := FText content]} suite =
    (repeat (Errored e) 9, {[test_file := FText content]}).
Proof.
  intros Hc. apply run_suite_setUp_error, (setUp_raised _ content); [|done].
  by rewrite lookup_singleton_eq.
Qed.
