(* ===== verification/Restart.v ===== *)
(** * What a start of the program makes of the file

    [HabitTracker()] reads whatever ["habits.json"] holds with
    [json.load] (src/habit_tracker.py, lines 9-14) and keeps the value it
    gets.  This file follows the file from one run to the next:
    reopening after a save gives [habits] with the surrogate pairs of
    its strings joined and the habits whose names then coincide merged
    ([reopen_joins]); a file in the writer's format holding a count of
    more than 4300 digits (written by a Python before 3.11, or with the
    limit raised) stops [main] before its menu with the [ValueError] of
    [int(s)] ([main_long_int_file]); a file holding a JSON array is
    kept as [habits], on which every request raises
    ([list_file_refuses]). *)

From S2P Require Import Prelude PyDict PyInt PyValue Codec Spec Tracker Json PyFormat JsonParse JsonRoundtrip.
From S2P Require Import Refinement Cli.

Local Open Scope pym_scope.

(** ** Reopening after a save *)

(** C8: a save and the next start rename habits.  On a writable file,
    with [habits] within the int limit, [save_data] writes the file,
    and [HabitTracker] on it reads back [join_value habits]: every
    high surrogate directly followed by a low one in a name, a
    description or a frequency becomes the code point of the pair, and
    two habits whose names become equal are merged, at the first one's
    position, with the last one's record. *)
Theorem reopen_joins w :
  file_writable w = true -> cp_valid (w_habits w) = true -> py_fits (w_habits w) = true ->
  save_data w = (saved w, inr tt) /\
  HabitTracker (w_file w) (w_disk (saved w)) =
    Ready (mk_world (w_file w) (join_value (w_habits w)) (w_disk (saved w))).
Proof.
  intros Hw Hv Hf. split; [by apply save_data_ok|].
  unfold HabitTracker, load_data, saved. cbn [w_disk with_disk w_file]. rewrite lookup_insert_eq.
  cbn [json_loads json_dumps python_json]. rewrite json_loads_dump_any by done.
  by rewrite (proj2 (first_long_fits _) Hf).
Qed.

(** ** A count of more than 4300 digits in the file *)

Section LongInt.
Context `{!UnicodeData}.

(** C21: [main] on a ["habits.json"] holding the text [json.dump] writes
    for a value [v] with an int of more than 4300 digits (the first,
    [z], in the order of the text) stops in [HabitTracker()] with the
    [ValueError] of [int(s)] on [z], before printing its menu, whatever
    the input: [load_data] catches only [FileNotFoundError] and
    [JSONDecodeError], where the specification recovers an unreadable
    file as an empty store. *)
Theorem main_long_int_file dk v z inp :
  dk !! default_file = Some (FText (json_dump v)) -> cp_valid v = true -> first_long v = Some z ->
  main dk inp = MainInit (long_int_error z).
Proof.
  intros Hd Hv Hz. unfold main, HabitTracker, load_data. rewrite Hd.
  cbn [json_loads python_json]. by rewrite json_loads_dump_any, Hz.
Qed.
End LongInt.

(** ** A JSON array in the file *)

Section ListFile.
Context `{!JsonCodec}.

(** C25: a ["habits.json"] holding a JSON array is not recovered as an
    empty store: [HabitTracker] keeps the list as [habits], and then
    every add, mark, view and remove request raises with the tracker
    and its file unchanged.  When the name is an item of the list,
    [add_habit] raises ["Habit already exists"] and the others raise
    [TypeError] on [habits[name]]; otherwise [add_habit] raises
    [TypeError] on [habits[name] = ...] and the others raise
    ["Habit not found"]. *)
Theorem list_file_refuses f dk t l c :
  dk !! f = Some (FText t) -> json_loads t = Loaded (PList l) -> c <> CReset ->
  exists w e, HabitTracker f dk = Ready w /\ w_habits w = PList l /\
    run_command c w = (w, inl e) /\ e ∈ [TypeError; ValueError msg_exists; ValueError msg_not_found].
Proof.
  intros Hd Ht Hc. exists (mk_world f (PList l) dk).
  unfold HabitTracker, load_data. rewrite Hd, Ht.
  destruct c as [n d fq|n|n|n|]; [..|done]; cbn [run_command];
    unfold add_habit, mark_completed, view_progress, remove_habit;
    cbv [bind get lift raise ret put]; cbn [w_habits py_contains];
    destruct (existsb (py_eq_str n) l); cbn;
    (eexists; split_and!; [reflexivity | reflexivity | reflexivity | set_solver]).
Qed.
End ListFile.
