(* ===== verification/Scenarios.v ===== *)
(** * Witnesses

    The trackers, disks and inputs on which the theorems with
    hypotheses are applied, with the codec [python_json]: a fresh and a
    saved tracker, a file [open] refuses, a record that is not a dict,
    a surrogate pair and the code point it encodes, a JSON array in the
    file, and a count of 4300 nines.  The big-integer witnesses start
    from a tracker holding the count rather than from its file, and
    show the overflow by rewriting ([dump_count_overflow],
    [nines_overflow]), so that no 4300-digit number is converted or
    computed by the kernel. *)

From Stdlib Require Import Ascii.
From S2P Require Import Prelude PyDict PyValue Codec Spec Tracker Json JsonParse JsonRoundtrip.
From S2P Require Import PyInt PyFormat JsonPrefix Refinement Laws Persistence Safety IntLimit Cli Tests Restart.

Local Open Scope pym_scope.

(** ** Inputs *)

(** A fresh tracker on a disk without ["habits.json"]. *)
Definition w0 : world := mk_world default_file (PDict []) ∅.

Definition exercise : pystr := str "Exercise".

Definition exercise_record : pyval := new_record (str "Daily workout") (str "daily").

(** The tracker once ["Exercise"] is added and saved. *)
Definition w1 : world :=
  mk_world default_file (PDict [(exercise, exercise_record)])
    {[default_file := FText (json_dump (PDict [(exercise, exercise_record)]))]}.

Definition quoted (s : string) : pystr := 34 :: str s ++ [34].

(** A habits file in the format of [json.dump(habits, file, indent=4)]. *)
Definition exercise_text : pystr :=
  str "{" ++ [10] ++ str "    " ++ quoted "Exercise" ++ str ": {" ++ [10] ++
  str "        " ++ quoted "description" ++ str ": " ++ quoted "Daily workout" ++ str "," ++ [10] ++
  str "        " ++ quoted "frequency" ++ str ": " ++ quoted "daily" ++ str "," ++ [10] ++
  str "        " ++ quoted "completion_count" ++ str ": 0" ++ [10] ++
  str "    }" ++ [10] ++ str "}".

(** A habit named by U+D83D followed by U+DE00, two code points a
    Python [str] can hold, and a habit named U+1F600, the code point
    the pair encodes. *)
Definition pair_name : pystr := [55357; 56832].

Definition pair_world : world :=
  mk_world default_file
    (PDict [(pair_name, new_record [] (str "daily")); ([128512], new_record (str "smile") (str "weekly"))]) ∅.

(** The fields of [exercise_record]. *)
Definition exercise_fields : list (pystr * pyval) :=
  [(k_description, PStr (str "Daily workout")); (k_frequency, PStr (str "daily")); (k_count, PInt 0)].

Definition exercise_habit : habit := mk_habit (str "Daily workout") (str "daily") 0.

(** The store [w1] stands for. *)
Definition m1 : store := {[exercise := exercise_habit]}.

(** A tracker whose file [open] refuses. *)
Definition w_locked : world := mk_world default_file (PDict []) {[default_file := FLocked]}.

(** A tracker loaded from a file in which the second habit is a bare
    number. *)
Definition w_bad : world :=
  mk_world default_file (PDict [(exercise, exercise_record); (str "Read", PInt 3)])
    {[default_file := FText (str "{}")]}.

(** Requests of a short session. *)
Definition session_cmds : list command :=
  [CAdd exercise (str "Daily workout") (str "daily"); CMark exercise; CMark exercise; CView exercise].

(** A disk whose ["habits.json"] holds a JSON list. *)
Definition list_disk : gmap pystr fentry := {[default_file := FText (str "[]")]}.

(** ** Python's int conversion limit *)

(** The largest count [json.dump] writes: 4300 nines. *)
Definition nines : Z := 10 ^ 4300 - 1.

(** The fields of ["Exercise"] once completed [z] times. *)
Definition count_fields (z : Z) : list (pystr * pyval) :=
  [(k_description, PStr (str "Daily workout")); (k_frequency, PStr (str "daily")); (k_count, PInt z)].

(** A tracker holding ["Exercise"] with count [z]. *)
Definition w_count (z : Z) : world := mk_world default_file (PDict [(exercise, PDict (count_fields z))]) ∅.

(** A tracker whose ["Exercise"] has been completed [nines] times. *)
Definition w_nines : world := w_count nines.

(** What [json.dump] has written of [w_count z] when [int.__repr__]
    raises on [z]: everything up to the count. *)
Definition overflow_prefix : pystr :=
  str "{" ++ [10] ++ str "    " ++ quoted "Exercise" ++ str ": {" ++ [10] ++
  str "        " ++ quoted "description" ++ str ": " ++ quoted "Daily workout" ++ str "," ++ [10] ++
  str "        " ++ quoted "frequency" ++ str ": " ++ quoted "daily" ++ str "," ++ [10] ++
  str "        " ++ quoted "completion_count" ++ str ": ".

(** Text holding only the integer [11...1] of 4301 digits. *)
Definition long_int_text : pystr := repeat 49 4301.

(** [json.dump] of ["Exercise"] with a count [z] beyond the limit:
    it writes [overflow_prefix] and raises.  Stated for a symbolic
    [z], so that no 4300-digit number is computed. *)
Lemma dump_count_overflow z :
  int_fits z = false ->
  json_dump_stream (PDict [(exercise, PDict (count_fields z))]) = DumpRaised overflow_prefix (ValueError msg_int_to_str).
Proof. intros Hz. unfold json_dump_stream, count_fields. cbn -[int_fits]. unfold int_chunk. by rewrite Hz. Qed.

(** [nines + 1] is [10 ^ 4300], one digit too many, by rewriting
    rather than by computing the power. *)
Lemma nines_overflow : int_fits (nines + 1) = false.
Proof.
  unfold int_fits, nines, int_str_bound, int_max_str_digits. change (Z.of_nat 4300) with 4300.
  rewrite Z.sub_add, Z.abs_eq by (apply Z.pow_nonneg; lia). apply Z.ltb_irrefl.
Qed.

(** ** Witnesses *)

(** The witnesses run [main] under one Unicode database; their runs
    format ints only, so that no code point is ever classified and any
    table gives the same runs. *)
#[local] Instance witness_unicode : UnicodeData := {| unicode_printable _ := false |}.

Ltac decide_true := apply (bool_decide_unpack _); vm_compute; exact I.

(** A bound such as [Z.of_nat 4 <= int_str_bound], by evaluation. *)
Ltac small_bound := vm_compute; congruence.

Lemma main_commands_witness :
  exists s, main ∅ (flat_map menu_lines session_cmds ++ [str "6"]) = MainExit s /\
            abs_store (w_habits (c_world s)) = Some {[exercise := mk_habit (str "Daily workout") (str "daily") 2]} /\
            c_input s = [].
Proof.
  exact (main_commands ∅ w0 ∅ session_cmds [] 0 eq_refl eq_refl eq_refl
           ltac:(apply map_Forall_empty) ltac:(small_bound)).
Defined.

(** A pass adding ["Exercise"], then choice ["3"] on it. *)
Definition view_input : list pystr := [str "1"; exercise; str "Daily workout"; str "daily"; str "3"; exercise].

Definition s_added : cli := (loop_body (mk_cli w0 view_input [])).1.

Lemma loop_view_prints_witness :
  exists txt, py_format (PInt 0) = inr txt /\
    loop_body s_added =
      (mk_cli (c_world s_added) [] (c_output s_added ++ menu_output ++
         [str "Choose an option: "; str "Enter habit name: "; t "Progress for '"; exercise; t "': "; txt; [10]]),
       inr true).
Proof.
  apply (loop_view_prints ∅ s_added exercise [] (PInt 0)).
  - apply (lr_pass ∅ (mk_cli w0 view_input [])); [by apply lr_start | vm_compute; reflexivity].
  - vm_compute. reflexivity.
  - vm_compute. reflexivity.
Defined.

Lemma reopen_joins_witness :
  save_data pair_world = (saved pair_world, inr tt) /\
  HabitTracker (w_file pair_world) (w_disk (saved pair_world)) =
    Ready (mk_world (w_file pair_world) (join_value (w_habits pair_world)) (w_disk (saved pair_world))).
Proof. apply reopen_joins; reflexivity. Defined.

(** A value whose count has 4301 digits. *)
Definition long_count_value : pyval := PDict [(exercise, PDict (count_fields (nines + 1)))].

Lemma main_long_int_file_witness :
  main {[default_file := FText (json_dump long_count_value)]} [] = MainInit (long_int_error (nines + 1)).
Proof.
  apply (main_long_int_file _ long_count_value); [apply lookup_singleton_eq | reflexivity |].
  unfold long_count_value, count_fields. cbn [first_long map first_some fst snd].
  rewrite nines_overflow. reflexivity.
Defined.

Lemma list_file_refuses_witness :
  exists w e, HabitTracker default_file list_disk = Ready w /\ w_habits w = PList [] /\
    run_command (CAdd exercise [] (str "daily")) w = (w, inl e) /\
    e ∈ [TypeError; ValueError msg_exists; ValueError msg_not_found].
Proof.
  apply (list_file_refuses default_file list_disk (str "[]") [] (CAdd exercise [] (str "daily")));
    [reflexivity | vm_compute; reflexivity | discriminate].
Defined.

Lemma run_session_refines_witness :
  abs_store (w_habits (run_session session_cmds w0)) = Some (Store.run session_cmds ∅).
Proof. exact (run_session_refines session_cmds w0 ∅ eq_refl eq_refl). Defined.

Lemma reopen_reachable_witness :
  HabitTracker default_file (w_disk (run_session session_cmds w0)) = Ready (run_session session_cmds w0).
Proof.
  apply (reopen_reachable default_file ∅); [reflexivity| |vm_compute; reflexivity].
  do 4 (apply reach_step; [reflexivity|]). by apply reach_init.
Defined.

Lemma save_then_load_witness :
  exists w', save_data w1 = (w', inr tt) /\ HabitTracker (w_file w1) (w_disk w') = Ready w'.
Proof. exact (save_then_load w1 eq_refl eq_refl). Defined.

Lemma mark_completed_ok_witness :
  mark_completed exercise w1 =
    (saved (with_habits w1 (PDict (dict_set exercise (PDict (dict_set k_count (PInt 1) exercise_fields))
                                      [(exercise, exercise_record)]))), inr tt).
Proof.
  exact (mark_completed_ok w1 _ exercise exercise_fields 0 eq_refl eq_refl eq_refl eq_refl eq_refl eq_refl).
Defined.

Lemma add_habit_new_witness :
  add_habit exercise (str "Daily workout") (str "daily") w0 =
    (saved (with_habits w0 (PDict [(exercise, exercise_record)])), inr tt).
Proof. exact (add_habit_new w0 [] exercise _ _ eq_refl eq_refl eq_refl eq_refl). Defined.

Lemma remove_habit_ok_witness :
  remove_habit exercise w1 = (saved (with_habits w1 (PDict [])), inr tt).
Proof. exact (remove_habit_ok w1 _ exercise eq_refl (ex_intro _ exercise_record eq_refl) eq_refl eq_refl). Defined.

Lemma reset_progress_dict_witness :
  reset_progress w1 =
    (saved (with_habits w1 (PDict (dict_map_values reset_record [(exercise, exercise_record)]))), inr tt).
Proof.
  apply (reset_progress_dict w1 _ eq_refl); [decide_true | repeat constructor | reflexivity | reflexivity].
Defined.

Lemma add_habit_unwritable_witness :
  add_habit exercise [] (str "daily") w_locked =
    (with_habits w_locked (PDict [(exercise, new_record [] (str "daily"))]), inl PermissionError).
Proof. exact (add_habit_unwritable w_locked [] exercise _ _ eq_refl eq_refl eq_refl). Defined.

Lemma reset_progress_partial_witness :
  reset_progress w_bad =
    (with_habits w_bad (PDict (dict_map_values reset_record [(exercise, exercise_record)] ++
                               [(str "Read", PInt 3)])), inl TypeError).
Proof.
  apply (reset_progress_partial w_bad [(exercise, exercise_record)] (str "Read") (PInt 3) [] eq_refl);
    [decide_true | repeat constructor | reflexivity].
Defined.

Lemma mark_times_count_witness :
  exists w', mark_times 2 exercise w1 = (w', inr tt) /\ view_progress exercise w' = (w', inr (PInt 2)).
Proof. apply (mark_times_count 2 w1 m1 exercise exercise_habit); [reflexivity.. | small_bound]. Defined.

Lemma add_then_view_witness :
  exists w' m', add_habit exercise (str "Daily workout") (str "daily") w0 = (w', inr tt) /\
                abs_store (w_habits w') = Some m' /\ m' !! exercise = Some exercise_habit /\
                view_progress exercise w' = (w', inr (PInt 0)).
Proof. exact (add_then_view w0 ∅ exercise _ _ eq_refl eq_refl eq_refl eq_refl). Defined.

Lemma remove_then_view_witness :
  exists w', remove_habit exercise w1 = (w', inr tt) /\
             view_progress exercise w' = (w', inl (ValueError msg_not_found)).
Proof. exact (remove_then_view w1 m1 exercise eq_refl eq_refl eq_refl (ex_intro _ exercise_habit eq_refl)). Defined.

Lemma reset_then_view_witness :
  exists w', reset_progress w1 = (w', inr tt) /\
             forall name, is_Some (m1 !! name) -> view_progress name w' = (w', inr (PInt 0)).
Proof. exact (reset_then_view w1 m1 eq_refl eq_refl eq_refl). Defined.

Lemma add_existing_rejected_witness :
  add_habit exercise [] (str "weekly") w1 = (w1, inl (ValueError msg_exists)).
Proof. exact (add_existing_rejected w1 m1 exercise _ _ eq_refl (ex_intro _ exercise_habit eq_refl)). Defined.

Lemma loop_body_invalid_witness :
  loop_body (mk_cli w1 [str "9"] []) =
    (mk_cli w1 [] ([] ++ menu_output ++
       [str "Choose an option: "; t "Invalid choice, please try again."; [10]]), inr true).
Proof. apply (loop_body_invalid (mk_cli w1 [str "9"] []) (str "9") []); [decide_true | reflexivity]. Defined.

Lemma main_loop_terminates_witness :
  main_loop 5 (mk_cli w0 [str "6"] []) = main_loop 2 (mk_cli w0 [str "6"] []) /\
  (main_loop 5 (mk_cli w0 [str "6"] [])).2 <> inr LoopFuel.
Proof. apply (main_loop_terminates 5 (mk_cli w0 [str "6"] [])). simpl. lia. Defined.

Lemma loop_body_eof_witness :
  loop_body (mk_cli w0 [] []) =
    (mk_cli w0 [] ([] ++ menu_output ++ [str "Choose an option: "]), inl EOFError).
Proof. exact (loop_body_eof (mk_cli w0 [] []) eq_refl). Defined.


Lemma after_command_typed_witness :
  exists m', abs_store (w_habits (after_command (CMark exercise) w1)) = Some m'.
Proof. exact (after_command_typed (CMark exercise) w1 m1 eq_refl). Defined.

Lemma suite_passes_any_content_witness :
  run_suite {[test_file := FText exercise_text]} suite = (repeat Passed 9, ∅).
Proof. apply suite_passes_any_content. intros e. vm_compute. discriminate. Defined.

Lemma suite_errors_on_load_error_witness :
  run_suite {[test_file := FText long_int_text]} suite =
    (repeat (Errored (ValueError (msg_str_to_int 4301))) 9, {[test_file := FText long_int_text]}).
Proof. apply suite_errors_on_load_error. vm_compute. reflexivity. Defined.

Lemma json_loads_int_limit_witness :
  json_loads_text (49 :: repeat 49 4300) = LoadRaised (ValueError (msg_str_to_int 4301)).
Proof.
  apply (json_loads_int_limit 49 (repeat 49 4300)); [lia | | apply Nat.ltb_lt; vm_compute; reflexivity].
  apply Forall_forall. intros x Hx%list_elem_of_In%repeat_spec. by subst.
Defined.

Lemma save_data_int_limit_witness :
  match save_data w_nines with
  | (w', inr _) => py_fits (w_habits w_nines) = true /\ w' = saved w_nines
  | (w', inl e) => py_fits (w_habits w_nines) = false /\ e = ValueError msg_int_to_str /\
                   exists p q, q <> [] /\ json_dump (w_habits w_nines) = p ++ q /\ w' = written w_nines p
  end.
Proof. exact (save_data_int_limit w_nines eq_refl). Defined.

Lemma mark_completed_overflow_witness :
  exists p q, q <> [] /\
    json_dump (counted [(exercise, PDict (count_fields nines))] exercise (count_fields nines) (nines + 1)) = p ++ q /\
    mark_completed exercise w_nines =
      (written (with_habits w_nines
                  (counted [(exercise, PDict (count_fields nines))] exercise (count_fields nines) (nines + 1))) p,
       inl (ValueError msg_int_to_str)).
Proof.
  apply (mark_completed_overflow w_nines [(exercise, PDict (count_fields nines))] exercise (count_fields nines) nines);
    [reflexivity.. | exact nines_overflow].
Defined.

Lemma mark_completed_overflow_empties_witness :
  exists w', mark_completed exercise w_nines = (w', inl (ValueError msg_int_to_str)) /\
    w_habits w' = counted [(exercise, PDict (count_fields nines))] exercise (count_fields nines) (nines + 1) /\
    HabitTracker (w_file w_nines) (w_disk w') = Ready (mk_world (w_file w_nines) (PDict []) (w_disk w')).
Proof.
  apply (mark_completed_overflow_empties w_nines [(exercise, PDict (count_fields nines))] exercise
           (count_fields nines) nines); [reflexivity.. | exact nines_overflow].
Defined.

Lemma json_loads_cut_witness : json_loads_text overflow_prefix = DecodeFailed.
Proof.
  apply (json_loads_cut (PDict [(exercise, PDict (count_fields (nines + 1)))]) _ (ValueError msg_int_to_str));
    [reflexivity | exact (dump_count_overflow _ nines_overflow)].
Defined.
